(** * DeniDom SIMD estimate kernels

    A shallow embedding of [src/native/c/simd_calc.c] (with the declarations
    of [simd_calc.h]) and the properties of its tiered kernels.

    - [double] is abstracted by its operations ([DoubleOps]) and the kernels
      are written once over any interpretation of them.  Properties that
      only depend on the control flow and on which operation is applied to
      which operands are proved for every interpretation, so they hold bit
      for bit; properties about the value of a sum are proved for exact
      rational arithmetic ([Qc]), where no operation rounds; what rounding,
      overflow and NaN make of them is shown in IEEE 754 [binary64].  The
      scalar statements are taken as written: contraction of [a * b + c]
      into one fused operation by the compiler is not modelled.
    - The vector intrinsics act lane by lane on records of lanes, as the
      Intel Intrinsics Guide describes them.
    - [size_t] is an [N] below [2^64]; every addition, multiplication and
      subtraction the source performs on it is reduced modulo [2^64].
    - A [const double*] argument is a list read by index; a read or a store
      outside the list is undefined behaviour and makes the call [None].
      The arrays of one call are separate objects.
    - [for] loops carry their condition and their increment as written and
      run on fuel; running out of fuel is [None] as well.
    - The three shapes the preprocessor gives the translation unit
      ([HAS_X86_SIMD], [__AVX512F__]) are a parameter [build] of every
      function they change, and the processor is a parameter [cpu] of the
      probes. *)

From Stdlib Require Import ZArith NArith QArith Qcanon SpecFloat Lia.
From Stdlib Require Qcabs.
From stdpp Require Import base option list numbers.

Local Open Scope N_scope.

(** ** [double] arithmetic *)

Class DoubleOps (D : Type) := {
  d_zero : D;                      (* the literal 0.0 *)
  d_add : D → D → D;               (* a + b *)
  d_mul : D → D → D;               (* a * b *)
  d_fma : D → D → D → D            (* a * b + c, rounded once *)
}.

(** Exact arithmetic: a [double] is the rational it denotes and no operation
    rounds. *)
#[export] Instance exact_ops : DoubleOps Qc := {
  d_zero := 0%Qc;
  d_add := Qcplus;
  d_mul := Qcmult;
  d_fma a b c := (a * b + c)%Qc
}.

(** IEEE 754 binary64 with rounding to nearest, ties to even: the values and
    the operations of the Standard Library's specification of floating-point
    arithmetic at precision 53 and maximal exponent 1024.  There is one NaN;
    payloads are not distinguished. *)
Definition binary64 : Type := spec_float.

Definition b64_add : binary64 → binary64 → binary64 := SFadd 53 1024.
Definition b64_mul : binary64 → binary64 → binary64 := SFmul 53 1024.

(** [x * y + z] with one rounding, as the FMA instructions behind
    [_mm256_fmadd_pd] and [_mm512_fmadd_pd] compute it: the special cases of
    the product first, then those of the sum, then the exact value of
    [x * y + z] on a common exponent, rounded. *)
Definition b64_fma (x y z : binary64) : binary64 :=
  match x, y with
  | S754_nan, _ | _, S754_nan => S754_nan
  | S754_infinity _, S754_zero _ | S754_zero _, S754_infinity _ => S754_nan
  | S754_infinity sx, S754_infinity sy
  | S754_infinity sx, S754_finite sy _ _
  | S754_finite sx _ _, S754_infinity sy =>
      match z with
      | S754_nan => S754_nan
      | S754_infinity sz => if Bool.eqb (xorb sx sy) sz then z else S754_nan
      | _ => S754_infinity (xorb sx sy)
      end
  | S754_finite sx _ _, S754_zero sy
  | S754_zero sx, S754_finite sy _ _
  | S754_zero sx, S754_zero sy =>
      match z with
      | S754_zero sz =>
          S754_zero (if Bool.eqb (xorb sx sy) sz then sz else false)
      | _ => z
      end
  | S754_finite sx mx ex, S754_finite sy my ey =>
      let s := xorb sx sy in
      let mp := (mx * my)%positive in
      let ep := (ex + ey)%Z in
      match z with
      | S754_nan => S754_nan
      | S754_infinity _ => z
      | S754_zero _ => binary_round 53 1024 s mp ep
      | S754_finite sz mz ez =>
          let e := Z.min ep ez in
          binary_normalize 53 1024
            (cond_Zopp s (Zpos (fst (shl_align mp ep e)))
             + cond_Zopp sz (Zpos (fst (shl_align mz ez e))))%Z
            e false
      end
  end.

#[export] Instance binary64_ops : DoubleOps binary64 := {
  d_zero := S754_zero false;
  d_add := b64_add;
  d_mul := b64_mul;
  d_fma := b64_fma
}.

(** The binary64 value of an integer (exact below [2^53]), and the value a
    decimal constant [n / d] of the source denotes: the binary64 value
    nearest to it, which is the correctly rounded quotient of the two
    integers when both are below [2^53]. *)
Definition b64_of_Z (z : Z) : binary64 := binary_normalize 53 1024 z 0 false.

Definition decimal (n : Z) (d : positive) : binary64 :=
  SFdiv 53 1024 (b64_of_Z n) (b64_of_Z (Zpos d)).

(** The rational a finite binary64 value denotes. *)
Definition b64_value (x : binary64) : Qc :=
  match x with
  | S754_finite s m e => Q2Qc (inject_Z (cond_Zopp s (Zpos m)) * Qpower 2 e)
  | _ => 0%Qc
  end.

(** A floating constant of the source in an interpretation of [double]. *)
Class DoubleConstants (D : Type) := {
  d_const : binary64 → D
}.

#[export] Instance exact_constants : DoubleConstants Qc := {
  d_const := b64_value
}.

#[export] Instance binary64_constants : DoubleConstants binary64 := {
  d_const x := x
}.

(** ** [size_t] *)

Definition SIZE_MODULUS : N := 2 ^ 64.
Definition size_wrap (x : N) : N := x mod SIZE_MODULUS.
Definition size_add (a b : N) : N := size_wrap (a + b).
Definition size_mul (a b : N) : N := size_wrap (a * b).
Definition size_sub (a b : N) : N := size_wrap (a + SIZE_MODULUS - size_wrap b).

(** [sizeof(double)] *)
Definition DOUBLE_BYTES : N := 8.

(** ** [for] loops

    [c_for fuel cond next body i s] is [for (; cond(i); i = next(i)) body],
    started at [i] in state [s]; it returns the final value of [i] with the
    final state. *)
Fixpoint c_for {S : Type} (fuel : nat) (cond : N → bool) (next : N → N)
    (body : N → S → option S) (i : N) (s : S) : option (N * S) :=
  match fuel with
  | O => None
  | Datatypes.S fuel' =>
      if cond i
      then s' ← body i s; c_for fuel' cond next body (next i) s'
      else Some (i, s)
  end.

(** No loop of the source runs more than [count] times. *)
Definition loop_fuel (count : N) : nat := Datatypes.S (N.to_nat count).

(** [for (; i < count; i++)] *)
Definition for_each {S : Type} (count : N) (body : N → S → option S)
    (i : N) (s : S) : option (N * S) :=
  c_for (loop_fuel count) (λ i, i <? count) (λ i, size_add i 1) body i s.

(** [for (; i + w <= count; i += w)] *)
Definition for_chunks {S : Type} (w count : N) (body : N → S → option S)
    (i : N) (s : S) : option (N * S) :=
  c_for (loop_fuel count) (λ i, size_add i w <=? count) (λ i, size_add i w)
    body i s.

(** ** Build configuration and processor

    The translation unit has three shapes, chosen by the preprocessor:
    [HAS_X86_SIMD] (set on x86-64 targets) and, inside it, [__AVX512F__]. *)
Record build := {
  HAS_X86_SIMD : bool;
  AVX512F : bool
}.

(** The four registers written by a [cpuid] instruction, as C [int]s. *)
Record cpuid_regs := { eax : Z; ebx : Z; ecx : Z; edx : Z }.

(** The processor the program runs on, seen through the two macros of
    [<cpuid.h>]: [__cpuid(leaf, ...)] and [__cpuid_count(leaf, sub, ...)]. *)
Record cpu := {
  __cpuid : Z → cpuid_regs;
  __cpuid_count : Z → Z → cpuid_regs
}.

Definition get_cpuid (c : cpu) (func : Z) : cpuid_regs := __cpuid c func.

Definition get_cpuid_ex (c : cpu) (func sub : Z) : cpuid_regs :=
  __cpuid_count c func sub.

Definition denidom_has_avx512 (b : build) (c : cpu) : bool :=
  if HAS_X86_SIMD b then
    let r := get_cpuid c 0 in
    if (eax r <? 7)%Z then false
    else
      let r := get_cpuid_ex c 7 0 in
      negb (Z.land (ebx r) (Z.shiftl 1 16) =? 0)%Z
  else false.

Definition denidom_has_avx2 (b : build) (c : cpu) : bool :=
  if HAS_X86_SIMD b then
    let r := get_cpuid c 0 in
    if (eax r <? 7)%Z then false
    else
      let r := get_cpuid_ex c 7 0 in
      negb (Z.land (ebx r) (Z.shiftl 1 5) =? 0)%Z
  else false.

Definition denidom_has_fma (b : build) (c : cpu) : bool :=
  if HAS_X86_SIMD b then
    let r := get_cpuid c 1 in
    negb (Z.land (ecx r) (Z.shiftl 1 12) =? 0)%Z
  else false.

Section Kernels.
Context {D : Type} {ops : DoubleOps D}.

Local Infix "+." := d_add (at level 50, left associativity).
Local Infix "*." := d_mul (at level 40, left associativity).

(** ** Arrays *)

(** [a[i]] *)
Definition load (a : list D) (i : N) : option D := a !! N.to_nat i.

(** [a[i] = v] *)
Definition store (a : list D) (i : N) (v : D) : option (list D) :=
  if decide (N.to_nat i < length a)%nat
  then Some (<[N.to_nat i := v]> a) else None.

(** ** Vector registers and the intrinsics the source uses *)

Record m128d := M128 { e0 : D; e1 : D }.
Record m256d := M256 { y0 : D; y1 : D; y2 : D; y3 : D }.
Record m512d := M512 { z0 : D; z1 : D; z2 : D; z3 : D;
                       z4 : D; z5 : D; z6 : D; z7 : D }.

Definition _mm256_setzero_pd : m256d := M256 d_zero d_zero d_zero d_zero.

Definition _mm256_loadu_pd (a : list D) (i : N) : option m256d :=
  a0 ← load a i; a1 ← load a (i + 1); a2 ← load a (i + 2);
  a3 ← load a (i + 3);
  Some (M256 a0 a1 a2 a3).

Definition _mm256_storeu_pd (a : list D) (i : N) (v : m256d)
    : option (list D) :=
  a ← store a i (y0 v); a ← store a (i + 1) (y1 v);
  a ← store a (i + 2) (y2 v); store a (i + 3) (y3 v).

Definition _mm256_add_pd (a b : m256d) : m256d :=
  M256 (y0 a +. y0 b) (y1 a +. y1 b) (y2 a +. y2 b) (y3 a +. y3 b).

Definition _mm256_mul_pd (a b : m256d) : m256d :=
  M256 (y0 a *. y0 b) (y1 a *. y1 b) (y2 a *. y2 b) (y3 a *. y3 b).

Definition _mm256_fmadd_pd (a b c : m256d) : m256d :=
  M256 (d_fma (y0 a) (y0 b) (y0 c)) (d_fma (y1 a) (y1 b) (y1 c))
       (d_fma (y2 a) (y2 b) (y2 c)) (d_fma (y3 a) (y3 b) (y3 c)).

Definition _mm256_castpd256_pd128 (v : m256d) : m128d :=
  M128 (y0 v) (y1 v).

Definition _mm256_extractf128_pd (v : m256d) (imm : N) : m128d :=
  if N.testbit imm 0 then M128 (y2 v) (y3 v) else M128 (y0 v) (y1 v).

Definition _mm_add_pd (a b : m128d) : m128d :=
  M128 (e0 a +. e0 b) (e1 a +. e1 b).

Definition _mm_hadd_pd (a b : m128d) : m128d :=
  M128 (e0 a +. e1 a) (e0 b +. e1 b).

Definition _mm_cvtsd_f64 (v : m128d) : D := e0 v.

Definition _mm512_setzero_pd : m512d :=
  M512 d_zero d_zero d_zero d_zero d_zero d_zero d_zero d_zero.

Definition _mm512_loadu_pd (a : list D) (i : N) : option m512d :=
  a0 ← load a i; a1 ← load a (i + 1); a2 ← load a (i + 2);
  a3 ← load a (i + 3); a4 ← load a (i + 4); a5 ← load a (i + 5);
  a6 ← load a (i + 6); a7 ← load a (i + 7);
  Some (M512 a0 a1 a2 a3 a4 a5 a6 a7).

Definition _mm512_storeu_pd (a : list D) (i : N) (v : m512d)
    : option (list D) :=
  a ← store a i (z0 v); a ← store a (i + 1) (z1 v);
  a ← store a (i + 2) (z2 v); a ← store a (i + 3) (z3 v);
  a ← store a (i + 4) (z4 v); a ← store a (i + 5) (z5 v);
  a ← store a (i + 6) (z6 v); store a (i + 7) (z7 v).

Definition _mm512_add_pd (a b : m512d) : m512d :=
  M512 (z0 a +. z0 b) (z1 a +. z1 b) (z2 a +. z2 b) (z3 a +. z3 b)
       (z4 a +. z4 b) (z5 a +. z5 b) (z6 a +. z6 b) (z7 a +. z7 b).

Definition _mm512_mul_pd (a b : m512d) : m512d :=
  M512 (z0 a *. z0 b) (z1 a *. z1 b) (z2 a *. z2 b) (z3 a *. z3 b)
       (z4 a *. z4 b) (z5 a *. z5 b) (z6 a *. z6 b) (z7 a *. z7 b).

Definition _mm512_fmadd_pd (a b c : m512d) : m512d :=
  M512 (d_fma (z0 a) (z0 b) (z0 c)) (d_fma (z1 a) (z1 b) (z1 c))
       (d_fma (z2 a) (z2 b) (z2 c)) (d_fma (z3 a) (z3 b) (z3 c))
       (d_fma (z4 a) (z4 b) (z4 c)) (d_fma (z5 a) (z5 b) (z5 c))
       (d_fma (z6 a) (z6 b) (z6 c)) (d_fma (z7 a) (z7 b) (z7 c)).

(** The reduction sequence documented for the intrinsic: fold the upper
    half onto the lower half until two lanes are left, then add them. *)
Definition _mm512_reduce_add_pd (v : m512d) : D :=
  ((z0 v +. z4 v) +. (z2 v +. z6 v)) +. ((z1 v +. z5 v) +. (z3 v +. z7 v)).

(** [hsum256_pd] *)
Definition hsum256_pd (v : m256d) : D :=
  let low := _mm256_castpd256_pd128 v in
  let high := _mm256_extractf128_pd v 1 in
  let sum128 := _mm_add_pd low high in
  let sum := _mm_hadd_pd sum128 sum128 in
  _mm_cvtsd_f64 sum.

(** ** Data structures of [simd_calc.h] *)

Record CalculationResult := {
  direct_costs : D;
  labor_costs : D;
  machine_op_costs : D;
  material_costs : D;
  machine_costs : D;
  overhead : D;
  profit : D;
  subtotal : D;
  vat : D;
  total : D
}.

Record CalculationSettings := {
  overhead_rate : D;
  profit_rate : D;
  vat_rate : D;
  index : D
}.

(** [CalculationResult result = {0};] *)
Definition result_zero : CalculationResult :=
  {| direct_costs := d_zero; labor_costs := d_zero;
     machine_op_costs := d_zero; material_costs := d_zero;
     machine_costs := d_zero; overhead := d_zero; profit := d_zero;
     subtotal := d_zero; vat := d_zero; total := d_zero |}.

(** Assignment to the five category fields, the others kept. *)
Definition set_categories (r : CalculationResult) (d l mo mat m : D)
    : CalculationResult :=
  {| direct_costs := d; labor_costs := l; machine_op_costs := mo;
     material_costs := mat; machine_costs := m;
     overhead := overhead r; profit := profit r; subtotal := subtotal r;
     vat := vat r; total := total r |}.


(** [+=] on the five category fields. *)
Definition add_categories (r : CalculationResult) (d l mo mat m : D)
    : CalculationResult :=
  set_categories r (direct_costs r +. d) (labor_costs r +. l)
    (machine_op_costs r +. mo) (material_costs r +. mat)
    (machine_costs r +. m).

(** ** Estimate kernels *)

(** The body of the scalar accumulation loop (lines 120-125, and again
    217-222 and 337-342). *)
Definition accumulate_item (quantities direct labor machine_op material
    machine : list D) (i : N) (result : CalculationResult)
    : option CalculationResult :=
  q ← load quantities i;
  d ← load direct i;
  l ← load labor i;
  mo ← load machine_op i;
  mat ← load material i;
  m ← load machine i;
  Some (add_categories result (q *. d) (q *. l) (q *. mo) (q *. mat)
          (q *. m)).

(** Index, overhead and profit, subtotal, VAT and total (lines 128-143, and
    again 225-240 and 345-360). *)
Definition apply_settings (settings : CalculationSettings)
    (result : CalculationResult) : CalculationResult :=
  let direct := direct_costs result *. index settings in
  let labor := labor_costs result *. index settings in
  let machine_op := machine_op_costs result *. index settings in
  let material := material_costs result *. index settings in
  let machine := machine_costs result *. index settings in
  let labor_total := labor +. machine_op in
  let overhead := labor_total *. overhead_rate settings in
  let profit := labor_total *. profit_rate settings in
  let subtotal := direct +. overhead +. profit in
  let vat := subtotal *. vat_rate settings in
  let total := subtotal +. vat in
  {| direct_costs := direct; labor_costs := labor;
     machine_op_costs := machine_op; material_costs := material;
     machine_costs := machine; overhead := overhead; profit := profit;
     subtotal := subtotal; vat := vat; total := total |}.

Definition calculate_estimate_scalar (quantities direct_costs labor_costs
    machine_op_costs material_costs machine_costs : list D) (count : N)
    (settings : CalculationSettings) : option CalculationResult :=
  '(_, result) ← for_each count
      (accumulate_item quantities direct_costs labor_costs machine_op_costs
         material_costs machine_costs) 0 result_zero;
  Some (apply_settings settings result).

(** The five 256-bit accumulators. *)
Record sums256 := {
  direct_sum : m256d;
  labor_sum : m256d;
  machine_op_sum : m256d;
  material_sum : m256d;
  machine_sum : m256d
}.

Definition sums256_zero : sums256 :=
  {| direct_sum := _mm256_setzero_pd; labor_sum := _mm256_setzero_pd;
     machine_op_sum := _mm256_setzero_pd; material_sum := _mm256_setzero_pd;
     machine_sum := _mm256_setzero_pd |}.

(** Six loads and five fused multiply-adds at [idx] (lines 192-205 and
    318-323). *)
Definition fmadd_chunk256 (quantities direct labor machine_op material
    machine : list D) (idx : N) (s : sums256) : option sums256 :=
  q ← _mm256_loadu_pd quantities idx;
  d ← _mm256_loadu_pd direct idx;
  l ← _mm256_loadu_pd labor idx;
  mo ← _mm256_loadu_pd machine_op idx;
  mat ← _mm256_loadu_pd material idx;
  m ← _mm256_loadu_pd machine idx;
  Some {| direct_sum := _mm256_fmadd_pd q d (direct_sum s);
          labor_sum := _mm256_fmadd_pd q l (labor_sum s);
          machine_op_sum := _mm256_fmadd_pd q mo (machine_op_sum s);
          material_sum := _mm256_fmadd_pd q mat (material_sum s);
          machine_sum := _mm256_fmadd_pd q m (machine_sum s) |}.

(** The five 512-bit accumulators. *)
Record sums512 := {
  direct_sum512 : m512d;
  labor_sum512 : m512d;
  machine_op_sum512 : m512d;
  material_sum512 : m512d;
  machine_sum512 : m512d
}.

Definition sums512_zero : sums512 :=
  {| direct_sum512 := _mm512_setzero_pd; labor_sum512 := _mm512_setzero_pd;
     machine_op_sum512 := _mm512_setzero_pd;
     material_sum512 := _mm512_setzero_pd;
     machine_sum512 := _mm512_setzero_pd |}.

(** Lines 280-293. *)
Definition fmadd_chunk512 (quantities direct labor machine_op material
    machine : list D) (idx : N) (s : sums512) : option sums512 :=
  q ← _mm512_loadu_pd quantities idx;
  d ← _mm512_loadu_pd direct idx;
  l ← _mm512_loadu_pd labor idx;
  mo ← _mm512_loadu_pd machine_op idx;
  mat ← _mm512_loadu_pd material idx;
  m ← _mm512_loadu_pd machine idx;
  Some {| direct_sum512 := _mm512_fmadd_pd q d (direct_sum512 s);
          labor_sum512 := _mm512_fmadd_pd q l (labor_sum512 s);
          machine_op_sum512 := _mm512_fmadd_pd q mo (machine_op_sum512 s);
          material_sum512 := _mm512_fmadd_pd q mat (material_sum512 s);
          machine_sum512 := _mm512_fmadd_pd q m (machine_sum512 s) |}.

(** [calculate_estimate_avx2] under [HAS_X86_SIMD] (lines 163-243). *)
Definition calculate_estimate_avx2_simd (quantities direct_costs labor_costs
    machine_op_costs material_costs machine_costs : list D) (count : N)
    (settings : CalculationSettings) : option CalculationResult :=
  if count <? 4 then
    calculate_estimate_scalar quantities direct_costs labor_costs
      machine_op_costs material_costs machine_costs count settings
  else
    let chunks := count / 4 in
    '(_, s) ← for_each chunks
        (λ i, fmadd_chunk256 quantities direct_costs labor_costs
                machine_op_costs material_costs machine_costs (size_mul i 4))
        0 sums256_zero;
    let result := set_categories result_zero
        (hsum256_pd (direct_sum s)) (hsum256_pd (labor_sum s))
        (hsum256_pd (machine_op_sum s)) (hsum256_pd (material_sum s))
        (hsum256_pd (machine_sum s)) in
    '(_, result) ← for_each count
        (accumulate_item quantities direct_costs labor_costs machine_op_costs
           material_costs machine_costs) (size_mul chunks 4) result;
    Some (apply_settings settings result).

(** [calculate_estimate_avx2]: the vector body on x86-64, the scalar
    fallback elsewhere (lines 531-546). *)
Definition calculate_estimate_avx2 (b : build) (quantities direct_costs
    labor_costs machine_op_costs material_costs machine_costs : list D)
    (count : N) (settings : CalculationSettings)
    : option CalculationResult :=
  if HAS_X86_SIMD b then
    calculate_estimate_avx2_simd quantities direct_costs labor_costs
      machine_op_costs material_costs machine_costs count settings
  else
    calculate_estimate_scalar quantities direct_costs labor_costs
      machine_op_costs material_costs machine_costs count settings.

(** [calculate_estimate_avx512] under [HAS_X86_SIMD] and [__AVX512F__]
    (lines 251-363). *)
Definition calculate_estimate_avx512_simd (b : build) (quantities
    direct_costs labor_costs machine_op_costs material_costs
    machine_costs : list D) (count : N) (settings : CalculationSettings)
    : option CalculationResult :=
  if count <? 8 then
    calculate_estimate_avx2 b quantities direct_costs labor_costs
      machine_op_costs material_costs machine_costs count settings
  else
    let chunks := count / 8 in
    '(_, s) ← for_each chunks
        (λ i, fmadd_chunk512 quantities direct_costs labor_costs
                machine_op_costs material_costs machine_costs (size_mul i 8))
        0 sums512_zero;
    let result := set_categories result_zero
        (_mm512_reduce_add_pd (direct_sum512 s))
        (_mm512_reduce_add_pd (labor_sum512 s))
        (_mm512_reduce_add_pd (machine_op_sum512 s))
        (_mm512_reduce_add_pd (material_sum512 s))
        (_mm512_reduce_add_pd (machine_sum512 s)) in
    let remainder_start := size_mul chunks 8 in
    '(remainder_start, result) ←
      (if 4 <=? size_sub count remainder_start then
         let avx2_chunks := size_sub count remainder_start / 4 in
         '(_, rem) ← for_each avx2_chunks
             (λ i, fmadd_chunk256 quantities direct_costs labor_costs
                     machine_op_costs material_costs machine_costs
                     (size_add remainder_start (size_mul i 4)))
             0 sums256_zero;
         Some (size_add remainder_start (size_mul avx2_chunks 4),
               add_categories result
                 (hsum256_pd (direct_sum rem)) (hsum256_pd (labor_sum rem))
                 (hsum256_pd (machine_op_sum rem))
                 (hsum256_pd (material_sum rem))
                 (hsum256_pd (machine_sum rem)))
       else Some (remainder_start, result));
    '(_, result) ← for_each count
        (accumulate_item quantities direct_costs labor_costs machine_op_costs
           material_costs machine_costs) remainder_start result;
    Some (apply_settings settings result).

(** [calculate_estimate_avx512]: the three definitions of the source (lines
    251, 368 and 548). *)
Definition calculate_estimate_avx512 (b : build) (quantities direct_costs
    labor_costs machine_op_costs material_costs machine_costs : list D)
    (count : N) (settings : CalculationSettings)
    : option CalculationResult :=
  if HAS_X86_SIMD b then
    if AVX512F b then
      calculate_estimate_avx512_simd b quantities direct_costs labor_costs
        machine_op_costs material_costs machine_costs count settings
    else
      calculate_estimate_avx2 b quantities direct_costs labor_costs
        machine_op_costs material_costs machine_costs count settings
  else
    calculate_estimate_scalar quantities direct_costs labor_costs
      machine_op_costs material_costs machine_costs count settings.

(** [calculate_estimate_auto] (lines 613-644). *)
Definition calculate_estimate_auto (b : build) (c : cpu) (quantities
    direct_costs labor_costs machine_op_costs material_costs
    machine_costs : list D) (count : N) (settings : CalculationSettings)
    : option CalculationResult :=
  if denidom_has_avx512 b c then
    calculate_estimate_avx512 b quantities direct_costs labor_costs
      machine_op_costs material_costs machine_costs count settings
  else if denidom_has_avx2 b c then
    calculate_estimate_avx2 b quantities direct_costs labor_costs
      machine_op_costs material_costs machine_costs count settings
  else
    calculate_estimate_scalar quantities direct_costs labor_costs
      machine_op_costs material_costs machine_costs count settings.

(** ** Array operations *)

(** The memory [calculate_items_*] works on: three arrays it reads through
    [const double*] and the caller's output buffer, four separate objects. *)
Record items_memory := {
  quantities : list D;
  unit_costs : list D;
  coefficients : list D;
  results : list D
}.

Definition set_results (m : items_memory) (r : list D) : items_memory :=
  {| quantities := quantities m; unit_costs := unit_costs m;
     coefficients := coefficients m; results := r |}.

(** Lines 402-407 and 439-444. *)
Definition items_chunk256 (i : N) (m : items_memory) : option items_memory :=
  q ← _mm256_loadu_pd (quantities m) i;
  c ← _mm256_loadu_pd (unit_costs m) i;
  k ← _mm256_loadu_pd (coefficients m) i;
  let result := _mm256_mul_pd (_mm256_mul_pd q c) k in
  r ← _mm256_storeu_pd (results m) i result;
  Some (set_results m r).

(** Lines 429-434. *)
Definition items_chunk512 (i : N) (m : items_memory) : option items_memory :=
  q ← _mm512_loadu_pd (quantities m) i;
  c ← _mm512_loadu_pd (unit_costs m) i;
  k ← _mm512_loadu_pd (coefficients m) i;
  let result := _mm512_mul_pd (_mm512_mul_pd q c) k in
  r ← _mm512_storeu_pd (results m) i result;
  Some (set_results m r).

(** [results[i] = quantities[i] * unit_costs[i] * coefficients[i];] *)
Definition items_scalar (i : N) (m : items_memory) : option items_memory :=
  q ← load (quantities m) i;
  c ← load (unit_costs m) i;
  k ← load (coefficients m) i;
  r ← store (results m) i (q *. c *. k);
  Some (set_results m r).

(** Lines 391-414. *)
Definition calculate_items_avx2_simd (m : items_memory) (count : N)
    : option items_memory :=
  '(i, m) ← for_chunks 4 count items_chunk256 0 m;
  '(_, m) ← for_each count items_scalar i m;
  Some m.

(** Lines 565-575. *)
Definition calculate_items_scalar (m : items_memory) (count : N)
    : option items_memory :=
  '(_, m) ← for_each count items_scalar 0 m;
  Some m.

Definition calculate_items_avx2 (b : build) (m : items_memory) (count : N)
    : option items_memory :=
  if HAS_X86_SIMD b then calculate_items_avx2_simd m count
  else calculate_items_scalar m count.

(** Lines 418-451. *)
Definition calculate_items_avx512_simd (m : items_memory) (count : N)
    : option items_memory :=
  '(i, m) ← for_chunks 8 count items_chunk512 0 m;
  '(i, m) ← for_chunks 4 count items_chunk256 i m;
  '(_, m) ← for_each count items_scalar i m;
  Some m.

(** The three definitions of the source (lines 418, 474 and 577). *)
Definition calculate_items_avx512 (b : build) (m : items_memory) (count : N)
    : option items_memory :=
  if HAS_X86_SIMD b then
    if AVX512F b then calculate_items_avx512_simd m count
    else calculate_items_avx2 b m count
  else calculate_items_avx2 b m count.

(** [sum += data[i];] *)
Definition sum_item (data : list D) (i : N) (sum : D) : option D :=
  x ← load data i; Some (sum +. x).

(** Lines 490-506. *)
Definition fast_sum_avx2_simd (data : list D) (count : N) : option D :=
  '(i, sum_vec) ← for_chunks 4 count
      (λ i sum_vec,
         values ← _mm256_loadu_pd data i;
         Some (_mm256_add_pd sum_vec values))
      0 _mm256_setzero_pd;
  let sum := hsum256_pd sum_vec in
  '(_, sum) ← for_each count (sum_item data) i sum;
  Some sum.

(** Lines 587-593. *)
Definition fast_sum_scalar (data : list D) (count : N) : option D :=
  '(_, sum) ← for_each count (sum_item data) 0 d_zero;
  Some sum.

Definition fast_sum_avx2 (b : build) (data : list D) (count : N)
    : option D :=
  if HAS_X86_SIMD b then fast_sum_avx2_simd data count
  else fast_sum_scalar data count.

(** Lines 453-470. *)
Definition fast_sum_avx512_simd (data : list D) (count : N) : option D :=
  '(i, sum_vec) ← for_chunks 8 count
      (λ i sum_vec,
         values ← _mm512_loadu_pd data i;
         Some (_mm512_add_pd sum_vec values))
      0 _mm512_setzero_pd;
  let sum := _mm512_reduce_add_pd sum_vec in
  '(_, sum) ← for_each count (sum_item data) i sum;
  Some sum.

(** The three definitions of the source (lines 453, 484 and 595). *)
Definition fast_sum_avx512 (b : build) (data : list D) (count : N)
    : option D :=
  if HAS_X86_SIMD b then
    if AVX512F b then fast_sum_avx512_simd data count
    else fast_sum_avx2 b data count
  else fast_sum_avx2 b data count.

(** [sum += a[i] * b[i];] *)
Definition dot_item (a b : list D) (i : N) (sum : D) : option D :=
  x ← load a i; y ← load b i; Some (sum +. x *. y).

(** Lines 508-525. *)
Definition dot_product_simd_x86 (a b : list D) (count : N) : option D :=
  '(i, sum_vec) ← for_chunks 4 count
      (λ i sum_vec,
         va ← _mm256_loadu_pd a i;
         vb ← _mm256_loadu_pd b i;
         Some (_mm256_fmadd_pd va vb sum_vec))
      0 _mm256_setzero_pd;
  let sum := hsum256_pd sum_vec in
  '(_, sum) ← for_each count (dot_item a b) i sum;
  Some sum.

(** Lines 599-605. *)
Definition dot_product_scalar (a b : list D) (count : N) : option D :=
  '(_, sum) ← for_each count (dot_item a b) 0 d_zero;
  Some sum.

Definition dot_product_simd (bd : build) (a b : list D) (count : N)
    : option D :=
  if HAS_X86_SIMD bd then dot_product_simd_x86 a b count
  else dot_product_scalar a b count.

End Kernels.

Arguments m128d : clear implicits.
Arguments m256d : clear implicits.
Arguments m512d : clear implicits.
Arguments CalculationResult : clear implicits.
Arguments CalculationSettings : clear implicits.
Arguments sums256 : clear implicits.
Arguments sums512 : clear implicits.
Arguments items_memory : clear implicits.
Arguments hsum256_pd : simpl never.
Arguments _mm512_reduce_add_pd : simpl never.

(** [denidom_default_settings] (lines 674-681): the constants [0.12],
    [0.08], [0.20] and [1.0]. *)
Definition denidom_default_settings {D : Type} {consts : DoubleConstants D}
    : CalculationSettings D :=
  {| overhead_rate := d_const (decimal 12 100);
     profit_rate := d_const (decimal 8 100);
     vat_rate := d_const (decimal 20 100);
     index := d_const (decimal 1 1) |}.

(** * Vocabulary of the properties

    Nothing below is part of the program: these are the sums, bounds and
    loop forms its properties are stated and proved with. *)

(** ** Loops *)

(** [iterate n w body i s] runs [body] at [i], [i + w], ... ([n] times). *)
Fixpoint iterate {S : Type} (n : nat) (w : N) (body : N → S → option S)
    (i : N) (s : S) : option S :=
  match n with
  | O => Some s
  | Datatypes.S n' => s' ← body i s; iterate n' w body (i + w) s'
  end.

(** [iterate] with a body that cannot fail. *)
Fixpoint iterate_pure {S : Type} (n : nat) (w : N) (f : N → S → S)
    (i : N) (s : S) : S :=
  match n with
  | O => s
  | Datatypes.S n' => iterate_pure n' w f (i + w) (f i s)
  end.

(** ** Arrays within bounds *)

Section ArrayTerms.
Context {D : Type} {ops : DoubleOps D}.

(** [a] is a C array of at least [count] doubles: it has that many elements
    and its size in bytes is a [size_t]. *)
Definition c_array (a : list D) (count : N) : Prop :=
  count ≤ N.of_nat (length a)
  ∧ DOUBLE_BYTES * N.of_nat (length a) < SIZE_MODULUS.

(** The element at [i], for reasoning about reads known to be in bounds. *)
Definition elt (a : list D) (i : N) : D := default d_zero (a !! N.to_nat i).

(** The register loaded at [i]. *)
Definition vec256 (a : list D) (i : N) : m256d D :=
  M256 (elt a i) (elt a (i + 1)) (elt a (i + 2)) (elt a (i + 3)).

Definition vec512 (a : list D) (i : N) : m512d D :=
  M512 (elt a i) (elt a (i + 1)) (elt a (i + 2)) (elt a (i + 3))
       (elt a (i + 4)) (elt a (i + 5)) (elt a (i + 6)) (elt a (i + 7)).

#[export] Instance c_array_dec a count : Decision (c_array a count).
Proof. unfold c_array. apply _. Defined.

(** The six arrays of an estimate call hold at least [count] elements
    each. *)
Definition inputs_in_bounds (q d l mo mat m : list D) (count : N) : Prop :=
  c_array q count ∧ c_array d count ∧ c_array l count
  ∧ c_array mo count ∧ c_array mat count ∧ c_array m count.

#[export] Instance inputs_in_bounds_dec q d l mo mat m count :
  Decision (inputs_in_bounds q d l mo mat m count).
Proof. unfold inputs_in_bounds. apply _. Defined.

End ArrayTerms.

(** ** The accumulations of the estimate kernels, without failure *)

Section EstimateTerms.
Context {D : Type} {ops : DoubleOps D}.
Variables q d l mo mat m : list D.

(** [accumulate_item] when its six reads are in bounds. *)
Definition accumulate_pure (i : N) (r : CalculationResult D)
    : CalculationResult D :=
  add_categories r
    (d_mul (elt q i) (elt d i)) (d_mul (elt q i) (elt l i))
    (d_mul (elt q i) (elt mo i)) (d_mul (elt q i) (elt mat i))
    (d_mul (elt q i) (elt m i)).

(** [fmadd_chunk256] and [fmadd_chunk512] when their loads are in bounds. *)
Definition chunk256_pure (idx : N) (s : sums256 D) : sums256 D :=
  {| direct_sum := _mm256_fmadd_pd (vec256 q idx) (vec256 d idx) (direct_sum s);
     labor_sum := _mm256_fmadd_pd (vec256 q idx) (vec256 l idx) (labor_sum s);
     machine_op_sum :=
       _mm256_fmadd_pd (vec256 q idx) (vec256 mo idx) (machine_op_sum s);
     material_sum :=
       _mm256_fmadd_pd (vec256 q idx) (vec256 mat idx) (material_sum s);
     machine_sum :=
       _mm256_fmadd_pd (vec256 q idx) (vec256 m idx) (machine_sum s) |}.

Definition chunk512_pure (idx : N) (s : sums512 D) : sums512 D :=
  {| direct_sum512 :=
       _mm512_fmadd_pd (vec512 q idx) (vec512 d idx) (direct_sum512 s);
     labor_sum512 :=
       _mm512_fmadd_pd (vec512 q idx) (vec512 l idx) (labor_sum512 s);
     machine_op_sum512 :=
       _mm512_fmadd_pd (vec512 q idx) (vec512 mo idx) (machine_op_sum512 s);
     material_sum512 :=
       _mm512_fmadd_pd (vec512 q idx) (vec512 mat idx) (material_sum512 s);
     machine_sum512 :=
       _mm512_fmadd_pd (vec512 q idx) (vec512 m idx) (machine_sum512 s) |}.

(** The horizontal sums of five 256-bit accumulators. *)
Definition hsums256 (s : sums256 D) : D * D * D * D * D :=
  (hsum256_pd (direct_sum s), hsum256_pd (labor_sum s),
   hsum256_pd (machine_op_sum s), hsum256_pd (material_sum s),
   hsum256_pd (machine_sum s)).

(** The reductions of five 512-bit accumulators. *)
Definition hsums512 (s : sums512 D) : D * D * D * D * D :=
  (_mm512_reduce_add_pd (direct_sum512 s),
   _mm512_reduce_add_pd (labor_sum512 s),
   _mm512_reduce_add_pd (machine_op_sum512 s),
   _mm512_reduce_add_pd (material_sum512 s),
   _mm512_reduce_add_pd (machine_sum512 s)).

(** What [calculate_estimate_scalar], [calculate_estimate_avx2_simd] (from
    four items on) and [calculate_estimate_avx512_simd] (from eight items on)
    hand to [apply_settings]: the same loops, without bounds checks, fuel
    or wrap-around. *)
Definition scalar_sums (count : N) : CalculationResult D :=
  iterate_pure (N.to_nat count) 1 accumulate_pure 0 result_zero.

Definition avx2_sums (count : N) : CalculationResult D :=
  let chunks := count / 4 in
  let s := iterate_pure (N.to_nat chunks) 1 (λ i, chunk256_pure (i * 4))
             0 sums256_zero in
  let result := set_categories result_zero
      (hsum256_pd (direct_sum s)) (hsum256_pd (labor_sum s))
      (hsum256_pd (machine_op_sum s)) (hsum256_pd (material_sum s))
      (hsum256_pd (machine_sum s)) in
  iterate_pure (N.to_nat (count - chunks * 4)) 1 accumulate_pure
    (chunks * 4) result.

Definition avx512_sums (count : N) : CalculationResult D :=
  let chunks := count / 8 in
  let s := iterate_pure (N.to_nat chunks) 1 (λ i, chunk512_pure (i * 8))
             0 sums512_zero in
  let result := set_categories result_zero
      (_mm512_reduce_add_pd (direct_sum512 s))
      (_mm512_reduce_add_pd (labor_sum512 s))
      (_mm512_reduce_add_pd (machine_op_sum512 s))
      (_mm512_reduce_add_pd (material_sum512 s))
      (_mm512_reduce_add_pd (machine_sum512 s)) in
  let remainder_start := chunks * 8 in
  let '(remainder_start, result) :=
    if 4 <=? count - remainder_start then
      let avx2_chunks := (count - remainder_start) / 4 in
      let rem := iterate_pure (N.to_nat avx2_chunks) 1
                   (λ i, chunk256_pure (remainder_start + i * 4))
                   0 sums256_zero in
      (remainder_start + avx2_chunks * 4,
       add_categories result
         (hsum256_pd (direct_sum rem)) (hsum256_pd (labor_sum rem))
         (hsum256_pd (machine_op_sum rem)) (hsum256_pd (material_sum rem))
         (hsum256_pd (machine_sum rem)))
    else (remainder_start, result) in
  iterate_pure (N.to_nat (count - remainder_start)) 1 accumulate_pure
    remainder_start result.

End EstimateTerms.

(** ** Tiers and entry points *)

(** The three interchangeable implementations. *)
Inductive tier := Scalar | Vector256 | Vector512.

(** The selection rule of the dispatcher, as the specification words it:
    the wide-vector tier if wide-vector support is present, else the
    narrow-vector tier if narrow-vector support is present, else scalar. *)
Definition select_tier (wide narrow : bool) : tier :=
  if wide then Vector512 else if narrow then Vector256 else Scalar.

Section TierTerms.
Context {D : Type} {ops : DoubleOps D}.

(** The explicit entry point of a tier. *)
Definition calculate_estimate (t : tier) (b : build)
    (q d l mo mat m : list D) (count : N) (settings : CalculationSettings D)
    : option (CalculationResult D) :=
  match t with
  | Scalar => calculate_estimate_scalar q d l mo mat m count settings
  | Vector256 => calculate_estimate_avx2 b q d l mo mat m count settings
  | Vector512 => calculate_estimate_avx512 b q d l mo mat m count settings
  end.

(** The category sums a tier hands to [apply_settings]: which accumulation
    runs depends on the build and on [count]. *)
Definition avx2_tier_sums (b : build) (q d l mo mat m : list D) (count : N)
    : CalculationResult D :=
  if HAS_X86_SIMD b then
    if count <? 4 then scalar_sums q d l mo mat m count
    else avx2_sums q d l mo mat m count
  else scalar_sums q d l mo mat m count.

Definition avx512_tier_sums (b : build) (q d l mo mat m : list D) (count : N)
    : CalculationResult D :=
  if HAS_X86_SIMD b then
    if AVX512F b then
      if count <? 8 then avx2_tier_sums b q d l mo mat m count
      else avx512_sums q d l mo mat m count
    else avx2_tier_sums b q d l mo mat m count
  else scalar_sums q d l mo mat m count.

Definition tier_sums (t : tier) (b : build) (q d l mo mat m : list D)
    (count : N) : CalculationResult D :=
  match t with
  | Scalar => scalar_sums q d l mo mat m count
  | Vector256 => avx2_tier_sums b q d l mo mat m count
  | Vector512 => avx512_tier_sums b q d l mo mat m count
  end.

(** The four ways into the estimate calculation: a tier named by the
    caller, or the auto-selecting entry on a given processor. *)
Inductive entry_point := Explicit (t : tier) | AutoSelect (c : cpu).

Definition estimate (e : entry_point) (b : build) (q d l mo mat m : list D)
    (count : N) (settings : CalculationSettings D)
    : option (CalculationResult D) :=
  match e with
  | Explicit t => calculate_estimate t b q d l mo mat m count settings
  | AutoSelect c => calculate_estimate_auto b c q d l mo mat m count settings
  end.

(** The tier an entry point ends up running. *)
Definition entry_tier (e : entry_point) (b : build) : tier :=
  match e with
  | Explicit t => t
  | AutoSelect c =>
      select_tier (denidom_has_avx512 b c) (denidom_has_avx2 b c)
  end.

(** [subtotal] and [total] are the sums of the stored fields they are
    computed from. *)
Definition totals_hold (r : CalculationResult D) : Prop :=
  subtotal r = d_add (d_add (direct_costs r) (overhead r)) (profit r)
  ∧ total r = d_add (subtotal r) (vat r).

End TierTerms.

(** ** The elementwise kernel *)

Section ItemTerms.
Context {D : Type} {ops : DoubleOps D}.

(** The product the kernel stores at index [i]. *)
Definition item_value (m : items_memory D) (i : N) : D :=
  d_mul (d_mul (elt (quantities m) i) (elt (unit_costs m) i))
    (elt (coefficients m) i).

(** The output buffer once the first [i] products are stored: the products,
    then the old contents from [i] on. *)
Definition results_upto (m : items_memory D) (i : N) : list D :=
  ((λ j, item_value m (N.of_nat j)) <$> seq 0 (N.to_nat i))
  ++ drop (N.to_nat i) (results m).

(** The four buffers hold at least [count] elements each. *)
Definition items_in_bounds (m : items_memory D) (count : N) : Prop :=
  c_array (quantities m) count ∧ c_array (unit_costs m) count
  ∧ c_array (coefficients m) count ∧ c_array (results m) count.

#[export] Instance items_in_bounds_dec m count :
  Decision (items_in_bounds m count).
Proof. unfold items_in_bounds. apply _. Defined.

(** [r] is a defined outcome of the kernel on [m] in which every index
    below [count] holds the product of the three inputs at that index. *)
Definition products_stored (m : items_memory D) (count : N)
    (r : option (items_memory D)) : Prop :=
  ∃ m', r = Some m'
    ∧ ∀ i q c k,
        i < count →
        load (quantities m) i = Some q → load (unit_costs m) i = Some c →
        load (coefficients m) i = Some k →
        load (results m') i = Some (d_mul (d_mul q c) k).

(** [r] is a defined outcome of the kernel on [m] that kept the three
    inputs, the length of the output buffer and its elements from [count]
    on. *)
Definition frame_kept (m : items_memory D) (count : N)
    (r : option (items_memory D)) : Prop :=
  ∃ m', r = Some m'
    ∧ quantities m' = quantities m
    ∧ unit_costs m' = unit_costs m
    ∧ coefficients m' = coefficients m
    ∧ length (results m') = length (results m)
    ∧ ∀ i, count ≤ i → load (results m') i = load (results m) i.

End ItemTerms.

(** ** Exact sums *)

Local Open Scope Qc_scope.

(** [wsum a b lo n] is the sum of [a[j] * b[j]] for the [n] indices from
    [lo] on. *)
Fixpoint wsum (a b : list Qc) (lo : N) (n : nat) : Qc :=
  match n with
  | O => 0
  | Datatypes.S n' =>
      wsum a b lo n' + elt a (lo + N.of_nat n') * elt b (lo + N.of_nat n')
  end.

(** The products of one chunk of four, of eight. *)
Definition dot4 (a b : list Qc) (i : N) : Qc :=
  elt a i * elt b i + elt a (i + 1) * elt b (i + 1)
  + elt a (i + 2) * elt b (i + 2) + elt a (i + 3) * elt b (i + 3).

Definition dot8 (a b : list Qc) (i : N) : Qc :=
  dot4 a b i + dot4 a b (i + 4).

(** The sum of the lanes of a register. *)
Definition lanes256 (v : m256d Qc) : Qc := y0 v + y1 v + y2 v + y3 v.

Definition lanes512 (v : m512d Qc) : Qc :=
  z0 v + z1 v + z2 v + z3 v + z4 v + z5 v + z6 v + z7 v.

(** The five category sums over the first [count] items. *)
Definition exact_sums (q d l mo mat m : list Qc) (count : N)
    : CalculationResult Qc :=
  let n := N.to_nat count in
  set_categories result_zero (wsum q d 0 n) (wsum q l 0 n) (wsum q mo 0 n)
    (wsum q mat 0 n) (wsum q m 0 n).

(** [psum a lo n] is the sum of [a[j]] for the [n] indices from [lo] on. *)
Fixpoint psum (a : list Qc) (lo : N) (n : nat) : Qc :=
  match n with
  | O => 0
  | Datatypes.S n' => psum a lo n' + elt a (lo + N.of_nat n')
  end.

(** The straightforward references: one accumulator, left to right. *)
Definition sequential_sum (data : list Qc) (count : N) : Qc :=
  foldl Qcplus 0 (take (N.to_nat count) data).

Definition sequential_dot (a b : list Qc) (count : N) : Qc :=
  foldl (λ sum xy, sum + xy.1 * xy.2) 0 (take (N.to_nat count) (zip a b)).

(** A unit-cost array scaled elementwise by [k]. *)
Definition scale (k : Qc) (a : list Qc) : list Qc := Qcmult k <$> a.

(** All ten fields of a result scaled by [k]. *)
Definition scale_result (k : Qc) (r : CalculationResult Qc)
    : CalculationResult Qc :=
  {| direct_costs := k * direct_costs r; labor_costs := k * labor_costs r;
     machine_op_costs := k * machine_op_costs r;
     material_costs := k * material_costs r;
     machine_costs := k * machine_costs r; overhead := k * overhead r;
     profit := k * profit r; subtotal := k * subtotal r; vat := k * vat r;
     total := k * total r |}.

(** Every element of the six arrays is non-negative. *)
Definition inputs_nonneg (q d l mo mat m : list Qc) : Prop :=
  Forall (Qcle 0) q ∧ Forall (Qcle 0) d ∧ Forall (Qcle 0) l
  ∧ Forall (Qcle 0) mo ∧ Forall (Qcle 0) mat ∧ Forall (Qcle 0) m.

#[export] Instance inputs_nonneg_dec q d l mo mat m :
  Decision (inputs_nonneg q d l mo mat m).
Proof. unfold inputs_nonneg. apply _. Defined.

Local Close Scope Qc_scope.

(** ** Comparisons and references in binary64 *)

(** [0.0 <= x], [x == 0.0] and [isfinite(x)] in binary64. *)
Definition b64_nonneg (x : binary64) : Prop :=
  SFleb (S754_zero false) x = true.

Definition b64_is_zero (x : binary64) : Prop :=
  SFeqb x (S754_zero false) = true.

Definition b64_finite (x : binary64) : Prop :=
  match x with
  | S754_zero _ | S754_finite _ _ _ => True
  | _ => False
  end.

(** NaN, a zero of either sign, or a value whose sign bit is clear. *)
Definition not_negative (x : binary64) : Prop :=
  match x with
  | S754_nan | S754_zero _ | S754_infinity false | S754_finite false _ _ =>
      True
  | _ => False
  end.

(** ** Properties of all the category totals *)

Section CategoryTerms.
Context {D : Type}.

(** [P] holds of the five category totals. *)
Definition categories_all (P : D → Prop) (r : CalculationResult D) : Prop :=
  P (direct_costs r) ∧ P (labor_costs r) ∧ P (machine_op_costs r)
  ∧ P (material_costs r) ∧ P (machine_costs r).

Definition lanes256_all (P : D → Prop) (v : m256d D) : Prop :=
  P (y0 v) ∧ P (y1 v) ∧ P (y2 v) ∧ P (y3 v).

Definition lanes512_all (P : D → Prop) (v : m512d D) : Prop :=
  P (z0 v) ∧ P (z1 v) ∧ P (z2 v) ∧ P (z3 v)
  ∧ P (z4 v) ∧ P (z5 v) ∧ P (z6 v) ∧ P (z7 v).

Definition sums256_all (P : D → Prop) (s : sums256 D) : Prop :=
  lanes256_all P (direct_sum s) ∧ lanes256_all P (labor_sum s)
  ∧ lanes256_all P (machine_op_sum s) ∧ lanes256_all P (material_sum s)
  ∧ lanes256_all P (machine_sum s).

Definition sums512_all (P : D → Prop) (s : sums512 D) : Prop :=
  lanes512_all P (direct_sum512 s) ∧ lanes512_all P (labor_sum512 s)
  ∧ lanes512_all P (machine_op_sum512 s) ∧ lanes512_all P (material_sum512 s)
  ∧ lanes512_all P (machine_sum512 s).

Definition inputs_all (P : D → Prop) (q d l mo mat m : list D) : Prop :=
  Forall P q ∧ Forall P d ∧ Forall P l
  ∧ Forall P mo ∧ Forall P mat ∧ Forall P m.

End CategoryTerms.

Definition settings_finite (s : CalculationSettings binary64) : Prop :=
  b64_finite (overhead_rate s) ∧ b64_finite (profit_rate s)
  ∧ b64_finite (vat_rate s) ∧ b64_finite (index s).

Definition all_fields_zero (r : CalculationResult binary64) : Prop :=
  b64_is_zero (direct_costs r) ∧ b64_is_zero (labor_costs r)
  ∧ b64_is_zero (machine_op_costs r) ∧ b64_is_zero (material_costs r)
  ∧ b64_is_zero (machine_costs r) ∧ b64_is_zero (overhead r)
  ∧ b64_is_zero (profit r) ∧ b64_is_zero (subtotal r)
  ∧ b64_is_zero (vat r) ∧ b64_is_zero (total r).

(** The sequential references in binary64: one accumulator, left to
    right, every operation rounded. *)
Definition b64_sequential_sum (data : list binary64) (count : N) : binary64 :=
  foldl b64_add (S754_zero false) (take (N.to_nat count) data).

Definition b64_sequential_dot (a b : list binary64) (count : N) : binary64 :=
  foldl (λ sum xy, b64_add sum (b64_mul xy.1 xy.2)) (S754_zero false)
    (take (N.to_nat count) (zip a b)).

(** [x] and [y] agree within the relative tolerance [tol]: their distance
    is at most [tol] times the magnitude of one of them. *)
Definition within_tolerance (tol : Qc) (x y : binary64) : Prop :=
  (Qcabs.Qcabs (b64_value x - b64_value y)
   ≤ tol * Qcabs.Qcabs (b64_value x))%Qc
  ∨ (Qcabs.Qcabs (b64_value x - b64_value y)
     ≤ tol * Qcabs.Qcabs (b64_value y))%Qc.

(** ** Sample inputs *)

Definition qc (z : Z) : Qc := Q2Qc (inject_Z z).

(** A build with both vector bodies, one with the AVX2 body only, and the
    portable one. *)
Definition build_avx512f : build := {| HAS_X86_SIMD := true; AVX512F := true |}.
Definition build_x86 : build := {| HAS_X86_SIMD := true; AVX512F := false |}.
Definition build_portable : build :=
  {| HAS_X86_SIMD := false; AVX512F := false |}.

(** A processor that reports leaf 7 with AVX2 (EBX bit 5) and without
    AVX-512F (EBX bit 16); one that reports both; one whose highest leaf is
    below 7. *)
Definition cpu_avx2 : cpu :=
  {| __cpuid := λ _, {| eax := 13; ebx := 0; ecx := 4096; edx := 0 |};
     __cpuid_count := λ _ _, {| eax := 0; ebx := 32; ecx := 0; edx := 0 |} |}.

Definition cpu_avx512 : cpu :=
  {| __cpuid := λ _, {| eax := 27; ebx := 0; ecx := 4096; edx := 0 |};
     __cpuid_count :=
       λ _ _, {| eax := 0; ebx := 65568; ecx := 0; edx := 0 |} |}.

Definition cpu_legacy : cpu :=
  {| __cpuid := λ _, {| eax := 2; ebx := 0; ecx := 0; edx := 0 |};
     __cpuid_count :=
       λ _ _, {| eax := 0; ebx := 65568; ecx := 0; edx := 0 |} |}.

(** Seventeen line items, twice the widest vector and one more; the first
    thirteen make one chunk of eight, one of four and one item left. *)
Definition sample_quantities : list Qc :=
  qc <$> [1; 2; 3; 4; 5; 6; 7; 8; 9; 10; 11; 12; 13; 14; 15; 16; 17]%Z.
Definition sample_direct : list Qc :=
  qc <$> [100; 50; 25; 10; 5; 1; 0; 2; 4; 8; 16; 32; 64; 3; 9; 27; 81]%Z.
Definition sample_labor : list Qc :=
  qc <$> [10; 10; 10; 10; 10; 10; 10; 10; 10; 10; 10; 10; 10; 10; 10; 10;
          10]%Z.
Definition sample_machine_op : list Qc :=
  qc <$> [0; 1; 0; 1; 0; 1; 0; 1; 0; 1; 0; 1; 0; 1; 0; 1; 0]%Z.
Definition sample_material : list Qc :=
  qc <$> [7; 7; 7; 3; 3; 3; 9; 9; 9; 1; 1; 1; 5; 5; 5; 2; 2]%Z.
Definition sample_machine : list Qc :=
  qc <$> [2; 4; 6; 8; 10; 12; 14; 16; 18; 20; 22; 24; 26; 28; 30; 32; 34]%Z.

(** The elementwise example of the specification, with a fifth element in
    the output buffer that the call must leave alone. *)
Definition sample_items : items_memory Qc :=
  {| quantities := qc <$> [2; 3; 4; 5]%Z;
     unit_costs := qc <$> [1; 1; 1; 1]%Z;
     coefficients := qc <$> [10; 10; 10; 10]%Z;
     results := qc <$> [0; 0; 0; 0; 77]%Z |}.

(** Eight items whose direct costs cancel: [1e16] and [-1e16] four items
    apart, ones elsewhere. *)
Definition ones8 : list binary64 := b64_of_Z <$> [1; 1; 1; 1; 1; 1; 1; 1]%Z.
Definition zeros8 : list binary64 := b64_of_Z <$> [0; 0; 0; 0; 0; 0; 0; 0]%Z.
Definition cancelling8 : list binary64 :=
  b64_of_Z <$> [10000000000000000; 1; 1; 1; -10000000000000000; 1; 1; 1]%Z.
Definition cancelling4 : list binary64 :=
  b64_of_Z <$> [10000000000000000; 1; -10000000000000000; 1]%Z.

(** The default settings with the index replaced. *)
Definition with_index (x : binary64) : CalculationSettings binary64 :=
  {| overhead_rate := overhead_rate denidom_default_settings;
     profit_rate := profit_rate denidom_default_settings;
     vat_rate := vat_rate denidom_default_settings;
     index := x |}.

Definition result_nan : CalculationResult binary64 :=
  {| direct_costs := S754_nan; labor_costs := S754_nan;
     machine_op_costs := S754_nan; material_costs := S754_nan;
     machine_costs := S754_nan; overhead := S754_nan; profit := S754_nan;
     subtotal := S754_nan; vat := S754_nan; total := S754_nan |}.

(** [2^600], whose square is beyond the largest binary64 value. *)
Definition huge : binary64 := b64_of_Z (2 ^ 600).

(** ** Vocabulary of the further properties *)

Section BoundTerms.
Context {D : Type}.

(** [a] fits in the address space: its size in bytes is a [size_t]. *)
Definition array_fits (a : list D) : Prop :=
  DOUBLE_BYTES * N.of_nat (length a) < SIZE_MODULUS.

Definition inputs_fit (q d l mo mat m : list D) : Prop :=
  array_fits q ∧ array_fits d ∧ array_fits l
  ∧ array_fits mo ∧ array_fits mat ∧ array_fits m.

Definition items_fit (m : items_memory D) : Prop :=
  array_fits (quantities m) ∧ array_fits (unit_costs m)
  ∧ array_fits (coefficients m) ∧ array_fits (results m).

(** All six arrays reach [n]. *)
Definition six_reach (q d l mo mat m : list D) (n : N) : Prop :=
  n ≤ N.of_nat (length q) ∧ n ≤ N.of_nat (length d)
  ∧ n ≤ N.of_nat (length l) ∧ n ≤ N.of_nat (length mo)
  ∧ n ≤ N.of_nat (length mat) ∧ n ≤ N.of_nat (length m).

(** The four buffers reach [n]. *)
Definition four_reach (m : items_memory D) (n : N) : Prop :=
  n ≤ N.of_nat (length (quantities m)) ∧ n ≤ N.of_nat (length (unit_costs m))
  ∧ n ≤ N.of_nat (length (coefficients m))
  ∧ n ≤ N.of_nat (length (results m)).

(** [t] has the inputs of [m] and an output buffer of the same length. *)
Definition same_shape (m t : items_memory D) : Prop :=
  quantities t = quantities m ∧ unit_costs t = unit_costs m
  ∧ coefficients t = coefficients m
  ∧ length (results t) = length (results m).

End BoundTerms.

Local Open Scope Qc_scope.

(** The fieldwise sum of two results. *)
Definition result_add (r1 r2 : CalculationResult Qc) : CalculationResult Qc :=
  {| direct_costs := direct_costs r1 + direct_costs r2;
     labor_costs := labor_costs r1 + labor_costs r2;
     machine_op_costs := machine_op_costs r1 + machine_op_costs r2;
     material_costs := material_costs r1 + material_costs r2;
     machine_costs := machine_costs r1 + machine_costs r2;
     overhead := overhead r1 + overhead r2;
     profit := profit r1 + profit r2;
     subtotal := subtotal r1 + subtotal r2;
     vat := vat r1 + vat r2;
     total := total r1 + total r2 |}.

(** The settings with the index multiplied by [k]. *)
Definition scale_index (k : Qc) (s : CalculationSettings Qc)
    : CalculationSettings Qc :=
  {| overhead_rate := overhead_rate s; profit_rate := profit_rate s;
     vat_rate := vat_rate s; index := k * index s |}.

(** All four settings are non-negative. *)
Definition settings_nonneg (s : CalculationSettings Qc) : Prop :=
  0 ≤ overhead_rate s ∧ 0 ≤ profit_rate s ∧ 0 ≤ vat_rate s ∧ 0 ≤ index s.

(** The item totals [q[i] * c[i] * k[i]] as a list. *)
Definition triple_products (q c k : list Qc) : list Qc :=
  zip_with Qcmult (zip_with Qcmult q c) k.

(** One line of an estimate: a quantity and its five unit costs. *)
Record line_item := {
  item_quantity : Qc;
  item_direct : Qc;
  item_labor : Qc;
  item_machine_op : Qc;
  item_material : Qc;
  item_machine : Qc
}.

(** The sum of [f r * g r] over the lines. *)
Definition line_sum (f g : line_item → Qc) (rows : list line_item) : Qc :=
  foldr (λ r acc, f r * g r + acc) 0 rows.

Local Close Scope Qc_scope.

(** Three sample lines, and the same lines with the first two swapped. *)
Definition sample_line (a b c d e f : Z) : line_item :=
  {| item_quantity := qc a; item_direct := qc b; item_labor := qc c;
     item_machine_op := qc d; item_material := qc e; item_machine := qc f |}.

Definition sample_rows : list line_item :=
  [sample_line 1 100 10 0 7 2; sample_line 2 50 10 1 7 4;
   sample_line 3 25 10 0 7 6].

Definition sample_rows_swapped : list line_item :=
  [sample_line 2 50 10 1 7 4; sample_line 1 100 10 0 7 2;
   sample_line 3 25 10 0 7 6].

(** * Properties *)

(** ** Loops *)

Lemma SIZE_MODULUS_eq : SIZE_MODULUS = 18446744073709551616.
Proof. reflexivity. Qed.

Lemma size_wrap_small x : x < SIZE_MODULUS → size_wrap x = x.
Proof. intros. unfold size_wrap. by apply N.mod_small. Qed.

Lemma size_add_small a b : a + b < SIZE_MODULUS → size_add a b = a + b.
Proof. apply size_wrap_small. Qed.

Lemma size_mul_small a b : a * b < SIZE_MODULUS → size_mul a b = a * b.
Proof. apply size_wrap_small. Qed.

Lemma size_sub_small a b :
  b ≤ a → a < SIZE_MODULUS → size_sub a b = a - b.
Proof.
  intros Hba Ha. unfold size_sub.
  rewrite (size_wrap_small b) by lia.
  unfold size_wrap.
  replace (a + SIZE_MODULUS - b) with (a - b + 1 * SIZE_MODULUS) by lia.
  rewrite N.Div0.mod_add. apply N.mod_small. lia.
Qed.

(** A counting loop below [2^64] is [count - i] runs of its body. *)
Lemma c_for_count {S : Type} (count : N) (body : N → S → option S) :
  count < SIZE_MODULUS →
  ∀ fuel i s, (N.to_nat (count - i) < fuel)%nat →
    c_for fuel (λ i, i <? count) (λ i, size_add i 1) body i s
    = s' ← iterate (N.to_nat (count - i)) 1 body i s;
      Some (N.max i count, s').
Proof.
  intros Hcount fuel. induction fuel as [|fuel IH]; intros i s Hfuel; [lia|].
  simpl. destruct (N.ltb_spec i count) as [Hlt|Hge].
  - replace (N.to_nat (count - i))
      with (Datatypes.S (N.to_nat (count - (i + 1)))) by lia.
    simpl. destruct (body i s) as [s'|]; [simpl|done].
    rewrite size_add_small by lia. rewrite IH by lia.
    replace (N.max (i + 1) count) with (N.max i count) by lia. done.
  - replace (N.to_nat (count - i)) with O by lia. simpl.
    by replace (N.max i count) with i by lia.
Qed.

Lemma for_each_iterate {S : Type} (count : N) (body : N → S → option S)
    i s :
  count < SIZE_MODULUS →
  for_each count body i s
  = s' ← iterate (N.to_nat (count - i)) 1 body i s; Some (N.max i count, s').
Proof.
  intros. unfold for_each. apply c_for_count; [done|].
  unfold loop_fuel. lia.
Qed.

(** A stepping loop whose bound leaves room for one more step is
    [(count - i) / w] runs of its body. *)
Lemma c_for_step {S : Type} (w count : N) (body : N → S → option S) :
  0 < w → count + w < SIZE_MODULUS →
  ∀ fuel i s, i ≤ count → (N.to_nat ((count - i) / w) < fuel)%nat →
    c_for fuel (λ i, size_add i w <=? count) (λ i, size_add i w) body i s
    = s' ← iterate (N.to_nat ((count - i) / w)) w body i s;
      Some (i + w * ((count - i) / w), s').
Proof.
  intros Hw Hcount fuel.
  induction fuel as [|fuel IH]; intros i s Hi Hfuel;
    [by apply Nat.nlt_0_r in Hfuel|].
  simpl. rewrite size_add_small by lia.
  destruct (N.leb_spec (i + w) count) as [Hle|Hgt].
  - assert ((count - i) / w = (count - (i + w)) / w + 1) as Hdiv.
    { replace (count - i) with (count - (i + w) + 1 * w) by lia.
      rewrite N.div_add by lia. done. }
    rewrite Hdiv in *. clear Hdiv.
    specialize (IH (i + w)). revert IH Hfuel.
    generalize ((count - (i + w)) / w). intros d IH Hfuel.
    replace (N.to_nat (d + 1)) with (Datatypes.S (N.to_nat d)) by lia.
    simpl. destruct (body i s) as [s'|]; [simpl|done].
    rewrite IH by lia.
    by replace (i + w + w * d) with (i + w * (d + 1)) by lia.
  - rewrite (N.div_small (count - i) w) by lia. simpl.
    by replace (i + w * 0) with i by lia.
Qed.

Lemma for_chunks_iterate {S : Type} (w count : N)
    (body : N → S → option S) i s :
  0 < w → count + w < SIZE_MODULUS → i ≤ count →
  for_chunks w count body i s
  = s' ← iterate (N.to_nat ((count - i) / w)) w body i s;
    Some (i + w * ((count - i) / w), s').
Proof.
  intros. unfold for_chunks. apply c_for_step; [done..|].
  unfold loop_fuel.
  assert ((count - i) / w ≤ count - i) as Hle.
  { apply N.Div0.div_le_upper_bound. nia. }
  revert Hle. generalize ((count - i) / w). lia.
Qed.

Lemma iterate_pure_eq {S : Type} (w : N) (body : N → S → option S)
    (f : N → S → S) :
  ∀ n i s,
    (∀ k s, (k < n)%nat →
       body (i + w * N.of_nat k) s = Some (f (i + w * N.of_nat k) s)) →
    iterate n w body i s = Some (iterate_pure n w f i s).
Proof.
  induction n as [|n IH]; intros i s Hbody; [done|].
  simpl. specialize (Hbody O s) as Hnow.
  replace (i + w * N.of_nat 0) with i in Hnow by lia.
  rewrite Hnow by lia. simpl. apply IH.
  intros k t Hk. specialize (Hbody (Datatypes.S k) t).
  replace (i + w * N.of_nat (Datatypes.S k))
    with (i + w + w * N.of_nat k) in Hbody by lia.
  apply Hbody. lia.
Qed.

(** Invariant rule: [P 0] holds at the start and the [k]-th run takes [P k]
    to [P (k + 1)]. *)
Lemma iterate_pure_invariant {S : Type} (w : N) (f : N → S → S) :
  ∀ n (P : nat → S → Prop) i s,
    P O s →
    (∀ k t, (k < n)%nat → P k t →
       P (Datatypes.S k) (f (i + w * N.of_nat k) t)) →
    P n (iterate_pure n w f i s).
Proof.
  induction n as [|n IH]; intros P i s HP Hstep; [done|].
  simpl. apply (IH (λ k, P (Datatypes.S k))).
  - specialize (Hstep O s).
    replace (i + w * N.of_nat 0) with i in Hstep by lia.
    apply Hstep; [lia|done].
  - intros k t Hk Ht. specialize (Hstep (Datatypes.S k) t).
    replace (i + w * N.of_nat (Datatypes.S k))
      with (i + w + w * N.of_nat k) in Hstep by lia.
    apply Hstep; [lia|done].
Qed.

Lemma for_each_pure {S : Type} (count : N) (body : N → S → option S)
    (f : N → S → S) i s :
  count < SIZE_MODULUS →
  (∀ j s, i ≤ j → j < count → body j s = Some (f j s)) →
  for_each count body i s
  = Some (N.max i count, iterate_pure (N.to_nat (count - i)) 1 f i s).
Proof.
  intros Hcount Hbody. rewrite for_each_iterate by done.
  rewrite (iterate_pure_eq 1 body f); [done|].
  intros k t Hk. apply Hbody; lia.
Qed.

Lemma for_chunks_pure {S : Type} (w count : N) (body : N → S → option S)
    (f : N → S → S) i s :
  0 < w → count + w < SIZE_MODULUS → i ≤ count →
  (∀ j s, i ≤ j → j + w ≤ count → body j s = Some (f j s)) →
  for_chunks w count body i s
  = Some (i + w * ((count - i) / w),
          iterate_pure (N.to_nat ((count - i) / w)) w f i s).
Proof.
  intros Hw Hcount Hi Hbody. rewrite for_chunks_iterate by done.
  rewrite (iterate_pure_eq w body f); [done|].
  intros k t Hk. apply Hbody; [lia|].
  assert (w * ((count - i) / w) ≤ count - i) as Hle
    by (apply N.Div0.mul_div_le).
  revert Hk Hle. generalize ((count - i) / w). intros d Hk Hle. nia.
Qed.

(** From here on [lia] also decides goals with [/] and [mod] by a
    constant. *)
Ltac Zify.zify_post_hook ::= Z.to_euclidean_division_equations.

(** ** Arrays within bounds *)

Section Arrays.
Context {D : Type} {ops : DoubleOps D}.

Lemma c_array_count (a : list D) count :
  c_array a count → count < SIZE_MODULUS.
Proof. unfold c_array, DOUBLE_BYTES. lia. Qed.

Lemma c_array_room (a : list D) count :
  c_array a count → count + 8 < SIZE_MODULUS.
Proof. unfold c_array, DOUBLE_BYTES. rewrite SIZE_MODULUS_eq. lia. Qed.

Lemma load_elt (a : list D) i :
  i < N.of_nat (length a) → load a i = Some (elt a i).
Proof.
  intros Hi. unfold load, elt.
  destruct (lookup_lt_is_Some_2 a (N.to_nat i)) as [x ->]; [lia|done].
Qed.

Lemma loadu256_vec (a : list D) i :
  i + 4 ≤ N.of_nat (length a) → _mm256_loadu_pd a i = Some (vec256 a i).
Proof.
  intros Hi. unfold _mm256_loadu_pd, vec256.
  by rewrite !load_elt by lia.
Qed.

Lemma loadu512_vec (a : list D) i :
  i + 8 ≤ N.of_nat (length a) → _mm512_loadu_pd a i = Some (vec512 a i).
Proof.
  intros Hi. unfold _mm512_loadu_pd, vec512.
  by rewrite !load_elt by lia.
Qed.

End Arrays.

(** ** The estimate kernels on arrays within bounds

    With six arrays of at least [count] elements no read is out of bounds,
    no index computation wraps and every loop ends within its fuel: each
    kernel returns the value of a loop-free-of-failure counterpart. *)

Section EstimatePure.
Context {D : Type} {ops : DoubleOps D}.
Variables q d l mo mat m : list D.
Variable count : N.
Variable settings : CalculationSettings D.
Hypothesis Hq : c_array q count.
Hypothesis Hd : c_array d count.
Hypothesis Hl : c_array l count.
Hypothesis Hmo : c_array mo count.
Hypothesis Hmat : c_array mat count.
Hypothesis Hm : c_array m count.

Local Abbreviation acc_pure := (accumulate_pure q d l mo mat m).
Local Abbreviation chunk256 := (chunk256_pure q d l mo mat m).
Local Abbreviation chunk512 := (chunk512_pure q d l mo mat m).

Lemma accumulate_item_pure i r :
  i < count →
  accumulate_item q d l mo mat m i r = Some (acc_pure i r).
Proof using Hq Hd Hl Hmo Hmat Hm.
  intros Hi. unfold accumulate_item, accumulate_pure.
  destruct Hq, Hd, Hl, Hmo, Hmat, Hm.
  by rewrite !load_elt by lia.
Qed.

Lemma fmadd_chunk256_pure idx s :
  idx + 4 ≤ count →
  fmadd_chunk256 q d l mo mat m idx s = Some (chunk256 idx s).
Proof using Hq Hd Hl Hmo Hmat Hm.
  intros Hi. unfold fmadd_chunk256, chunk256_pure.
  destruct Hq, Hd, Hl, Hmo, Hmat, Hm.
  by rewrite !loadu256_vec by lia.
Qed.

Lemma fmadd_chunk512_pure idx s :
  idx + 8 ≤ count →
  fmadd_chunk512 q d l mo mat m idx s = Some (chunk512 idx s).
Proof using Hq Hd Hl Hmo Hmat Hm.
  intros Hi. unfold fmadd_chunk512, chunk512_pure.
  destruct Hq, Hd, Hl, Hmo, Hmat, Hm.
  by rewrite !loadu512_vec by lia.
Qed.

(** The scalar tail loop of all three kernels. *)
Lemma accumulate_loop_pure i r :
  i ≤ count →
  for_each count (accumulate_item q d l mo mat m) i r
  = Some (count,
          iterate_pure (N.to_nat (count - i)) 1 acc_pure i r).
Proof using Hq Hd Hl Hmo Hmat Hm.
  intros Hi.
  rewrite (for_each_pure count _ acc_pure).
  - by replace (N.max i count) with count by lia.
  - by eapply c_array_count.
  - intros j s _ Hj. by apply accumulate_item_pure.
Qed.

Lemma calculate_estimate_scalar_pure :
  calculate_estimate_scalar q d l mo mat m count settings
  = Some (apply_settings settings (scalar_sums q d l mo mat m count)).
Proof using Hq Hd Hl Hmo Hmat Hm.
  unfold calculate_estimate_scalar, scalar_sums.
  rewrite accumulate_loop_pure by lia. simpl.
  by rewrite N.sub_0_r.
Qed.

Lemma calculate_estimate_avx2_simd_pure :
  4 ≤ count →
  calculate_estimate_avx2_simd q d l mo mat m count settings
  = Some (apply_settings settings (avx2_sums q d l mo mat m count)).
Proof using Hq Hd Hl Hmo Hmat Hm.
  intros Hcount. pose proof (c_array_count _ _ Hq) as Hsize.
  unfold calculate_estimate_avx2_simd, avx2_sums.
  destruct (N.ltb_spec count 4) as [|_]; [lia|].
  assert (count / 4 * 4 ≤ count) as Hchunks by lia.
  rewrite (for_each_pure (count / 4) _ (λ i, chunk256 (i * 4))).
  - simpl. rewrite size_mul_small by lia.
    rewrite accumulate_loop_pure by lia. simpl.
    by rewrite N.sub_0_r.
  - lia.
  - intros j s _ Hj. rewrite size_mul_small by lia.
    apply fmadd_chunk256_pure. lia.
Qed.

Lemma calculate_estimate_avx512_simd_pure b :
  8 ≤ count →
  calculate_estimate_avx512_simd b q d l mo mat m count settings
  = Some (apply_settings settings (avx512_sums q d l mo mat m count)).
Proof using Hq Hd Hl Hmo Hmat Hm.
  intros Hcount. pose proof (c_array_count _ _ Hq) as Hsize.
  unfold calculate_estimate_avx512_simd, avx512_sums.
  destruct (N.ltb_spec count 8) as [|_]; [lia|].
  assert (count / 8 * 8 ≤ count) as Hchunks by lia.
  rewrite (for_each_pure (count / 8) _ (λ i, chunk512 (i * 8)));
    [|lia|].
  2:{ intros j s _ Hj. rewrite size_mul_small by lia.
      apply fmadd_chunk512_pure. lia. }
  simpl. rewrite N.sub_0_r.
  rewrite size_mul_small by lia.
  rewrite size_sub_small by lia.
  destruct (N.leb_spec 4 (count - count / 8 * 8)) as [Hrem|Hrem].
  - assert ((count - count / 8 * 8) / 4 * 4 ≤ count - count / 8 * 8) by lia.
    rewrite (for_each_pure _ _
               (λ i, chunk256 (count / 8 * 8 + i * 4)));
      [|lia|].
    2:{ intros j s _ Hj. rewrite size_mul_small by lia.
        rewrite size_add_small by lia.
        apply fmadd_chunk256_pure. lia. }
    simpl. rewrite N.sub_0_r.
    rewrite size_mul_small by lia. rewrite size_add_small by lia.
    by rewrite accumulate_loop_pure by lia.
  - simpl. by rewrite accumulate_loop_pure by lia.
Qed.

End EstimatePure.

(** ** Tiers *)

Section Tiers.
Context {D : Type} {ops : DoubleOps D}.

Lemma calculate_estimate_auto_select b c q d l mo mat m count settings :
  calculate_estimate_auto b c q d l mo mat m count settings
  = calculate_estimate
      (select_tier (denidom_has_avx512 b c) (denidom_has_avx2 b c))
      b q d l mo mat m count settings.
Proof.
  unfold calculate_estimate_auto, select_tier.
  by destruct (denidom_has_avx512 b c), (denidom_has_avx2 b c).
Qed.

Lemma calculate_estimate_avx2_pure b q d l mo mat m count settings :
  c_array q count → c_array d count → c_array l count →
  c_array mo count → c_array mat count → c_array m count →
  calculate_estimate_avx2 b q d l mo mat m count settings
  = Some (apply_settings settings (avx2_tier_sums b q d l mo mat m count)).
Proof.
  intros. unfold calculate_estimate_avx2, avx2_tier_sums.
  destruct (HAS_X86_SIMD b).
  - destruct (N.ltb_spec count 4) as [Hlt|Hge].
    + unfold calculate_estimate_avx2_simd.
      destruct (N.ltb_spec count 4); [|lia].
      by apply calculate_estimate_scalar_pure.
    + by apply calculate_estimate_avx2_simd_pure.
  - by apply calculate_estimate_scalar_pure.
Qed.

Lemma calculate_estimate_avx512_pure b q d l mo mat m count settings :
  c_array q count → c_array d count → c_array l count →
  c_array mo count → c_array mat count → c_array m count →
  calculate_estimate_avx512 b q d l mo mat m count settings
  = Some (apply_settings settings (avx512_tier_sums b q d l mo mat m count)).
Proof.
  intros. unfold calculate_estimate_avx512, avx512_tier_sums.
  destruct (HAS_X86_SIMD b) eqn:Hx86.
  - destruct (AVX512F b).
    + destruct (N.ltb_spec count 8) as [Hlt|Hge].
      * unfold calculate_estimate_avx512_simd.
        destruct (N.ltb_spec count 8); [|lia].
        by apply calculate_estimate_avx2_pure.
      * by apply calculate_estimate_avx512_simd_pure.
    + by apply calculate_estimate_avx2_pure.
  - by apply calculate_estimate_scalar_pure.
Qed.

(** Every entry point, on arrays within bounds, returns [apply_settings] of
    the category sums of the tier it runs. *)
Lemma estimate_pure e b q d l mo mat m count settings :
  inputs_in_bounds q d l mo mat m count →
  estimate e b q d l mo mat m count settings
  = Some (apply_settings settings
            (tier_sums (entry_tier e b) b q d l mo mat m count)).
Proof.
  intros (Hq & Hd & Hl & Hmo & Hmat & Hm).
  assert (estimate e b q d l mo mat m count settings
          = calculate_estimate (entry_tier e b) b q d l mo mat m count
              settings) as ->.
  { destruct e; [done|]. apply calculate_estimate_auto_select. }
  destruct (entry_tier e b); simpl.
  - by apply calculate_estimate_scalar_pure.
  - by apply calculate_estimate_avx2_pure.
  - by apply calculate_estimate_avx512_pure.
Qed.

(** *** Delegation below the native width *)

(** C2. A vector tier called with fewer items than its native width hands
    the whole call to the next tier down and returns that tier's result
    unchanged: [calculate_estimate_avx2] with [count < 4] is
    [calculate_estimate_scalar], [calculate_estimate_avx512] with
    [count < 8] is [calculate_estimate_avx2], on the same arguments.  This
    holds in every build and for every interpretation of [double]. *)
Theorem small_count_delegates_down b q d l mo mat m count settings :
  (count < 4 →
   calculate_estimate_avx2 b q d l mo mat m count settings
   = calculate_estimate_scalar q d l mo mat m count settings)
  ∧ (count < 8 →
     calculate_estimate_avx512 b q d l mo mat m count settings
     = calculate_estimate_avx2 b q d l mo mat m count settings).
Proof.
  split; intros Hcount.
  - unfold calculate_estimate_avx2, calculate_estimate_avx2_simd.
    destruct (HAS_X86_SIMD b); [|done].
    by destruct (N.ltb_spec count 4); [|lia].
  - unfold calculate_estimate_avx512, calculate_estimate_avx512_simd.
    destruct (HAS_X86_SIMD b) eqn:Hx86.
    + destruct (AVX512F b); [|done].
      by destruct (N.ltb_spec count 8); [|lia].
    + unfold calculate_estimate_avx2. by rewrite Hx86.
Qed.

(** *** Auto-selection *)

(** C3. [calculate_estimate_auto] forwards its arguments unchanged to the
    tier selected from the two probe answers and returns that tier's result
    as it is: AVX-512 when [denidom_has_avx512] answers true, else AVX2 when
    [denidom_has_avx2] answers true, else scalar.  The selection is a
    function of the two booleans only, and it is made from the processor
    state of the call at hand. *)
Theorem auto_forwards_to_selected_tier b c q d l mo mat m count settings :
  calculate_estimate_auto b c q d l mo mat m count settings
  = match select_tier (denidom_has_avx512 b c) (denidom_has_avx2 b c) with
    | Vector512 => calculate_estimate_avx512 b q d l mo mat m count settings
    | Vector256 => calculate_estimate_avx2 b q d l mo mat m count settings
    | Scalar => calculate_estimate_scalar q d l mo mat m count settings
    end.
Proof.
  rewrite calculate_estimate_auto_select.
  by destruct (select_tier _ _).
Qed.

(** *** The stored totals *)

(** C4. On arrays within bounds every estimate entry point (scalar, AVX2,
    AVX-512 and auto) returns a result whose stored fields satisfy
    [subtotal = direct_costs + overhead + profit] and [total = subtotal + vat]
    as plain equalities, for every interpretation of [double]. *)
Theorem result_totals_exact e b q d l mo mat m count settings :
  inputs_in_bounds q d l mo mat m count →
  ∃ r, estimate e b q d l mo mat m count settings = Some r ∧ totals_hold r.
Proof.
  intros. eexists. split; [by apply estimate_pure|]. by split.
Qed.

End Tiers.

(** *** Zero items, any interpretation *)

Section ZeroCount.
Context {D : Type} {ops : DoubleOps D}.

Lemma estimate_zero_count e b (q d l mo mat m : list D) settings :
  estimate e b q d l mo mat m 0 settings
  = Some (apply_settings settings result_zero).
Proof.
  assert (calculate_estimate_scalar q d l mo mat m 0 settings
          = Some (apply_settings settings result_zero)) as Hscalar by done.
  assert (calculate_estimate_avx2 b q d l mo mat m 0 settings
          = Some (apply_settings settings result_zero)) as Havx2.
  { unfold calculate_estimate_avx2, calculate_estimate_avx2_simd.
    by destruct (HAS_X86_SIMD b). }
  assert (∀ t, calculate_estimate t b q d l mo mat m 0 settings
               = Some (apply_settings settings result_zero)) as Htier.
  { intros [| |]; simpl; [done..|].
    unfold calculate_estimate_avx512, calculate_estimate_avx512_simd.
    by destruct (HAS_X86_SIMD b), (AVX512F b). }
  destruct e as [t|c]; simpl; [done|].
  by rewrite calculate_estimate_auto_select.
Qed.

End ZeroCount.

(** ** Signs in binary64 *)

(** Rounding keeps the sign it is given. *)
Lemma binary_round_aux_not_negative m e l :
  not_negative (binary_round_aux 53 1024 false m e l).
Proof.
  unfold binary_round_aux.
  destruct (shr_fexp 53 1024 m e l) as [mrs e'].
  destruct (shr_fexp 53 1024 _ e' loc_Exact) as [mrs' e''].
  destruct (shr_m mrs'); [done| |done].
  by destruct (e'' <=? 1024 - 53)%Z.
Qed.

Lemma binary_round_not_negative m e :
  not_negative (binary_round 53 1024 false m e).
Proof.
  unfold binary_round. destruct (shl_align _ _ _).
  apply binary_round_aux_not_negative.
Qed.

Lemma b64_nonneg_not_negative x : b64_nonneg x → not_negative x.
Proof. by destruct x as [[|]|[|]| |[|] ? ?]. Qed.

Lemma not_negative_cases x : not_negative x → b64_nonneg x ∨ x = S754_nan.
Proof.
  destruct x as [[|]|[|]| |[|] ? ?]; try done; intros _;
    first [by right|by left].
Qed.

Lemma b64_mul_not_negative x y :
  not_negative x → not_negative y → not_negative (b64_mul x y).
Proof.
  destruct x as [[|]|[|]| |[|] mx ex], y as [[|]|[|]| |[|] my ey];
    try done.
  intros _ _. apply binary_round_aux_not_negative.
Qed.

Lemma b64_add_not_negative x y :
  not_negative x → not_negative y → not_negative (b64_add x y).
Proof.
  destruct x as [[|]|[|]| |[|] mx ex], y as [[|]|[|]| |[|] my ey];
    try done.
  intros _ _. unfold b64_add, SFadd, cond_Zopp.
  rewrite <- Pos2Z.inj_add. apply binary_round_not_negative.
Qed.

Lemma b64_fma_not_negative x y z :
  not_negative x → not_negative y → not_negative z →
  not_negative (b64_fma x y z).
Proof.
  destruct x as [[|]|[|]| |[|] mx ex], y as [[|]|[|]| |[|] my ey];
    try done;
    destruct z as [[|]|[|]| |[|] mz ez]; try done; intros _ _ _.
  - apply binary_round_not_negative.
  - apply binary_round_not_negative.
  - unfold b64_fma, cond_Zopp, xorb.
    rewrite <- Pos2Z.inj_add. apply binary_round_not_negative.
Qed.

(** ** What the operations preserve *)

Section Closure.
Context {D : Type} {ops : DoubleOps D}.
Variable P : D → Prop.
Hypothesis P_zero : P d_zero.
Hypothesis P_add : ∀ x y, P x → P y → P (d_add x y).
Hypothesis P_mul : ∀ x y, P x → P y → P (d_mul x y).
Hypothesis P_fma : ∀ x y z, P x → P y → P z → P (d_fma x y z).
Variables q d l mo mat m : list D.
Hypothesis Hall : inputs_all P q d l mo mat m.

Lemma elt_closed (a : list D) i : Forall P a → P (elt a i).
Proof using P_zero.
  intros Ha. unfold elt.
  destruct (a !! N.to_nat i) as [x|] eqn:Hx; simpl; [|done].
  by eapply (Forall_lookup_1 _ a).
Qed.

Lemma vec256_closed (a : list D) i : Forall P a → lanes256_all P (vec256 a i).
Proof using P_zero. intros. repeat split; by apply elt_closed. Qed.

Lemma vec512_closed (a : list D) i : Forall P a → lanes512_all P (vec512 a i).
Proof using P_zero. intros. repeat split; by apply elt_closed. Qed.

Lemma fmadd256_closed a b c :
  lanes256_all P a → lanes256_all P b → lanes256_all P c →
  lanes256_all P (_mm256_fmadd_pd a b c).
Proof using P_fma.
  intros (? & ? & ? & ?) (? & ? & ? & ?) (? & ? & ? & ?).
  repeat split; by apply P_fma.
Qed.

Lemma fmadd512_closed a b c :
  lanes512_all P a → lanes512_all P b → lanes512_all P c →
  lanes512_all P (_mm512_fmadd_pd a b c).
Proof using P_fma.
  intros (? & ? & ? & ? & ? & ? & ? & ?) (? & ? & ? & ? & ? & ? & ? & ?)
    (? & ? & ? & ? & ? & ? & ? & ?).
  repeat split; by apply P_fma.
Qed.

Lemma hsum256_pd_closed v : lanes256_all P v → P (hsum256_pd v).
Proof using P_add.
  intros (? & ? & ? & ?). unfold hsum256_pd. simpl. auto.
Qed.

Lemma reduce_add_pd_closed v : lanes512_all P v → P (_mm512_reduce_add_pd v).
Proof using P_add.
  intros (? & ? & ? & ? & ? & ? & ? & ?). unfold _mm512_reduce_add_pd. auto 10.
Qed.

Lemma accumulate_pure_closed i r :
  categories_all P r →
  categories_all P (accumulate_pure q d l mo mat m i r).
Proof using P_zero P_add P_mul Hall.
  destruct Hall as (? & ? & ? & ? & ? & ?).
  intros (? & ? & ? & ? & ?).
  repeat split; simpl; apply P_add; try done;
    apply P_mul; by apply elt_closed.
Qed.

Lemma chunk256_pure_closed i s :
  sums256_all P s → sums256_all P (chunk256_pure q d l mo mat m i s).
Proof using P_zero P_fma Hall.
  destruct Hall as (? & ? & ? & ? & ? & ?).
  intros (? & ? & ? & ? & ?).
  split_and!; simpl; apply fmadd256_closed; try done;
    by apply vec256_closed.
Qed.

Lemma chunk512_pure_closed i s :
  sums512_all P s → sums512_all P (chunk512_pure q d l mo mat m i s).
Proof using P_zero P_fma Hall.
  destruct Hall as (? & ? & ? & ? & ? & ?).
  intros (? & ? & ? & ? & ?).
  split_and!; simpl; apply fmadd512_closed; try done;
    by apply vec512_closed.
Qed.

Lemma accumulate_loop_closed n i r :
  categories_all P r →
  categories_all P (iterate_pure n 1 (accumulate_pure q d l mo mat m) i r).
Proof using P_zero P_add P_mul Hall.
  intros Hr.
  apply (iterate_pure_invariant 1 _ n (λ _, categories_all P)); [done|].
  intros k t _. apply accumulate_pure_closed.
Qed.

Lemma chunk256_loop_closed n (start : N → N) :
  sums256_all P
    (iterate_pure n 1 (λ i, chunk256_pure q d l mo mat m (start i)) 0
       sums256_zero).
Proof using P_zero P_fma Hall.
  apply (iterate_pure_invariant 1 _ n (λ _, sums256_all P)).
  - by repeat split.
  - intros k t _. apply chunk256_pure_closed.
Qed.

Lemma chunk512_loop_closed n (start : N → N) :
  sums512_all P
    (iterate_pure n 1 (λ i, chunk512_pure q d l mo mat m (start i)) 0
       sums512_zero).
Proof using P_zero P_fma Hall.
  apply (iterate_pure_invariant 1 _ n (λ _, sums512_all P)).
  - by repeat split.
  - intros k t _. apply chunk512_pure_closed.
Qed.

Lemma result_zero_closed : categories_all P (result_zero (D:=D)).
Proof using P_zero. by repeat split. Qed.

Lemma hsums256_closed s r :
  sums256_all P s →
  categories_all P
    (set_categories r (hsum256_pd (direct_sum s)) (hsum256_pd (labor_sum s))
       (hsum256_pd (machine_op_sum s)) (hsum256_pd (material_sum s))
       (hsum256_pd (machine_sum s))).
Proof using P_add.
  intros (? & ? & ? & ? & ?). split_and!; simpl; by apply hsum256_pd_closed.
Qed.

Lemma scalar_sums_closed count :
  categories_all P (scalar_sums q d l mo mat m count).
Proof using P_zero P_add P_mul Hall.
  apply accumulate_loop_closed, result_zero_closed.
Qed.

Lemma avx2_sums_closed count :
  categories_all P (avx2_sums q d l mo mat m count).
Proof using P_zero P_add P_mul P_fma Hall.
  unfold avx2_sums. apply accumulate_loop_closed, hsums256_closed.
  apply (chunk256_loop_closed _ (λ i, i * 4)).
Qed.

Lemma avx512_sums_closed count :
  categories_all P (avx512_sums q d l mo mat m count).
Proof using P_zero P_add P_mul P_fma Hall.
  unfold avx512_sums.
  pose proof (chunk512_loop_closed (N.to_nat (count / 8)) (λ i, i * 8))
    as (? & ? & ? & ? & ?).
  assert (categories_all P
            (set_categories result_zero
               (_mm512_reduce_add_pd (direct_sum512
                  (iterate_pure (N.to_nat (count / 8)) 1
                     (λ i, chunk512_pure q d l mo mat m (i * 8)) 0
                     sums512_zero)))
               (_mm512_reduce_add_pd (labor_sum512
                  (iterate_pure (N.to_nat (count / 8)) 1
                     (λ i, chunk512_pure q d l mo mat m (i * 8)) 0
                     sums512_zero)))
               (_mm512_reduce_add_pd (machine_op_sum512
                  (iterate_pure (N.to_nat (count / 8)) 1
                     (λ i, chunk512_pure q d l mo mat m (i * 8)) 0
                     sums512_zero)))
               (_mm512_reduce_add_pd (material_sum512
                  (iterate_pure (N.to_nat (count / 8)) 1
                     (λ i, chunk512_pure q d l mo mat m (i * 8)) 0
                     sums512_zero)))
               (_mm512_reduce_add_pd (machine_sum512
                  (iterate_pure (N.to_nat (count / 8)) 1
                     (λ i, chunk512_pure q d l mo mat m (i * 8)) 0
                     sums512_zero))))) as Hwide.
  { split_and!; simpl; by apply reduce_add_pd_closed. }
  destruct (4 <=? count - count / 8 * 8); [|by apply accumulate_loop_closed].
  apply accumulate_loop_closed.
  destruct Hwide as (? & ? & ? & ? & ?).
  pose proof (chunk256_loop_closed
                (N.to_nat ((count - count / 8 * 8) / 4))
                (λ i, count / 8 * 8 + i * 4)) as (? & ? & ? & ? & ?).
  split_and!; simpl; apply P_add; try done; by apply hsum256_pd_closed.
Qed.

Lemma tier_sums_closed t b count :
  categories_all P (tier_sums t b q d l mo mat m count).
Proof using P_zero P_add P_mul P_fma Hall.
  assert (categories_all P (avx2_tier_sums b q d l mo mat m count)).
  { unfold avx2_tier_sums. destruct (HAS_X86_SIMD b), (count <? 4);
      auto using scalar_sums_closed, avx2_sums_closed. }
  destruct t; simpl; [apply scalar_sums_closed|done|].
  unfold avx512_tier_sums.
  destruct (HAS_X86_SIMD b), (AVX512F b), (count <? 8);
    auto using scalar_sums_closed, avx512_sums_closed.
Qed.

(** The five category totals of every entry point are built from the
    elements, the index and [0.0] by [+], [*] and fused multiply-add only:
    what these preserve holds of the totals. *)
Lemma estimate_categories_closed e b count settings :
  inputs_in_bounds q d l mo mat m count →
  P (index settings) →
  ∃ r,
    estimate e b q d l mo mat m count settings = Some r
    ∧ categories_all P r.
Proof using P_zero P_add P_mul P_fma Hall.
  intros Hin Hindex. eexists. split; [by apply estimate_pure|].
  destruct (tier_sums_closed (entry_tier e b) b count)
    as (? & ? & ? & ? & ?).
  split_and!; simpl; by apply P_mul.
Qed.

End Closure.

(** ** Exact arithmetic *)

Local Open Scope Qc_scope.

Lemma wsum_split a b lo n k :
  wsum a b lo (n + k) = wsum a b lo n + wsum a b (lo + N.of_nat n) k.
Proof.
  induction k as [|k IH].
  - rewrite Nat.add_0_r. simpl. ring.
  - rewrite Nat.add_succ_r. simpl. rewrite IH.
    replace (lo + N.of_nat (n + k))%N with (lo + N.of_nat n + N.of_nat k)%N
      by lia.
    ring.
Qed.

Lemma wsum_chunk4 a b lo k :
  wsum a b lo (Datatypes.S k * 4)
  = wsum a b lo (k * 4) + dot4 a b (lo + N.of_nat k * 4).
Proof.
  simpl. unfold dot4.
  replace (lo + N.of_nat (k * 4))%N with (lo + N.of_nat k * 4)%N by lia.
  replace (lo + N.of_nat (Datatypes.S (k * 4)))%N
    with (lo + N.of_nat k * 4 + 1)%N by lia.
  replace (lo + N.of_nat (Datatypes.S (Datatypes.S (k * 4))))%N
    with (lo + N.of_nat k * 4 + 2)%N by lia.
  replace (lo + N.of_nat (Datatypes.S (Datatypes.S (Datatypes.S (k * 4)))))%N
    with (lo + N.of_nat k * 4 + 3)%N by lia.
  ring.
Qed.

Lemma wsum_chunk8 a b lo k :
  wsum a b lo (Datatypes.S k * 8)
  = wsum a b lo (k * 8) + dot8 a b (lo + N.of_nat k * 8).
Proof.
  replace (Datatypes.S k * 8)%nat with (Datatypes.S (2 * k + 1) * 4)%nat
    by lia.
  rewrite wsum_chunk4.
  replace (2 * k + 1)%nat with (Datatypes.S (2 * k)) by lia.
  rewrite wsum_chunk4.
  replace (2 * k * 4)%nat with (k * 8)%nat by lia.
  unfold dot8.
  replace (lo + N.of_nat (2 * k) * 4)%N with (lo + N.of_nat k * 8)%N by lia.
  replace (lo + N.of_nat (Datatypes.S (2 * k)) * 4)%N
    with (lo + N.of_nat k * 8 + 4)%N by lia.
  ring.
Qed.

Lemma hsum256_pd_lanes v : hsum256_pd v = lanes256 v.
Proof. destruct v. unfold hsum256_pd, lanes256. simpl. ring. Qed.

Lemma reduce_add_pd_lanes v : _mm512_reduce_add_pd v = lanes512 v.
Proof. destruct v. unfold _mm512_reduce_add_pd, lanes512. simpl. ring. Qed.

Lemma fmadd256_lanes a b i acc :
  lanes256 (_mm256_fmadd_pd (vec256 a i) (vec256 b i) acc)
  = lanes256 acc + dot4 a b i.
Proof. destruct acc. unfold lanes256, dot4. simpl. ring. Qed.

Lemma fmadd512_lanes a b i acc :
  lanes512 (_mm512_fmadd_pd (vec512 a i) (vec512 b i) acc)
  = lanes512 acc + dot8 a b i.
Proof.
  destruct acc. unfold lanes512, dot8, dot4. simpl.
  replace (i + 4 + 1)%N with (i + 5)%N by lia.
  replace (i + 4 + 2)%N with (i + 6)%N by lia.
  replace (i + 4 + 3)%N with (i + 7)%N by lia.
  ring.
Qed.

Lemma set_categories_ext (r : CalculationResult Qc) a b c d e a' b' c' d' e' :
  a = a' → b = b' → c = c' → d = d' → e = e' →
  set_categories r a b c d e = set_categories r a' b' c' d' e'.
Proof. by intros -> -> -> -> ->. Qed.

Lemma add_categories_0 (r : CalculationResult Qc) :
  add_categories r 0 0 0 0 0 = r.
Proof.
  destruct r. unfold add_categories, set_categories. simpl.
  f_equal; ring.
Qed.

Lemma add_categories_add (r : CalculationResult Qc) a b c d e a' b' c' d' e' :
  add_categories (add_categories r a b c d e) a' b' c' d' e'
  = add_categories r (a + a') (b + b') (c + c') (d + d') (e + e').
Proof.
  unfold add_categories, set_categories. simpl. f_equal; ring.
Qed.

Lemma add_categories_set (r : CalculationResult Qc) a b c d e a' b' c' d' e' :
  add_categories (set_categories r a b c d e) a' b' c' d' e'
  = set_categories r (a + a') (b + b') (c + c') (d + d') (e + e').
Proof. done. Qed.

Section ExactSums.
Variables q d l mo mat m : list Qc.

(** The scalar loop adds the products of its range to each category. *)
Lemma accumulate_pure_sums n i r :
  iterate_pure n 1 (accumulate_pure q d l mo mat m) i r
  = add_categories r (wsum q d i n) (wsum q l i n) (wsum q mo i n)
      (wsum q mat i n) (wsum q m i n).
Proof.
  apply (iterate_pure_invariant 1 _ n
           (λ k t, t = add_categories r (wsum q d i k) (wsum q l i k)
                         (wsum q mo i k) (wsum q mat i k) (wsum q m i k))).
  - simpl. by rewrite add_categories_0.
  - intros k t _ ->. unfold accumulate_pure at 1.
    rewrite add_categories_add. simpl.
    by replace (i + 1 * N.of_nat k)%N with (i + N.of_nat k)%N by lia.
Qed.

(** The lanes of the 256-bit accumulators add up to the products of the
    chunks consumed. *)
Lemma chunk256_pure_sums (f : N → sums256 Qc → sums256 Qc) base n :
  (∀ i s, f i s = chunk256_pure q d l mo mat m (base + i * 4) s) →
  hsums256 (iterate_pure n 1 f 0 sums256_zero)
  = (wsum q d base (n * 4), wsum q l base (n * 4), wsum q mo base (n * 4),
     wsum q mat base (n * 4), wsum q m base (n * 4)).
Proof.
  intros Hf. unfold hsums256. rewrite !hsum256_pd_lanes.
  apply (iterate_pure_invariant 1 f n
           (λ k s,
              (lanes256 (direct_sum s), lanes256 (labor_sum s),
               lanes256 (machine_op_sum s), lanes256 (material_sum s),
               lanes256 (machine_sum s))
              = (wsum q d base (k * 4), wsum q l base (k * 4),
                 wsum q mo base (k * 4), wsum q mat base (k * 4),
                 wsum q m base (k * 4)))).
  - done.
  - intros k s _ Hs. rewrite Hf. injection Hs as Hd Hl Hmo Hmat Hm.
    rewrite !wsum_chunk4. unfold chunk256_pure. simpl direct_sum.
    simpl labor_sum. simpl machine_op_sum. simpl material_sum.
    simpl machine_sum. rewrite !fmadd256_lanes, Hd, Hl, Hmo, Hmat, Hm.
    by replace (0 + 1 * N.of_nat k)%N with (N.of_nat k) by lia.
Qed.

Lemma chunk512_pure_sums n :
  hsums512 (iterate_pure n 1 (λ i, chunk512_pure q d l mo mat m (i * 8))
              0 sums512_zero)
  = (wsum q d 0 (n * 8), wsum q l 0 (n * 8), wsum q mo 0 (n * 8),
     wsum q mat 0 (n * 8), wsum q m 0 (n * 8)).
Proof.
  unfold hsums512. rewrite !reduce_add_pd_lanes.
  apply (iterate_pure_invariant 1 _ n
           (λ k s,
              (lanes512 (direct_sum512 s), lanes512 (labor_sum512 s),
               lanes512 (machine_op_sum512 s), lanes512 (material_sum512 s),
               lanes512 (machine_sum512 s))
              = (wsum q d 0 (k * 8), wsum q l 0 (k * 8),
                 wsum q mo 0 (k * 8), wsum q mat 0 (k * 8),
                 wsum q m 0 (k * 8)))).
  - done.
  - intros k s _ Hs. injection Hs as Hd Hl Hmo Hmat Hm.
    rewrite !wsum_chunk8. unfold chunk512_pure. simpl direct_sum512.
    simpl labor_sum512. simpl machine_op_sum512. simpl material_sum512.
    simpl machine_sum512. rewrite !fmadd512_lanes, Hd, Hl, Hmo, Hmat, Hm.
    by replace ((0 + 1 * N.of_nat k) * 8)%N with (0 + N.of_nat k * 8)%N
      by lia.
Qed.

End ExactSums.

Lemma tuple5_eq {A : Type} (a b c d e a' b' c' d' e' : A) :
  (a, b, c, d, e) = (a', b', c', d', e') →
  a = a' ∧ b = b' ∧ c = c' ∧ d = d' ∧ e = e'.
Proof. intros H. by injection H. Qed.

Lemma wsum_join a b n k total lo :
  lo = N.of_nat n → (n + k)%nat = total →
  wsum a b 0 n + wsum a b lo k = wsum a b 0 total.
Proof. intros -> <-. by rewrite wsum_split. Qed.

Section ExactTiers.
Variables q d l mo mat m : list Qc.
Variable count : N.

Lemma scalar_sums_exact :
  scalar_sums q d l mo mat m count = exact_sums q d l mo mat m count.
Proof.
  unfold scalar_sums, exact_sums. rewrite accumulate_pure_sums.
  unfold add_categories. apply set_categories_ext; simpl; ring.
Qed.

Lemma avx2_sums_exact :
  avx2_sums q d l mo mat m count = exact_sums q d l mo mat m count.
Proof.
  unfold avx2_sums, exact_sums.
  pose proof (chunk256_pure_sums q d l mo mat m
                (λ i, chunk256_pure q d l mo mat m (i * 4)) 0
                (N.to_nat (count / 4)) (λ _ _, eq_refl)) as Hs.
  unfold hsums256 in Hs. apply tuple5_eq in Hs as (-> & -> & -> & -> & ->).
  rewrite accumulate_pure_sums, add_categories_set.
  apply set_categories_ext; apply wsum_join; lia.
Qed.

Lemma avx512_sums_exact :
  avx512_sums q d l mo mat m count = exact_sums q d l mo mat m count.
Proof.
  unfold avx512_sums, exact_sums.
  pose proof (chunk512_pure_sums q d l mo mat m (N.to_nat (count / 8))) as Hs.
  unfold hsums512 in Hs. apply tuple5_eq in Hs as (-> & -> & -> & -> & ->).
  destruct (N.leb_spec 4 (count - count / 8 * 8)) as [Hrem|Hrem].
  - pose proof (chunk256_pure_sums q d l mo mat m
                  (λ i, chunk256_pure q d l mo mat m (count / 8 * 8 + i * 4))
                  (count / 8 * 8)
                  (N.to_nat ((count - count / 8 * 8) / 4))
                  (λ _ _, eq_refl)) as Hr.
    unfold hsums256 in Hr. apply tuple5_eq in Hr as (-> & -> & -> & -> & ->).
    rewrite accumulate_pure_sums, !add_categories_set.
    apply set_categories_ext;
      (rewrite (wsum_join _ _ (N.to_nat (count / 8) * 8)
                  (N.to_nat ((count - count / 8 * 8) / 4) * 4)
                  (N.to_nat (count / 8) * 8
                   + N.to_nat ((count - count / 8 * 8) / 4) * 4))
         by lia;
       apply wsum_join; lia).
  - rewrite accumulate_pure_sums, add_categories_set.
    apply set_categories_ext; apply wsum_join; lia.
Qed.

Lemma tier_sums_exact t b :
  tier_sums t b q d l mo mat m count = exact_sums q d l mo mat m count.
Proof.
  assert (avx2_tier_sums b q d l mo mat m count
          = exact_sums q d l mo mat m count) as Havx2.
  { unfold avx2_tier_sums.
    destruct (HAS_X86_SIMD b), (count <? 4)%N;
      auto using scalar_sums_exact, avx2_sums_exact. }
  destruct t; simpl; [apply scalar_sums_exact|done|].
  unfold avx512_tier_sums.
  destruct (HAS_X86_SIMD b), (AVX512F b), (count <? 8)%N;
    auto using scalar_sums_exact, avx512_sums_exact.
Qed.

End ExactTiers.

(** Every entry point, in exact arithmetic and on arrays within bounds,
    returns the settings applied to the five sums of products. *)
Lemma estimate_exact e b q d l mo mat m count
    (settings : CalculationSettings Qc) :
  inputs_in_bounds q d l mo mat m count →
  estimate e b q d l mo mat m count settings
  = Some (apply_settings settings (exact_sums q d l mo mat m count)).
Proof.
  intros. rewrite estimate_pure by done.
  by rewrite tier_sums_exact.
Qed.

(** *** Tier equivalence *)

(** C1 (amended). In exact arithmetic, for every count, six arrays of at
    least [count] elements and every settings record,
    [calculate_estimate_avx2] and [calculate_estimate_avx512] return the
    very result of the sequential reference [calculate_estimate_scalar],
    whatever the build; this covers every count from 0 through 17 and with
    them every shape of remainder.  In binary64 no tolerance holds for
    every input: where partial sums cancel, the reordered reduction of the
    vector tiers is a factor away from the sequential one. *)
Theorem vector_tiers_match_scalar b q d l mo mat m count
    (settings : CalculationSettings Qc) :
  inputs_in_bounds q d l mo mat m count →
  ∃ r,
    calculate_estimate_scalar q d l mo mat m count settings = Some r
    ∧ calculate_estimate_avx2 b q d l mo mat m count settings = Some r
    ∧ calculate_estimate_avx512 b q d l mo mat m count settings = Some r.
Proof.
  intros Hin.
  exists (apply_settings settings (exact_sums q d l mo mat m count)).
  split; [|split].
  - by apply (estimate_exact (Explicit Scalar) b).
  - by apply (estimate_exact (Explicit Vector256) b).
  - by apply (estimate_exact (Explicit Vector512) b).
Qed.

(** *** Zero items *)

Lemma apply_settings_zero_binary64 (settings : CalculationSettings binary64) :
  settings_finite settings →
  all_fields_zero (apply_settings settings result_zero).
Proof.
  destruct settings as [ro rp rv i]. intros (Ho & Hp & Hv & Hi).
  simpl in Ho, Hp, Hv, Hi.
  destruct ro as [[|]|?| |[|] ? ?]; try done;
    destruct rp as [[|]|?| |[|] ? ?]; try done;
    destruct rv as [[|]|?| |[|] ? ?]; try done;
    destruct i as [[|]|?| |[|] ? ?]; try done;
    by repeat split.
Qed.

(** C5 (amended). With [count = 0], whatever the six arrays are, every
    estimate entry point returns a result whose ten fields are all 0: in
    exact arithmetic for every settings record, and in binary64 for every
    settings record whose four fields are finite (each field is then [+0]
    or [-0], which compare equal to 0). *)
Theorem zero_count_all_fields_zero e b :
  (∀ q d l mo mat m (settings : CalculationSettings Qc),
     estimate e b q d l mo mat m 0 settings
     = Some {| direct_costs := 0; labor_costs := 0; machine_op_costs := 0;
               material_costs := 0; machine_costs := 0; overhead := 0;
               profit := 0; subtotal := 0; vat := 0; total := 0 |}%Qc)
  ∧ (∀ q d l mo mat m (settings : CalculationSettings binary64),
       settings_finite settings →
       ∃ r,
         estimate e b q d l mo mat m 0 settings = Some r
         ∧ all_fields_zero r).
Proof.
  split.
  - intros. rewrite estimate_zero_count.
    unfold apply_settings, result_zero. simpl. f_equal. f_equal; ring.
  - intros q d l mo mat m settings Hfinite. eexists.
    split; [apply estimate_zero_count|].
    by apply apply_settings_zero_binary64.
Qed.

(** *** Linearity in the unit costs *)

Lemma c_array_scale k a count : c_array a count → c_array (scale k a) count.
Proof. unfold c_array, scale. by rewrite length_fmap. Qed.

Lemma inputs_in_bounds_scale k q d l mo mat m count :
  inputs_in_bounds q d l mo mat m count →
  inputs_in_bounds q (scale k d) (scale k l) (scale k mo) (scale k mat)
    (scale k m) count.
Proof.
  intros (Hq & Hd & Hl & Hmo & Hmat & Hm).
  unfold inputs_in_bounds. auto 10 using c_array_scale.
Qed.

Lemma elt_scale k a i : elt (scale k a) i = k * elt a i.
Proof.
  unfold elt, scale. rewrite list_lookup_fmap.
  destruct (a !! N.to_nat i); simpl; [done|ring].
Qed.

Lemma wsum_scale k a b lo n : wsum a (scale k b) lo n = k * wsum a b lo n.
Proof.
  induction n as [|n IH]; simpl; [ring|].
  rewrite IH, elt_scale. ring.
Qed.

Lemma apply_settings_scale k settings q d l mo mat m count :
  apply_settings settings
    (exact_sums q (scale k d) (scale k l) (scale k mo) (scale k mat)
       (scale k m) count)
  = scale_result k (apply_settings settings (exact_sums q d l mo mat m count)).
Proof.
  unfold apply_settings, exact_sums, scale_result. simpl.
  rewrite !wsum_scale. f_equal; ring.
Qed.

(** C8. In exact arithmetic, scaling the five unit-cost arrays elementwise
    by a constant [k], with the quantities, the count and the settings held
    fixed, scales the result of every estimate entry point by [k]: the five
    category totals and with them overhead, profit, subtotal, vat and
    total. *)
Theorem unit_cost_scaling_scales_result e b k q d l mo mat m count
    (settings : CalculationSettings Qc) :
  inputs_in_bounds q d l mo mat m count →
  ∃ r,
    estimate e b q d l mo mat m count settings = Some r
    ∧ estimate e b q (scale k d) (scale k l) (scale k mo) (scale k mat)
        (scale k m) count settings
      = Some (scale_result k r).
Proof.
  intros Hin. eexists. split.
  - by apply estimate_exact.
  - rewrite estimate_exact by by apply inputs_in_bounds_scale.
    by rewrite apply_settings_scale.
Qed.

(** *** Sign of the category totals *)

Lemma elt_nonneg a i : Forall (Qcle 0) a → 0 ≤ elt a i.
Proof.
  intros Ha. unfold elt.
  destruct (a !! N.to_nat i) as [x|] eqn:Hx; simpl; [|done].
  by eapply (Forall_lookup_1 _ a).
Qed.

Lemma wsum_nonneg a b lo n :
  Forall (Qcle 0) a → Forall (Qcle 0) b → 0 ≤ wsum a b lo n.
Proof.
  intros Ha Hb. induction n as [|n IH]; simpl; [done|].
  apply Qcplus_nonneg_nonneg; [done|].
  apply Qcmult_nonneg_nonneg; by apply elt_nonneg.
Qed.

(** C9 (amended). When every element of the six arrays and the index of
    the settings are non-negative, the five category totals returned by
    every estimate entry point are non-negative in exact arithmetic; in
    binary64 each of them is non-negative or NaN, and never negative (NaN
    arises when an overflow to [+inf] meets a zero). *)
Theorem category_totals_nonneg e b count :
  (∀ q d l mo mat m (settings : CalculationSettings Qc),
     inputs_in_bounds q d l mo mat m count →
     inputs_nonneg q d l mo mat m →
     (0 ≤ index settings)%Qc →
     ∃ r,
       estimate e b q d l mo mat m count settings = Some r
       ∧ categories_all (Qcle 0) r)
  ∧ (∀ q d l mo mat m (settings : CalculationSettings binary64),
       inputs_in_bounds q d l mo mat m count →
       inputs_all b64_nonneg q d l mo mat m →
       b64_nonneg (index settings) →
       ∃ r,
         estimate e b q d l mo mat m count settings = Some r
         ∧ categories_all (λ t, b64_nonneg t ∨ t = S754_nan) r).
Proof.
  split.
  - intros q d l mo mat m settings Hin Hnonneg Hindex.
    apply (estimate_categories_closed (Qcle 0)); try done.
    + intros. by apply Qcplus_nonneg_nonneg.
    + intros. by apply Qcmult_nonneg_nonneg.
    + intros. simpl. apply Qcplus_nonneg_nonneg; [|done].
      by apply Qcmult_nonneg_nonneg.
  - intros q d l mo mat m settings Hin (Hq & Hd & Hl & Hmo & Hmat & Hm)
      Hindex.
    assert (∃ r,
              estimate e b q d l mo mat m count settings = Some r
              ∧ categories_all not_negative r)
      as (r & Hr & Cd & Cl & Cmo & Cmat & Cm).
    { apply estimate_categories_closed.
      - done.
      - apply b64_add_not_negative.
      - apply b64_mul_not_negative.
      - apply b64_fma_not_negative.
      - unfold inputs_all.
        split_and!;
          (eapply Forall_impl; [|eassumption]; apply b64_nonneg_not_negative).
      - done.
      - by apply b64_nonneg_not_negative. }
    exists r. split; [done|].
    split_and!; by apply not_negative_cases.
Qed.

Local Close Scope Qc_scope.

(** ** The elementwise kernel *)

(** A loop whose state is determined by its counter. *)
Lemma iterate_indexed {S : Type} (w : N) (body : N → S → option S)
    (st : N → S) :
  ∀ n i,
    (∀ k, (k < n)%nat →
       body (i + w * N.of_nat k) (st (i + w * N.of_nat k))
       = Some (st (i + w * N.of_nat k + w))) →
    iterate n w body i (st i) = Some (st (i + w * N.of_nat n)).
Proof.
  induction n as [|n IH]; intros i Hbody.
  - simpl. by replace (i + w * N.of_nat 0) with i by lia.
  - simpl. specialize (Hbody O) as Hnow.
    replace (i + w * N.of_nat 0) with i in Hnow by lia.
    rewrite Hnow by lia. simpl. rewrite IH.
    + by replace (i + w + w * N.of_nat n)
        with (i + w * N.of_nat (Datatypes.S n)) by lia.
    + intros k Hk. specialize (Hbody (Datatypes.S k)).
      replace (i + w * N.of_nat (Datatypes.S k))
        with (i + w + w * N.of_nat k) in Hbody by lia.
      apply Hbody. lia.
Qed.

Lemma for_each_indexed {S : Type} (count : N) (body : N → S → option S)
    (st : N → S) i :
  count < SIZE_MODULUS → i ≤ count →
  (∀ j, i ≤ j → j < count → body j (st j) = Some (st (j + 1))) →
  for_each count body i (st i) = Some (count, st count).
Proof.
  intros Hcount Hi Hbody. rewrite for_each_iterate by done.
  rewrite (iterate_indexed 1 body st).
  - simpl. replace (N.max i count) with count by lia.
    by replace (i + 1 * N.of_nat (N.to_nat (count - i))) with count by lia.
  - intros k Hk. apply Hbody; lia.
Qed.

Lemma for_chunks_indexed {S : Type} (w count : N) (body : N → S → option S)
    (st : N → S) i :
  0 < w → count + w < SIZE_MODULUS → i ≤ count →
  (∀ j, i ≤ j → j + w ≤ count → body j (st j) = Some (st (j + w))) →
  for_chunks w count body i (st i)
  = Some (i + w * ((count - i) / w), st (i + w * ((count - i) / w))).
Proof.
  intros Hw Hcount Hi Hbody. rewrite for_chunks_iterate by done.
  assert (w * ((count - i) / w) ≤ count - i) as Hle
    by (apply N.Div0.mul_div_le).
  revert Hle. generalize ((count - i) / w). intros n Hle.
  rewrite (iterate_indexed w body st).
  - simpl. by rewrite N2Nat.id.
  - intros k Hk. apply Hbody; [lia|nia].
Qed.

Section Items.
Context {D : Type} {ops : DoubleOps D}.

Lemma results_upto_0 (m : items_memory D) : results_upto m 0 = results m.
Proof. done. Qed.

Lemma set_results_same (m : items_memory D) : set_results m (results m) = m.
Proof. by destruct m. Qed.

Lemma length_results_upto (m : items_memory D) i :
  i ≤ N.of_nat (length (results m)) →
  length (results_upto m i) = length (results m).
Proof.
  intros Hi. unfold results_upto.
  rewrite length_app, length_fmap, length_seq, length_drop. lia.
Qed.

Lemma store_results_upto (m : items_memory D) i :
  i < N.of_nat (length (results m)) →
  store (results_upto m i) i (item_value m i)
  = Some (results_upto m (i + 1)).
Proof.
  intros Hi. unfold store.
  rewrite length_results_upto by lia.
  destruct (decide (N.to_nat i < length (results m))%nat) as [_|]; [|lia].
  f_equal. unfold results_upto.
  rewrite insert_app_r_alt by (rewrite length_fmap, length_seq; lia).
  rewrite length_fmap, length_seq, Nat.sub_diag.
  destruct (lookup_lt_is_Some_2 (results m) (N.to_nat i)) as [x Hx]; [lia|].
  rewrite (drop_S _ _ _ Hx). simpl.
  replace (N.to_nat (i + 1)) with (Datatypes.S (N.to_nat i)) by lia.
  rewrite seq_S, fmap_app, <- app_assoc. simpl.
  by rewrite N2Nat.id.
Qed.

Section Steps.
Variable m : items_memory D.
Variable count : N.
Hypothesis Hm : items_in_bounds m count.

Lemma items_scalar_step i :
  i < count →
  items_scalar i (set_results m (results_upto m i))
  = Some (set_results m (results_upto m (i + 1))).
Proof using Hm.
  intros Hi. destruct Hm as ([? ?] & [? ?] & [? ?] & [? ?]).
  unfold items_scalar. simpl.
  rewrite !load_elt by lia. simpl.
  fold (item_value m i). by rewrite store_results_upto by lia.
Qed.

Lemma items_chunk256_step i :
  i + 4 ≤ count →
  items_chunk256 i (set_results m (results_upto m i))
  = Some (set_results m (results_upto m (i + 4))).
Proof using Hm.
  intros Hi. destruct Hm as ([? ?] & [? ?] & [? ?] & [? ?]).
  unfold items_chunk256. simpl.
  rewrite !loadu256_vec by lia. simpl.
  unfold _mm256_storeu_pd. simpl.
  fold (item_value m i). fold (item_value m (i + 1)).
  fold (item_value m (i + 2)). fold (item_value m (i + 3)).
  rewrite store_results_upto by lia. simpl.
  rewrite store_results_upto by lia. simpl.
  replace (i + 1 + 1) with (i + 2) by lia.
  rewrite store_results_upto by lia. simpl.
  replace (i + 2 + 1) with (i + 3) by lia.
  rewrite store_results_upto by lia. simpl.
  by replace (i + 3 + 1) with (i + 4) by lia.
Qed.

Lemma items_chunk512_step i :
  i + 8 ≤ count →
  items_chunk512 i (set_results m (results_upto m i))
  = Some (set_results m (results_upto m (i + 8))).
Proof using Hm.
  intros Hi. destruct Hm as ([? ?] & [? ?] & [? ?] & [? ?]).
  unfold items_chunk512. simpl.
  rewrite !loadu512_vec by lia. simpl.
  unfold _mm512_storeu_pd. simpl.
  fold (item_value m i). fold (item_value m (i + 1)).
  fold (item_value m (i + 2)). fold (item_value m (i + 3)).
  fold (item_value m (i + 4)). fold (item_value m (i + 5)).
  fold (item_value m (i + 6)). fold (item_value m (i + 7)).
  rewrite store_results_upto by lia. simpl.
  rewrite store_results_upto by lia. simpl.
  replace (i + 1 + 1) with (i + 2) by lia.
  rewrite store_results_upto by lia. simpl.
  replace (i + 2 + 1) with (i + 3) by lia.
  rewrite store_results_upto by lia. simpl.
  replace (i + 3 + 1) with (i + 4) by lia.
  rewrite store_results_upto by lia. simpl.
  replace (i + 4 + 1) with (i + 5) by lia.
  rewrite store_results_upto by lia. simpl.
  replace (i + 5 + 1) with (i + 6) by lia.
  rewrite store_results_upto by lia. simpl.
  replace (i + 6 + 1) with (i + 7) by lia.
  rewrite store_results_upto by lia. simpl.
  by replace (i + 7 + 1) with (i + 8) by lia.
Qed.

(** The three loops, each started where the one before stopped. *)
Lemma items_scalar_loop i :
  i ≤ count →
  for_each count items_scalar i (set_results m (results_upto m i))
  = Some (count, set_results m (results_upto m count)).
Proof using Hm.
  intros Hi.
  apply (for_each_indexed count items_scalar
           (λ j, set_results m (results_upto m j))); [|done|].
  - destruct Hm as (Hq & _). by eapply c_array_count.
  - intros j _ Hj. by apply items_scalar_step.
Qed.

Lemma items_chunk256_loop i :
  i ≤ count →
  ∃ i', i ≤ i' ∧ i' ≤ count
    ∧ for_chunks 4 count items_chunk256 i
        (set_results m (results_upto m i))
      = Some (i', set_results m (results_upto m i')).
Proof using Hm.
  intros Hi. exists (i + 4 * ((count - i) / 4)).
  split; [lia|]. split; [lia|].
  apply (for_chunks_indexed 4 count items_chunk256
           (λ j, set_results m (results_upto m j))); [done| |done|].
  - destruct Hm as (Hq & _). pose proof (c_array_room _ _ Hq). lia.
  - intros j _ Hj. by apply items_chunk256_step.
Qed.

Lemma items_chunk512_loop i :
  i ≤ count →
  ∃ i', i ≤ i' ∧ i' ≤ count
    ∧ for_chunks 8 count items_chunk512 i
        (set_results m (results_upto m i))
      = Some (i', set_results m (results_upto m i')).
Proof using Hm.
  intros Hi. exists (i + 8 * ((count - i) / 8)).
  split; [lia|]. split; [lia|].
  apply (for_chunks_indexed 8 count items_chunk512
           (λ j, set_results m (results_upto m j))); [done| |done|].
  - destruct Hm as (Hq & _). by apply (c_array_room _ _ Hq).
  - intros j _ Hj. by apply items_chunk512_step.
Qed.

Lemma calculate_items_scalar_closed :
  calculate_items_scalar m count
  = Some (set_results m (results_upto m count)).
Proof using Hm.
  unfold calculate_items_scalar.
  rewrite <- (set_results_same m) at 1. rewrite <- (results_upto_0 m) at 1.
  by rewrite items_scalar_loop by lia.
Qed.

Lemma calculate_items_avx2_simd_closed :
  calculate_items_avx2_simd m count
  = Some (set_results m (results_upto m count)).
Proof using Hm.
  unfold calculate_items_avx2_simd.
  rewrite <- (set_results_same m) at 1. rewrite <- (results_upto_0 m) at 1.
  destruct (items_chunk256_loop 0) as (i & _ & Hi & ->); [lia|]. simpl.
  by rewrite items_scalar_loop by lia.
Qed.

Lemma calculate_items_avx512_simd_closed :
  calculate_items_avx512_simd m count
  = Some (set_results m (results_upto m count)).
Proof using Hm.
  unfold calculate_items_avx512_simd.
  rewrite <- (set_results_same m) at 1. rewrite <- (results_upto_0 m) at 1.
  destruct (items_chunk512_loop 0) as (i & _ & Hi & ->); [lia|]. simpl.
  destruct (items_chunk256_loop i) as (i' & _ & Hi' & ->); [lia|]. simpl.
  by rewrite items_scalar_loop by lia.
Qed.

Lemma calculate_items_avx2_closed b :
  calculate_items_avx2 b m count
  = Some (set_results m (results_upto m count)).
Proof using Hm.
  unfold calculate_items_avx2. destruct (HAS_X86_SIMD b).
  - apply calculate_items_avx2_simd_closed.
  - apply calculate_items_scalar_closed.
Qed.

Lemma calculate_items_avx512_closed b :
  calculate_items_avx512 b m count
  = Some (set_results m (results_upto m count)).
Proof using Hm.
  unfold calculate_items_avx512.
  destruct (HAS_X86_SIMD b) eqn:Hx86, (AVX512F b);
    auto using calculate_items_avx512_simd_closed, calculate_items_avx2_closed.
Qed.

End Steps.

Lemma results_upto_lookup_lt (m : items_memory D) count (i : nat) :
  (i < N.to_nat count)%nat →
  results_upto m count !! i = Some (item_value m (N.of_nat i)).
Proof.
  intros Hi. unfold results_upto.
  rewrite lookup_app_l by (rewrite length_fmap, length_seq; lia).
  by rewrite list_lookup_fmap, lookup_seq_lt by lia.
Qed.

Lemma results_upto_lookup_ge (m : items_memory D) count (i : nat) :
  (N.to_nat count ≤ i)%nat →
  results_upto m count !! i = results m !! i.
Proof.
  intros Hi. unfold results_upto.
  rewrite lookup_app_r by (rewrite length_fmap, length_seq; lia).
  rewrite length_fmap, length_seq, lookup_drop. f_equal. lia.
Qed.

Lemma results_upto_products (m : items_memory D) count :
  products_stored m count (Some (set_results m (results_upto m count))).
Proof.
  eexists. split; [done|].
  intros i q c k Hi Hq Hc Hk. unfold load in *. simpl.
  rewrite results_upto_lookup_lt by lia.
  unfold item_value, elt. by rewrite N2Nat.id, Hq, Hc, Hk.
Qed.

Lemma results_upto_frame (m : items_memory D) count :
  count ≤ N.of_nat (length (results m)) →
  frame_kept m count (Some (set_results m (results_upto m count))).
Proof.
  intros Hcount. eexists. split; [done|]. simpl. repeat split.
  - by apply length_results_upto.
  - intros i Hi. unfold load. apply results_upto_lookup_ge. lia.
Qed.

(** C6. For every count and arrays of at least [count] elements,
    [calculate_items_avx2] and [calculate_items_avx512] return with
    [results[i] = quantities[i] * unit_costs[i] * coefficients[i]] at every
    index [i] below [count], in every build and for every interpretation of
    [double] (the product is taken left to right). *)
Theorem calculate_items_triple_product b (m : items_memory D) count :
  items_in_bounds m count →
  products_stored m count (calculate_items_avx2 b m count)
  ∧ products_stored m count (calculate_items_avx512 b m count).
Proof.
  intros Hm.
  rewrite calculate_items_avx2_closed, calculate_items_avx512_closed by done.
  split; apply results_upto_products.
Qed.

(** C10. [calculate_items_avx2] and [calculate_items_avx512] write only to
    [results[0..count)]: the output buffer keeps its length and every
    element at an index [count] or above, and the three input arrays are
    returned as they were passed. *)
Theorem calculate_items_frame b (m : items_memory D) count :
  items_in_bounds m count →
  frame_kept m count (calculate_items_avx2 b m count)
  ∧ frame_kept m count (calculate_items_avx512 b m count).
Proof.
  intros Hm.
  rewrite calculate_items_avx2_closed, calculate_items_avx512_closed by done.
  destruct Hm as (_ & _ & _ & [Hr _]).
  split; by apply results_upto_frame.
Qed.

End Items.

(** ** Sums and dot products in exact arithmetic *)

Local Open Scope Qc_scope.

Lemma psum_split a lo n k :
  psum a lo (n + k) = psum a lo n + psum a (lo + N.of_nat n) k.
Proof.
  induction k as [|k IH].
  - rewrite Nat.add_0_r. simpl. ring.
  - rewrite Nat.add_succ_r. simpl. rewrite IH.
    replace (lo + N.of_nat (n + k))%N with (lo + N.of_nat n + N.of_nat k)%N
      by lia.
    ring.
Qed.

Lemma psum_join a n k total lo :
  lo = N.of_nat n → (n + k)%nat = total →
  psum a 0 n + psum a lo k = psum a 0 total.
Proof. intros -> <-. by rewrite psum_split. Qed.

Lemma psum_chunk4 a lo k :
  psum a lo (Datatypes.S k * 4)
  = psum a lo (k * 4) + lanes256 (vec256 a (lo + N.of_nat k * 4)).
Proof.
  simpl. unfold lanes256. simpl.
  replace (lo + N.of_nat (k * 4))%N with (lo + N.of_nat k * 4)%N by lia.
  replace (lo + N.of_nat (Datatypes.S (k * 4)))%N
    with (lo + N.of_nat k * 4 + 1)%N by lia.
  replace (lo + N.of_nat (Datatypes.S (Datatypes.S (k * 4))))%N
    with (lo + N.of_nat k * 4 + 2)%N by lia.
  replace (lo + N.of_nat (Datatypes.S (Datatypes.S (Datatypes.S (k * 4)))))%N
    with (lo + N.of_nat k * 4 + 3)%N by lia.
  ring.
Qed.

Lemma psum_chunk8 a lo k :
  psum a lo (Datatypes.S k * 8)
  = psum a lo (k * 8) + lanes512 (vec512 a (lo + N.of_nat k * 8)).
Proof.
  replace (Datatypes.S k * 8)%nat with (Datatypes.S (2 * k + 1) * 4)%nat
    by lia.
  rewrite psum_chunk4.
  replace (2 * k + 1)%nat with (Datatypes.S (2 * k)) by lia.
  rewrite psum_chunk4.
  replace (2 * k * 4)%nat with (k * 8)%nat by lia.
  replace (lo + N.of_nat (2 * k) * 4)%N with (lo + N.of_nat k * 8)%N by lia.
  replace (lo + N.of_nat (Datatypes.S (2 * k)) * 4)%N
    with (lo + N.of_nat k * 8 + 4)%N by lia.
  unfold lanes256, lanes512. simpl.
  replace (lo + N.of_nat k * 8 + 4 + 1)%N with (lo + N.of_nat k * 8 + 5)%N
    by lia.
  replace (lo + N.of_nat k * 8 + 4 + 2)%N with (lo + N.of_nat k * 8 + 6)%N
    by lia.
  replace (lo + N.of_nat k * 8 + 4 + 3)%N with (lo + N.of_nat k * 8 + 7)%N
    by lia.
  ring.
Qed.

Lemma add256_lanes a b :
  lanes256 (_mm256_add_pd a b) = lanes256 a + lanes256 b.
Proof. destruct a, b. unfold lanes256. simpl. ring. Qed.

Lemma add512_lanes a b :
  lanes512 (_mm512_add_pd a b) = lanes512 a + lanes512 b.
Proof. destruct a, b. unfold lanes512. simpl. ring. Qed.

(** The three kinds of loop, as sums. *)
Lemma sum_items_psum data n i sum :
  iterate_pure n 1 (λ j s, s + elt data j) i sum = sum + psum data i n.
Proof.
  apply (iterate_pure_invariant 1 _ n (λ k s, s = sum + psum data i k)).
  - simpl. ring.
  - intros k s _ ->. simpl.
    replace (i + 1 * N.of_nat k)%N with (i + N.of_nat k)%N by lia. ring.
Qed.

Lemma sum_chunks256_psum data n :
  lanes256 (iterate_pure n 4 (λ j v, _mm256_add_pd v (vec256 data j))
              0 _mm256_setzero_pd)
  = psum data 0 (n * 4).
Proof.
  apply (iterate_pure_invariant 4 _ n
           (λ k v, lanes256 v = psum data 0 (k * 4))).
  - done.
  - intros k v _ Hv. rewrite add256_lanes, psum_chunk4, Hv.
    by replace (0 + 4 * N.of_nat k)%N with (0 + N.of_nat k * 4)%N by lia.
Qed.

Lemma sum_chunks512_psum data n :
  lanes512 (iterate_pure n 8 (λ j v, _mm512_add_pd v (vec512 data j))
              0 _mm512_setzero_pd)
  = psum data 0 (n * 8).
Proof.
  apply (iterate_pure_invariant 8 _ n
           (λ k v, lanes512 v = psum data 0 (k * 8))).
  - done.
  - intros k v _ Hv. rewrite add512_lanes, psum_chunk8, Hv.
    by replace (0 + 8 * N.of_nat k)%N with (0 + N.of_nat k * 8)%N by lia.
Qed.

Lemma dot_items_wsum a b n i sum :
  iterate_pure n 1 (λ j s, s + elt a j * elt b j) i sum
  = sum + wsum a b i n.
Proof.
  apply (iterate_pure_invariant 1 _ n (λ k s, s = sum + wsum a b i k)).
  - simpl. ring.
  - intros k s _ ->. simpl.
    replace (i + 1 * N.of_nat k)%N with (i + N.of_nat k)%N by lia. ring.
Qed.

Lemma dot_chunks256_wsum a b n :
  lanes256 (iterate_pure n 4
              (λ j v, _mm256_fmadd_pd (vec256 a j) (vec256 b j) v)
              0 _mm256_setzero_pd)
  = wsum a b 0 (n * 4).
Proof.
  apply (iterate_pure_invariant 4 _ n
           (λ k v, lanes256 v = wsum a b 0 (k * 4))).
  - done.
  - intros k v _ Hv. rewrite fmadd256_lanes, wsum_chunk4, Hv.
    by replace (0 + 4 * N.of_nat k)%N with (0 + N.of_nat k * 4)%N by lia.
Qed.

(** The references are the same sums. *)
Lemma foldl_take_psum data n sum :
  (n ≤ length data)%nat →
  foldl Qcplus sum (take n data) = sum + psum data 0 n.
Proof.
  induction n as [|n IH]; intros Hn.
  - simpl. ring.
  - destruct (lookup_lt_is_Some_2 data n) as [x Hx]; [lia|].
    rewrite (take_S_r _ _ _ Hx), foldl_app, IH by lia. simpl.
    unfold elt. rewrite N.add_0_l, Nat2N.id, Hx. simpl. ring.
Qed.

Lemma foldl_take_wsum a b n sum :
  (n ≤ length a)%nat → (n ≤ length b)%nat →
  foldl (λ s (xy : Qc * Qc), s + xy.1 * xy.2) sum (take n (zip a b))
  = sum + wsum a b 0 n.
Proof.
  induction n as [|n IH]; intros Ha Hb.
  - simpl. ring.
  - destruct (lookup_lt_is_Some_2 a n) as [x Hx]; [lia|].
    destruct (lookup_lt_is_Some_2 b n) as [y Hy]; [lia|].
    assert (zip a b !! n = Some (x, y)) as Hxy.
    { by rewrite lookup_zip_with, Hx, Hy. }
    rewrite (take_S_r _ _ _ Hxy), foldl_app, IH by lia. simpl.
    unfold elt. rewrite N.add_0_l, Nat2N.id, Hx, Hy. simpl. ring.
Qed.

Section ExactSumKernels.
Variables (data a b : list Qc) (count : N).
Hypothesis Hdata : c_array data count.
Hypothesis Ha : c_array a count.
Hypothesis Hb : c_array b count.

Lemma sum_item_pure j s :
  (j < count)%N → sum_item data j s = Some (s + elt data j).
Proof using Hdata.
  intros Hj. destruct Hdata. unfold sum_item. by rewrite load_elt by lia.
Qed.

Lemma dot_item_pure j s :
  (j < count)%N → dot_item a b j s = Some (s + elt a j * elt b j).
Proof using Ha Hb.
  intros Hj. destruct Ha, Hb. unfold dot_item. by rewrite !load_elt by lia.
Qed.

Lemma sum_tail_exact i sum :
  (i ≤ count)%N →
  for_each count (sum_item data) i sum
  = Some (count, sum + psum data i (N.to_nat (count - i))).
Proof using Hdata.
  intros Hi. rewrite (for_each_pure count _ (λ j s, s + elt data j)).
  - rewrite sum_items_psum. by replace (N.max i count) with count by lia.
  - apply (c_array_count _ _ Hdata).
  - intros j s _ Hj. by apply sum_item_pure.
Qed.

Lemma dot_tail_exact i sum :
  (i ≤ count)%N →
  for_each count (dot_item a b) i sum
  = Some (count, sum + wsum a b i (N.to_nat (count - i))).
Proof using Ha Hb.
  intros Hi.
  rewrite (for_each_pure count _ (λ j s, s + elt a j * elt b j)).
  - rewrite dot_items_wsum. by replace (N.max i count) with count by lia.
  - apply (c_array_count _ _ Ha).
  - intros j s _ Hj. by apply dot_item_pure.
Qed.

Lemma fast_sum_scalar_exact :
  fast_sum_scalar data count = Some (psum data 0 (N.to_nat count)).
Proof using Hdata.
  unfold fast_sum_scalar. rewrite sum_tail_exact by lia. simpl.
  rewrite N.sub_0_r. f_equal. ring.
Qed.

Lemma fast_sum_avx2_simd_exact :
  fast_sum_avx2_simd data count = Some (psum data 0 (N.to_nat count)).
Proof using Hdata.
  unfold fast_sum_avx2_simd.
  pose proof (c_array_room _ _ Hdata) as Hroom. destruct Hdata as [Hlen _].
  rewrite (for_chunks_pure 4 count _
             (λ j v, _mm256_add_pd v (vec256 data j))); [|lia..|].
  2:{ intros j v _ Hj. by rewrite loadu256_vec by lia. }
  simpl. rewrite sum_tail_exact by lia. simpl. f_equal.
  rewrite hsum256_pd_lanes, sum_chunks256_psum.
  apply psum_join; lia.
Qed.

Lemma fast_sum_avx512_simd_exact :
  fast_sum_avx512_simd data count = Some (psum data 0 (N.to_nat count)).
Proof using Hdata.
  unfold fast_sum_avx512_simd.
  pose proof (c_array_room _ _ Hdata) as Hroom. destruct Hdata as [Hlen _].
  rewrite (for_chunks_pure 8 count _
             (λ j v, _mm512_add_pd v (vec512 data j))); [|lia..|].
  2:{ intros j v _ Hj. by rewrite loadu512_vec by lia. }
  simpl. rewrite sum_tail_exact by lia. simpl. f_equal.
  rewrite reduce_add_pd_lanes, sum_chunks512_psum.
  apply psum_join; lia.
Qed.

Lemma dot_product_scalar_exact :
  dot_product_scalar a b count = Some (wsum a b 0 (N.to_nat count)).
Proof using Ha Hb.
  unfold dot_product_scalar. rewrite dot_tail_exact by lia. simpl.
  rewrite N.sub_0_r. f_equal. ring.
Qed.

Lemma dot_product_simd_x86_exact :
  dot_product_simd_x86 a b count = Some (wsum a b 0 (N.to_nat count)).
Proof using Ha Hb.
  unfold dot_product_simd_x86.
  pose proof (c_array_room _ _ Ha) as Hroom.
  destruct Ha as [Hlena _], Hb as [Hlenb _].
  rewrite (for_chunks_pure 4 count _
             (λ j v, _mm256_fmadd_pd (vec256 a j) (vec256 b j) v));
    [|lia..|].
  2:{ intros j v _ Hj. by rewrite !loadu256_vec by lia. }
  simpl. rewrite dot_tail_exact by lia. simpl. f_equal.
  rewrite hsum256_pd_lanes, dot_chunks256_wsum.
  apply wsum_join; lia.
Qed.

End ExactSumKernels.

(** C7 (amended). In exact arithmetic, for every count and arrays of at
    least [count] elements, [fast_sum_avx2] and [fast_sum_avx512] return the
    sequential left-to-right sum of [data[0..count)] and [dot_product_simd]
    returns the sequential accumulation of [a[i] * b[i]] over the same
    indices, in every build and whether or not [count] is a multiple of the
    vector width.  In binary64 no tolerance holds for every input: where
    partial sums cancel, the lane-wise sums are a factor away from the
    sequential one. *)
Theorem sums_match_sequential bd data a b count :
  c_array data count → c_array a count → c_array b count →
  fast_sum_avx2 bd data count = Some (sequential_sum data count)
  ∧ fast_sum_avx512 bd data count = Some (sequential_sum data count)
  ∧ dot_product_simd bd a b count = Some (sequential_dot a b count).
Proof.
  intros Hdata Ha Hb.
  assert (sequential_sum data count = psum data 0 (N.to_nat count)) as ->.
  { unfold sequential_sum. destruct Hdata.
    rewrite foldl_take_psum by lia. ring. }
  assert (sequential_dot a b count = wsum a b 0 (N.to_nat count)) as ->.
  { unfold sequential_dot. destruct Ha, Hb.
    rewrite foldl_take_wsum by lia. ring. }
  assert (fast_sum_avx2 bd data count = Some (psum data 0 (N.to_nat count)))
    as Havx2.
  { unfold fast_sum_avx2. destruct (HAS_X86_SIMD bd);
      auto using fast_sum_avx2_simd_exact, fast_sum_scalar_exact. }
  split; [done|]. split.
  - unfold fast_sum_avx512. destruct (HAS_X86_SIMD bd), (AVX512F bd);
      auto using fast_sum_avx512_simd_exact.
  - unfold dot_product_simd. destruct (HAS_X86_SIMD bd);
      auto using dot_product_simd_x86_exact, dot_product_scalar_exact.
Qed.

(** ** Concrete runs *)

Ltac in_bounds_compute :=
  repeat split; vm_compute; (discriminate || reflexivity).

Ltac nonneg_compute := repeat constructor; vm_compute; discriminate.

(** Equality of computed values down to their rational fields. *)
Ltac qc_compute :=
  vm_compute;
  repeat match goal with
         | |- @eq Qc _ _ => apply Qc_is_canon; reflexivity
         | |- _ => f_equal
         end.

(** The scenario of the specification, two items under the default
    settings, in binary64: every tier of every build returns the doubles
    nearest to 200, 30, 2.4, 206, 41.2 and 247.2; the overhead is
    3.5999999999999996, one unit in the last place below the double nearest
    to 3.6. *)
Example scenario_two_items :
  ∀ b t,
    calculate_estimate t b (b64_of_Z <$> [1; 2]%Z) (b64_of_Z <$> [100; 50]%Z)
      (b64_of_Z <$> [10; 10]%Z) (b64_of_Z <$> [0; 0]%Z)
      (b64_of_Z <$> [0; 0]%Z) (b64_of_Z <$> [0; 0]%Z) 2
      denidom_default_settings
    = Some {| direct_costs := b64_of_Z 200; labor_costs := b64_of_Z 30;
              machine_op_costs := b64_of_Z 0; material_costs := b64_of_Z 0;
              machine_costs := b64_of_Z 0;
              overhead := S754_finite false 8106479329266892 (-51);
              profit := decimal 24 10; subtotal := b64_of_Z 206;
              vat := decimal 412 10; total := decimal 2472 10 |}
    ∧ decimal 36 10 = S754_finite false 8106479329266893 (-51).
Proof.
  intros [[|] [|]] [| |]; split; vm_compute; reflexivity.
Qed.

(** The elementwise example of the specification. *)
Example items_example :
  ∀ b,
    results <$> calculate_items_avx2 b sample_items 4
    = Some (qc <$> [20; 30; 40; 50; 77]%Z)
    ∧ results <$> calculate_items_avx512 b sample_items 4
      = Some (qc <$> [20; 30; 40; 50; 77]%Z).
Proof.
  intros [[|] [|]]; split; qc_compute.
Qed.

(** The probes on the sample processors. *)
Example probes_on_cpu_avx2 :
  denidom_has_avx512 build_avx512f cpu_avx2 = false
  ∧ denidom_has_avx2 build_avx512f cpu_avx2 = true
  ∧ denidom_has_fma build_avx512f cpu_avx2 = true
  ∧ denidom_has_avx2 build_portable cpu_avx2 = false.
Proof. by vm_compute. Qed.

(** The tier the auto-selecting entry runs on each sample processor, and on
    the portable build whatever the processor. *)
Example tiers_selected :
  entry_tier (AutoSelect cpu_avx512) build_avx512f = Vector512
  ∧ entry_tier (AutoSelect cpu_avx2) build_avx512f = Vector256
  ∧ entry_tier (AutoSelect cpu_legacy) build_avx512f = Scalar
  ∧ entry_tier (AutoSelect cpu_avx512) build_portable = Scalar.
Proof. by vm_compute. Qed.

(** Every count from 0 through 17 on the sample arrays, in every build:
    all the shapes the chunked loops and their tails can take. *)
Corollary sample_counts_0_through_17 b count settings :
  (count ≤ 17)%N →
  ∃ r,
    calculate_estimate_scalar sample_quantities sample_direct sample_labor
      sample_machine_op sample_material sample_machine count settings
    = Some r
    ∧ calculate_estimate_avx2 b sample_quantities sample_direct sample_labor
        sample_machine_op sample_material sample_machine count settings
      = Some r
    ∧ calculate_estimate_avx512 b sample_quantities sample_direct
        sample_labor sample_machine_op sample_material sample_machine count
        settings
      = Some r.
Proof.
  intros Hcount.
  assert (inputs_in_bounds sample_quantities sample_direct sample_labor
            sample_machine_op sample_material sample_machine count) as Hin.
  { repeat split; try (vm_compute; reflexivity);
      change (count ≤ 17)%N; done. }
  eexists. split; [|split].
  - by apply (estimate_exact (Explicit Scalar) b).
  - by apply (estimate_exact (Explicit Vector256) b).
  - by apply (estimate_exact (Explicit Vector512) b).
Qed.

(** *** Where binary64 departs from exact arithmetic *)

(** A fused multiply-add rounds once: with [x = 2^30 + 1] the exact square
    is [2^60 + 2^31 + 1], so [x * x - (2^60 + 2^31)] is 1 when fused and 0
    when the product is rounded to 53 bits first. *)
Example fma_rounds_once :
  b64_fma (b64_of_Z (2 ^ 30 + 1)) (b64_of_Z (2 ^ 30 + 1))
    (b64_of_Z (- (2 ^ 60 + 2 ^ 31))) = b64_of_Z 1
  ∧ b64_add (b64_mul (b64_of_Z (2 ^ 30 + 1)) (b64_of_Z (2 ^ 30 + 1)))
      (b64_of_Z (- (2 ^ 60 + 2 ^ 31))) = b64_of_Z 0.
Proof. split; vm_compute; reflexivity. Qed.

(** Against a tolerance between the tiers (C1): on [cancelling8] the scalar
    tier returns a direct total of 3 and both vector tiers return 6, a
    factor of two apart where the specification names a relative tolerance
    of 1e-9. *)
Lemma vector_tiers_differ_beyond_tolerance :
  inputs_in_bounds ones8 cancelling8 zeros8 zeros8 zeros8 zeros8 8
  ∧ ∃ rs rv,
      calculate_estimate_scalar ones8 cancelling8 zeros8 zeros8 zeros8 zeros8
        8 denidom_default_settings = Some rs
      ∧ calculate_estimate_avx2 build_x86 ones8 cancelling8 zeros8 zeros8
          zeros8 zeros8 8 denidom_default_settings = Some rv
      ∧ calculate_estimate_avx512 build_avx512f ones8 cancelling8 zeros8
          zeros8 zeros8 zeros8 8 denidom_default_settings = Some rv
      ∧ direct_costs rs = b64_of_Z 3 ∧ direct_costs rv = b64_of_Z 6
      ∧ subtotal rs = b64_of_Z 3 ∧ subtotal rv = b64_of_Z 6
      ∧ total rs = decimal 36 10 ∧ total rv = decimal 72 10
      ∧ ¬ within_tolerance (Q2Qc (1 # 1000000000)) (direct_costs rv)
            (direct_costs rs).
Proof.
  split; [repeat split; vm_compute; (discriminate || reflexivity)|].
  eexists _, _. split; [by vm_compute|]. split; [by vm_compute|].
  split; [by vm_compute|]. do 6 (split; [by vm_compute|]).
  intros [H|H]; vm_compute in H; by apply H.
Qed.

(** Against a tolerance for the array reductions (C7): [fast_sum_avx2]
    returns 2 where the sequential sum is 1, [fast_sum_avx512] 6 where it
    is 3, and [dot_product_simd] 2 where the sequential dot product is 1. *)
Lemma sums_differ_beyond_tolerance :
  c_array cancelling4 4 ∧ c_array cancelling8 8 ∧ c_array ones8 4
  ∧ fast_sum_avx2 build_x86 cancelling4 4 = Some (b64_of_Z 2)
  ∧ b64_sequential_sum cancelling4 4 = b64_of_Z 1
  ∧ fast_sum_avx512 build_avx512f cancelling8 8 = Some (b64_of_Z 6)
  ∧ b64_sequential_sum cancelling8 8 = b64_of_Z 3
  ∧ dot_product_simd build_x86 ones8 cancelling4 4 = Some (b64_of_Z 2)
  ∧ b64_sequential_dot ones8 cancelling4 4 = b64_of_Z 1
  ∧ ¬ within_tolerance (Q2Qc (1 # 1000000000)) (b64_of_Z 2) (b64_of_Z 1)
  ∧ ¬ within_tolerance (Q2Qc (1 # 1000000000)) (b64_of_Z 6) (b64_of_Z 3).
Proof.
  do 3 (split; [repeat split; vm_compute; (discriminate || reflexivity)|]).
  do 6 (split; [by vm_compute|]).
  split; intros [H|H]; vm_compute in H; by apply H.
Qed.

(** Against zero fields for every settings record (C5): with a NaN or an
    infinite index the ten fields at [count = 0] are NaN, through the scalar
    tier and through the auto-selecting entry. *)
Lemma zero_count_nan_index :
  estimate (Explicit Scalar) build_x86 [] [] [] [] [] [] 0
    (with_index S754_nan) = Some result_nan
  ∧ estimate (AutoSelect cpu_avx512) build_avx512f [] [] [] [] [] [] 0
      (with_index (S754_infinity false)) = Some result_nan
  ∧ ¬ all_fields_zero result_nan.
Proof.
  split; [by vm_compute|]. split; [by vm_compute|].
  by intros [H _].
Qed.

(** Against non-negative totals in binary64 (C9): one item of quantity
    [2^600] and unit costs [2^600] under a zero index.  The inputs and the
    settings are non-negative, the product overflows to [+inf] and the
    index turns it into NaN, which is not [>= 0]. *)
Lemma overflow_times_zero_index_is_nan :
  inputs_all b64_nonneg [huge] [huge] [huge] [huge] [huge] [huge]
  ∧ b64_nonneg (index (with_index (S754_zero false)))
  ∧ b64_nonneg (overhead_rate (with_index (S754_zero false)))
  ∧ b64_nonneg (profit_rate (with_index (S754_zero false)))
  ∧ b64_nonneg (vat_rate (with_index (S754_zero false)))
  ∧ (∃ r,
       calculate_estimate_scalar [huge] [huge] [huge] [huge] [huge] [huge] 1
         (with_index (S754_zero false)) = Some r
       ∧ calculate_estimate_avx512 build_avx512f [huge] [huge] [huge] [huge]
           [huge] [huge] 1 (with_index (S754_zero false)) = Some r
       ∧ direct_costs r = S754_nan
       ∧ ¬ b64_nonneg (direct_costs r)).
Proof.
  split; [repeat split; by repeat constructor|].
  do 4 (split; [by vm_compute|]).
  eexists. split; [by vm_compute|]. split; [by vm_compute|].
  split; [done|]. by vm_compute.
Qed.

(** *** Instances of the theorems *)

Lemma vector_tiers_match_scalar_witness :
  inputs_in_bounds sample_quantities sample_direct sample_labor
    sample_machine_op sample_material sample_machine 13
  ∧ ∃ r,
      calculate_estimate_scalar sample_quantities sample_direct sample_labor
        sample_machine_op sample_material sample_machine 13
        denidom_default_settings = Some r
      ∧ calculate_estimate_avx2 build_avx512f sample_quantities sample_direct
          sample_labor sample_machine_op sample_material sample_machine 13
          denidom_default_settings = Some r
      ∧ calculate_estimate_avx512 build_avx512f sample_quantities
          sample_direct sample_labor sample_machine_op sample_material
          sample_machine 13 denidom_default_settings = Some r.
Proof.
  split; [in_bounds_compute|].
  apply (vector_tiers_match_scalar build_avx512f). in_bounds_compute.
Defined.

Lemma small_count_delegates_down_witness :
  (3 < 4)%N ∧ (3 < 8)%N
  ∧ calculate_estimate_avx2 build_avx512f sample_quantities sample_direct
      sample_labor sample_machine_op sample_material sample_machine 3
      denidom_default_settings
    = calculate_estimate_scalar sample_quantities sample_direct sample_labor
        sample_machine_op sample_material sample_machine 3
        denidom_default_settings
  ∧ calculate_estimate_avx512 build_avx512f sample_quantities sample_direct
      sample_labor sample_machine_op sample_material sample_machine 3
      denidom_default_settings
    = calculate_estimate_avx2 build_avx512f sample_quantities sample_direct
        sample_labor sample_machine_op sample_material sample_machine 3
        denidom_default_settings.
Proof.
  destruct (small_count_delegates_down build_avx512f sample_quantities
              sample_direct sample_labor sample_machine_op sample_material
              sample_machine 3 denidom_default_settings) as [Havx2 Havx512].
  split; [reflexivity|]. split; [reflexivity|].
  split; [apply Havx2|apply Havx512]; reflexivity.
Defined.

Lemma result_totals_exact_witness :
  inputs_in_bounds sample_quantities sample_direct sample_labor
    sample_machine_op sample_material sample_machine 13
  ∧ ∃ r,
      estimate (AutoSelect cpu_avx2) build_avx512f sample_quantities
        sample_direct sample_labor sample_machine_op sample_material
        sample_machine 13 denidom_default_settings = Some r
      ∧ totals_hold r.
Proof.
  split; [in_bounds_compute|].
  apply result_totals_exact. in_bounds_compute.
Defined.

Lemma calculate_items_triple_product_witness :
  items_in_bounds sample_items 4
  ∧ products_stored sample_items 4
      (calculate_items_avx2 build_avx512f sample_items 4)
  ∧ products_stored sample_items 4
      (calculate_items_avx512 build_avx512f sample_items 4).
Proof.
  split; [in_bounds_compute|].
  apply calculate_items_triple_product. in_bounds_compute.
Defined.

Lemma calculate_items_frame_witness :
  items_in_bounds sample_items 4
  ∧ frame_kept sample_items 4
      (calculate_items_avx2 build_avx512f sample_items 4)
  ∧ frame_kept sample_items 4
      (calculate_items_avx512 build_avx512f sample_items 4).
Proof.
  split; [in_bounds_compute|].
  apply calculate_items_frame. in_bounds_compute.
Defined.

Lemma sums_match_sequential_witness :
  c_array sample_direct 13 ∧ c_array sample_quantities 13
  ∧ c_array sample_machine 13
  ∧ fast_sum_avx2 build_avx512f sample_direct 13
    = Some (sequential_sum sample_direct 13)
  ∧ fast_sum_avx512 build_avx512f sample_direct 13
    = Some (sequential_sum sample_direct 13)
  ∧ dot_product_simd build_avx512f sample_quantities sample_machine 13
    = Some (sequential_dot sample_quantities sample_machine 13).
Proof.
  split; [in_bounds_compute|]. split; [in_bounds_compute|].
  split; [in_bounds_compute|].
  apply sums_match_sequential; in_bounds_compute.
Defined.

Lemma unit_cost_scaling_scales_result_witness :
  inputs_in_bounds sample_quantities sample_direct sample_labor
    sample_machine_op sample_material sample_machine 13
  ∧ ∃ r,
      estimate (Explicit Vector512) build_avx512f sample_quantities
        sample_direct sample_labor sample_machine_op sample_material
        sample_machine 13 denidom_default_settings = Some r
      ∧ estimate (Explicit Vector512) build_avx512f sample_quantities
          (scale (qc 3) sample_direct) (scale (qc 3) sample_labor)
          (scale (qc 3) sample_machine_op) (scale (qc 3) sample_material)
          (scale (qc 3) sample_machine) 13 denidom_default_settings
        = Some (scale_result (qc 3) r).
Proof.
  split; [in_bounds_compute|].
  apply unit_cost_scaling_scales_result. in_bounds_compute.
Defined.

Lemma category_totals_nonneg_witness :
  (inputs_in_bounds sample_quantities sample_direct sample_labor
     sample_machine_op sample_material sample_machine 13
   ∧ inputs_nonneg sample_quantities sample_direct sample_labor
       sample_machine_op sample_material sample_machine
   ∧ (0 ≤ index denidom_default_settings)%Qc
   ∧ ∃ r,
       estimate (Explicit Vector512) build_avx512f sample_quantities
         sample_direct sample_labor sample_machine_op sample_material
         sample_machine 13 denidom_default_settings = Some r
       ∧ categories_all (Qcle 0) r)
  ∧ (inputs_in_bounds [huge] [huge] [huge] [huge] [huge] [huge] 1
     ∧ inputs_all b64_nonneg [huge] [huge] [huge] [huge] [huge] [huge]
     ∧ b64_nonneg (index (with_index (S754_zero false)))
     ∧ ∃ r,
         estimate (Explicit Vector512) build_avx512f [huge] [huge] [huge]
           [huge] [huge] [huge] 1 (with_index (S754_zero false)) = Some r
         ∧ categories_all (λ t, b64_nonneg t ∨ t = S754_nan) r).
Proof.
  destruct (category_totals_nonneg (Explicit Vector512) build_avx512f 13)
    as [Hexact _].
  destruct (category_totals_nonneg (Explicit Vector512) build_avx512f 1)
    as [_ Hbinary64].
  split.
  - split; [in_bounds_compute|]. split; [repeat split; nonneg_compute|].
    split; [vm_compute; discriminate|].
    apply Hexact;
      [in_bounds_compute|repeat split; nonneg_compute
      |vm_compute; discriminate].
  - split; [in_bounds_compute|].
    split; [repeat split; repeat constructor|]. split; [reflexivity|].
    apply Hbinary64;
      [in_bounds_compute|repeat split; repeat constructor|reflexivity].
Defined.

Lemma zero_count_all_fields_zero_witness :
  settings_finite denidom_default_settings
  ∧ estimate (AutoSelect cpu_avx2) build_avx512f sample_quantities
      sample_direct sample_labor sample_machine_op sample_material
      sample_machine 0 denidom_default_settings
    = Some {| direct_costs := 0; labor_costs := 0; machine_op_costs := 0;
              material_costs := 0; machine_costs := 0; overhead := 0;
              profit := 0; subtotal := 0; vat := 0; total := 0 |}%Qc
  ∧ ∃ r,
      estimate (AutoSelect cpu_avx2) build_avx512f ones8 cancelling8 zeros8
        zeros8 zeros8 zeros8 0 denidom_default_settings = Some r
      ∧ all_fields_zero r.
Proof.
  destruct (zero_count_all_fields_zero (AutoSelect cpu_avx2) build_avx512f)
    as [Hexact Hbinary64].
  split; [by vm_compute|]. split; [apply Hexact|].
  apply Hbinary64. by vm_compute.
Defined.

(** * Further properties *)

Local Close Scope Qc_scope.

(** ** The feature probes *)

(** [x & (1 << n)] is non-zero exactly when bit [n] of [x] is set. *)
Lemma land_bit_nonzero x n :
  (0 ≤ n)%Z →
  negb (Z.land x (Z.shiftl 1 n) =? 0)%Z = Z.testbit x n.
Proof.
  intros Hn. rewrite Z.shiftl_1_l.
  assert (Z.land x (2 ^ n) = if Z.testbit x n then 2 ^ n else 0)%Z as ->.
  { apply Z.bits_inj'. intros k Hk.
    rewrite Z.land_spec, Z.pow2_bits_eqb by done.
    destruct (Z.eqb_spec n k) as [->|Hne].
    - destruct (Z.testbit x k) eqn:Hx; simpl.
      + by rewrite Z.pow2_bits_true.
      + by rewrite Z.bits_0.
    - rewrite andb_false_r.
      destruct (Z.testbit x n); [|by rewrite Z.bits_0].
      rewrite Z.pow2_bits_false; [done|]. done. }
  destruct (Z.testbit x n); [|done].
  assert (0 < 2 ^ n)%Z by (by apply Z.pow_pos_nonneg).
  destruct (Z.eqb_spec (2 ^ n) 0)%Z; [lia|done].
Qed.

(** X1. On an x86-64 build [denidom_has_avx512] answers true exactly when
    the highest CPUID leaf (EAX of leaf 0, compared as a signed [int]) is at
    least 7 and bit 16 of EBX of leaf 7 is set; [denidom_has_avx2] likewise
    with bit 5; [denidom_has_fma] exactly when bit 12 of ECX of leaf 1 is
    set.  On any other build the three probes answer false. *)
Theorem probes_test_cpuid_bits b c :
  denidom_has_avx512 b c
  = HAS_X86_SIMD b && (7 <=? eax (__cpuid c 0))%Z
    && Z.testbit (ebx (__cpuid_count c 7 0)) 16
  ∧ denidom_has_avx2 b c
    = HAS_X86_SIMD b && (7 <=? eax (__cpuid c 0))%Z
      && Z.testbit (ebx (__cpuid_count c 7 0)) 5
  ∧ denidom_has_fma b c
    = HAS_X86_SIMD b && Z.testbit (ecx (__cpuid c 1)) 12.
Proof.
  unfold denidom_has_avx512, denidom_has_avx2, denidom_has_fma,
    get_cpuid, get_cpuid_ex.
  rewrite !land_bit_nonzero by done.
  destruct (HAS_X86_SIMD b); [|done]. simpl.
  destruct (Z.ltb_spec (eax (__cpuid c 0)) 7),
    (Z.leb_spec 7 (eax (__cpuid c 0))); done || lia.
Qed.

(** ** What a call that returns has read *)

(** A loop that returns ran its body, successfully, at every index in turn,
    each time on a state the invariant [P] holds of. *)
Lemma iterate_Some_body {S : Type} (P : S → Prop) (w : N)
    (body : N → S → option S) :
  (∀ j t t', P t → body j t = Some t' → P t') →
  ∀ n i s s',
    P s → iterate n w body i s = Some s' →
    ∀ k, (k < n)%nat →
      ∃ t, P t ∧ is_Some (body (i + w * N.of_nat k) t).
Proof.
  intros HP. induction n as [|n IH]; intros i s s' Hs Hrun k Hk; [lia|].
  simpl in Hrun. apply bind_Some in Hrun as (t & Hbody & Hrest).
  destruct k as [|k].
  - exists s. replace (i + w * N.of_nat 0) with i by lia. by rewrite Hbody.
  - destruct (IH (i + w) t s' (HP _ _ _ Hs Hbody) Hrest k) as (u & Hu & Hsome);
      [lia|].
    exists u. split; [done|].
    by replace (i + w * N.of_nat (Datatypes.S k))
      with (i + w + w * N.of_nat k) by lia.
Qed.

Lemma for_each_Some_body {S : Type} (P : S → Prop) (count : N)
    (body : N → S → option S) i s r :
  count < SIZE_MODULUS →
  (∀ j t t', P t → body j t = Some t' → P t') →
  P s → for_each count body i s = Some r →
  ∀ j, i ≤ j → j < count → ∃ t, P t ∧ is_Some (body j t).
Proof.
  intros Hcount HP Hs Hrun j Hij Hj.
  rewrite for_each_iterate in Hrun by done.
  apply bind_Some in Hrun as (s' & Hrun & _).
  destruct (iterate_Some_body P 1 body HP _ _ _ _ Hs Hrun
              (N.to_nat (j - i))) as (t & Ht & Hsome); [lia|].
  exists t. split; [done|].
  by replace (i + 1 * N.of_nat (N.to_nat (j - i))) with j in Hsome by lia.
Qed.

Section Bounds.
Context {D : Type} {ops : DoubleOps D}.

Lemma load_Some_lt (a : list D) i : is_Some (load a i) → i < N.of_nat (length a).
Proof.
  unfold load. intros [x Hx]. apply lookup_lt_Some in Hx. lia.
Qed.

Lemma loadu256_Some_lt (a : list D) i :
  is_Some (_mm256_loadu_pd a i) → i + 4 ≤ N.of_nat (length a).
Proof.
  unfold _mm256_loadu_pd. intros [v Hv].
  apply bind_Some in Hv as (? & _ & Hv). apply bind_Some in Hv as (? & _ & Hv).
  apply bind_Some in Hv as (? & _ & Hv). apply bind_Some in Hv as (? & H3 & _).
  pose proof (load_Some_lt a (i + 3) (mk_is_Some _ _ H3)). lia.
Qed.

Lemma loadu512_Some_lt (a : list D) i :
  is_Some (_mm512_loadu_pd a i) → i + 8 ≤ N.of_nat (length a).
Proof.
  unfold _mm512_loadu_pd. intros [v Hv].
  do 7 (apply bind_Some in Hv as (? & _ & Hv)).
  apply bind_Some in Hv as (? & H7 & _).
  pose proof (load_Some_lt a (i + 7) (mk_is_Some _ _ H7)). lia.
Qed.

Lemma six_reach_mono (q d l mo mat m : list D) n n' :
  n ≤ n' → six_reach q d l mo mat m n' → six_reach q d l mo mat m n.
Proof. unfold six_reach. lia. Qed.

Lemma accumulate_item_Some_reach (q d l mo mat m : list D) i r :
  is_Some (accumulate_item q d l mo mat m i r) →
  six_reach q d l mo mat m (i + 1).
Proof.
  unfold accumulate_item. intros [v Hv].
  apply bind_Some in Hv as (? & Hq & Hv). apply bind_Some in Hv as (? & Hd & Hv).
  apply bind_Some in Hv as (? & Hl & Hv). apply bind_Some in Hv as (? & Hmo & Hv).
  apply bind_Some in Hv as (? & Hmat & Hv). apply bind_Some in Hv as (? & Hm & _).
  pose proof (load_Some_lt _ _ (mk_is_Some _ _ Hq)).
  pose proof (load_Some_lt _ _ (mk_is_Some _ _ Hd)).
  pose proof (load_Some_lt _ _ (mk_is_Some _ _ Hl)).
  pose proof (load_Some_lt _ _ (mk_is_Some _ _ Hmo)).
  pose proof (load_Some_lt _ _ (mk_is_Some _ _ Hmat)).
  pose proof (load_Some_lt _ _ (mk_is_Some _ _ Hm)).
  unfold six_reach. lia.
Qed.

Lemma fmadd_chunk256_Some_reach (q d l mo mat m : list D) i s :
  is_Some (fmadd_chunk256 q d l mo mat m i s) →
  six_reach q d l mo mat m (i + 4).
Proof.
  unfold fmadd_chunk256. intros [v Hv].
  apply bind_Some in Hv as (? & Hq & Hv). apply bind_Some in Hv as (? & Hd & Hv).
  apply bind_Some in Hv as (? & Hl & Hv). apply bind_Some in Hv as (? & Hmo & Hv).
  apply bind_Some in Hv as (? & Hmat & Hv). apply bind_Some in Hv as (? & Hm & _).
  pose proof (loadu256_Some_lt _ _ (mk_is_Some _ _ Hq)).
  pose proof (loadu256_Some_lt _ _ (mk_is_Some _ _ Hd)).
  pose proof (loadu256_Some_lt _ _ (mk_is_Some _ _ Hl)).
  pose proof (loadu256_Some_lt _ _ (mk_is_Some _ _ Hmo)).
  pose proof (loadu256_Some_lt _ _ (mk_is_Some _ _ Hmat)).
  pose proof (loadu256_Some_lt _ _ (mk_is_Some _ _ Hm)).
  by unfold six_reach.
Qed.

Lemma fmadd_chunk512_Some_reach (q d l mo mat m : list D) i s :
  is_Some (fmadd_chunk512 q d l mo mat m i s) →
  six_reach q d l mo mat m (i + 8).
Proof.
  unfold fmadd_chunk512. intros [v Hv].
  apply bind_Some in Hv as (? & Hq & Hv). apply bind_Some in Hv as (? & Hd & Hv).
  apply bind_Some in Hv as (? & Hl & Hv). apply bind_Some in Hv as (? & Hmo & Hv).
  apply bind_Some in Hv as (? & Hmat & Hv). apply bind_Some in Hv as (? & Hm & _).
  pose proof (loadu512_Some_lt _ _ (mk_is_Some _ _ Hq)).
  pose proof (loadu512_Some_lt _ _ (mk_is_Some _ _ Hd)).
  pose proof (loadu512_Some_lt _ _ (mk_is_Some _ _ Hl)).
  pose proof (loadu512_Some_lt _ _ (mk_is_Some _ _ Hmo)).
  pose proof (loadu512_Some_lt _ _ (mk_is_Some _ _ Hmat)).
  pose proof (loadu512_Some_lt _ _ (mk_is_Some _ _ Hm)).
  by unfold six_reach.
Qed.

Section EstimateReach.
Variables q d l mo mat m : list D.
Variable count : N.
Variable settings : CalculationSettings D.
Hypothesis Hcount : count < SIZE_MODULUS.

(** A tail loop that returns read the last item. *)
Lemma accumulate_loop_reach i r x :
  i < count →
  for_each count (accumulate_item q d l mo mat m) i r = Some x →
  six_reach q d l mo mat m count.
Proof using Hcount.
  intros Hi Hrun.
  destruct (for_each_Some_body (λ _, True) count _ i r x Hcount
              ltac:(done) I Hrun (count - 1)) as (t & _ & Hsome); [lia..|].
  apply accumulate_item_Some_reach in Hsome.
  by replace (count - 1 + 1) with count in Hsome by lia.
Qed.

Lemma calculate_estimate_scalar_reach :
  is_Some (calculate_estimate_scalar q d l mo mat m count settings) →
  six_reach q d l mo mat m count.
Proof using Hcount.
  intros [r Hr]. unfold calculate_estimate_scalar in Hr.
  apply bind_Some in Hr as ([i s] & Hrun & _).
  destruct (N.eq_dec count 0) as [->|Hne]; [unfold six_reach; lia|].
  eapply accumulate_loop_reach; [|done]. lia.
Qed.

Lemma calculate_estimate_avx2_simd_reach :
  is_Some (calculate_estimate_avx2_simd q d l mo mat m count settings) →
  six_reach q d l mo mat m count.
Proof using Hcount.
  unfold calculate_estimate_avx2_simd.
  destruct (N.ltb_spec count 4) as [Hlt|Hge];
    [apply calculate_estimate_scalar_reach|].
  intros [r Hr].
  apply bind_Some in Hr as ([i s] & Hchunks & Hr).
  apply bind_Some in Hr as ([i' s'] & Htail & _).
  rewrite size_mul_small in Htail by lia.
  destruct (N.eq_dec (count / 4 * 4) count) as [Heq|Hne].
  - destruct (for_each_Some_body (λ _, True) (count / 4) _ 0 _ _
                ltac:(lia) ltac:(done) I Hchunks (count / 4 - 1))
      as (t & _ & Hsome); [lia..|].
    rewrite size_mul_small in Hsome by lia.
    apply fmadd_chunk256_Some_reach in Hsome.
    by replace ((count / 4 - 1) * 4 + 4) with count in Hsome by lia.
  - eapply accumulate_loop_reach; [|done]. lia.
Qed.

Lemma calculate_estimate_avx2_reach b :
  is_Some (calculate_estimate_avx2 b q d l mo mat m count settings) →
  six_reach q d l mo mat m count.
Proof using Hcount.
  unfold calculate_estimate_avx2. destruct (HAS_X86_SIMD b).
  - apply calculate_estimate_avx2_simd_reach.
  - apply calculate_estimate_scalar_reach.
Qed.

Lemma calculate_estimate_avx512_simd_reach b :
  is_Some (calculate_estimate_avx512_simd b q d l mo mat m count settings) →
  six_reach q d l mo mat m count.
Proof using Hcount.
  unfold calculate_estimate_avx512_simd.
  destruct (N.ltb_spec count 8) as [Hlt|Hge];
    [apply calculate_estimate_avx2_reach|].
  intros [r Hr].
  apply bind_Some in Hr as ([i s] & Hchunks & Hr).
  apply bind_Some in Hr as ([rs res] & Hrem & Hr).
  apply bind_Some in Hr as ([i' s'] & Htail & _).
  rewrite size_mul_small in Hrem by lia.
  rewrite size_sub_small in Hrem by lia.
  destruct (N.leb_spec 4 (count - count / 8 * 8)) as [Hfour|Hfour].
  - apply bind_Some in Hrem as ([j rem] & Hrem & Heq).
    injection Heq as <- <-.
    rewrite size_mul_small, size_add_small in Htail by lia.
    destruct (N.eq_dec (count / 8 * 8 + (count - count / 8 * 8) / 4 * 4) count)
      as [Heq|Hne].
    + destruct (for_each_Some_body (λ _, True)
                  ((count - count / 8 * 8) / 4) _ 0 _ _
                  ltac:(lia) ltac:(done) I Hrem
                  ((count - count / 8 * 8) / 4 - 1))
        as (t & _ & Hsome); [lia..|].
      rewrite size_mul_small, size_add_small in Hsome by lia.
      apply fmadd_chunk256_Some_reach in Hsome.
      eapply six_reach_mono; [|done]. lia.
    + eapply accumulate_loop_reach; [|done]. lia.
  - injection Hrem as <- <-.
    destruct (N.eq_dec (count / 8 * 8) count) as [Heq|Hne].
    + destruct (for_each_Some_body (λ _, True) (count / 8) _ 0 _ _
                  ltac:(lia) ltac:(done) I Hchunks (count / 8 - 1))
        as (t & _ & Hsome); [lia..|].
      rewrite size_mul_small in Hsome by lia.
      apply fmadd_chunk512_Some_reach in Hsome.
      by replace ((count / 8 - 1) * 8 + 8) with count in Hsome by lia.
    + eapply accumulate_loop_reach; [|done]. lia.
Qed.

Lemma estimate_reach e b :
  is_Some (estimate e b q d l mo mat m count settings) →
  six_reach q d l mo mat m count.
Proof using Hcount.
  assert (estimate e b q d l mo mat m count settings
          = calculate_estimate (entry_tier e b) b q d l mo mat m count
              settings) as ->.
  { destruct e; [done|]. apply calculate_estimate_auto_select. }
  destruct (entry_tier e b); simpl.
  - apply calculate_estimate_scalar_reach.
  - apply calculate_estimate_avx2_reach.
  - unfold calculate_estimate_avx512.
    destruct (HAS_X86_SIMD b); [|apply calculate_estimate_scalar_reach].
    destruct (AVX512F b); [apply calculate_estimate_avx512_simd_reach|].
    apply calculate_estimate_avx2_reach.
Qed.

End EstimateReach.

(** X4. For a [size_t] count and six arrays that fit in the address space,
    an estimate call through any entry point is defined exactly when each
    of the six arrays has at least [count] elements: with that many
    elements no tier reads outside an array, and with fewer in any one of
    the six every tier does, in every build and for every interpretation of
    [double]. *)
Theorem estimate_defined_iff_in_bounds e b (q d l mo mat m : list D) count
    settings :
  count < SIZE_MODULUS →
  inputs_fit q d l mo mat m →
  is_Some (estimate e b q d l mo mat m count settings)
  ↔ inputs_in_bounds q d l mo mat m count.
Proof.
  intros Hcount (Fq & Fd & Fl & Fmo & Fmat & Fm). split.
  - intros Hsome.
    destruct (estimate_reach q d l mo mat m count settings Hcount e b Hsome)
      as (Hq & Hd & Hl & Hmo & Hmat & Hm).
    by repeat split.
  - intros Hin. by rewrite estimate_pure.
Qed.

End Bounds.

Lemma iterate_preserves {S : Type} (P : S → Prop) (w : N)
    (body : N → S → option S) :
  (∀ j t t', P t → body j t = Some t' → P t') →
  ∀ n i s s', P s → iterate n w body i s = Some s' → P s'.
Proof.
  intros HP. induction n as [|n IH]; intros i s s' Hs Hrun.
  - by injection Hrun as <-.
  - simpl in Hrun. apply bind_Some in Hrun as (t & Hbody & Hrest).
    eapply IH; [|done]. by eapply HP.
Qed.

(** What a stepping loop that returns did: it stopped at the last multiple
    of [w] that fits, kept the invariant, and ran its body at each step. *)
Lemma for_chunks_Some_body {S : Type} (P : S → Prop) (w count : N)
    (body : N → S → option S) i s i' s' :
  0 < w → count + w < SIZE_MODULUS → i ≤ count →
  (∀ j t t', P t → body j t = Some t' → P t') →
  P s → for_chunks w count body i s = Some (i', s') →
  i' = i + w * ((count - i) / w) ∧ P s'
  ∧ ∀ k, k < (count - i) / w → ∃ t, P t ∧ is_Some (body (i + w * k) t).
Proof.
  intros Hw Hcount Hi HP Hs Hrun.
  rewrite for_chunks_iterate in Hrun by done.
  apply bind_Some in Hrun as (t & Hrun & Heq). injection Heq as <- <-.
  split; [done|]. split; [by eapply iterate_preserves|].
  intros k Hk.
  destruct (iterate_Some_body P w body HP _ _ _ _ Hs Hrun (N.to_nat k))
    as (u & Hu & Hsome); [lia|].
  exists u. by rewrite N2Nat.id in Hsome.
Qed.

Lemma for_each_Some_keeps {S : Type} (P : S → Prop) (count : N)
    (body : N → S → option S) i s r :
  count < SIZE_MODULUS →
  (∀ j t t', P t → body j t = Some t' → P t') →
  P s → for_each count body i s = Some r → P r.2.
Proof.
  intros Hcount HP Hs Hrun.
  rewrite for_each_iterate in Hrun by done.
  apply bind_Some in Hrun as (s' & Hrun & Heq). injection Heq as <-.
  by eapply iterate_preserves.
Qed.

Section ItemBounds.
Context {D : Type} {ops : DoubleOps D}.

Lemma store_Some (a a' : list D) i v :
  store a i v = Some a' → i < N.of_nat (length a) ∧ length a' = length a.
Proof.
  unfold store. destruct (decide _) as [Hi|]; [|done].
  intros [= <-]. rewrite length_insert. lia.
Qed.

Lemma storeu256_Some (a a' : list D) i v :
  _mm256_storeu_pd a i v = Some a' →
  i + 4 ≤ N.of_nat (length a) ∧ length a' = length a.
Proof.
  unfold _mm256_storeu_pd. intros H.
  apply bind_Some in H as (a1 & H1 & H). apply bind_Some in H as (a2 & H2 & H).
  apply bind_Some in H as (a3 & H3 & H4).
  apply store_Some in H1 as [? E1], H2 as [? E2], H3 as [? E3], H4 as [? E4].
  split; [lia|congruence].
Qed.

Lemma storeu512_Some (a a' : list D) i v :
  _mm512_storeu_pd a i v = Some a' →
  i + 8 ≤ N.of_nat (length a) ∧ length a' = length a.
Proof.
  unfold _mm512_storeu_pd. intros H.
  apply bind_Some in H as (a1 & H1 & H). apply bind_Some in H as (a2 & H2 & H).
  apply bind_Some in H as (a3 & H3 & H). apply bind_Some in H as (a4 & H4 & H).
  apply bind_Some in H as (a5 & H5 & H). apply bind_Some in H as (a6 & H6 & H).
  apply bind_Some in H as (a7 & H7 & H8).
  apply store_Some in H1 as [? E1], H2 as [? E2], H3 as [? E3], H4 as [? E4],
    H5 as [? E5], H6 as [? E6], H7 as [? E7], H8 as [? E8].
  split; [lia|congruence].
Qed.

Lemma four_reach_mono (m : items_memory D) n n' :
  n ≤ n' → four_reach m n' → four_reach m n.
Proof. unfold four_reach. lia. Qed.

Lemma items_scalar_Some (m t t' : items_memory D) i :
  same_shape m t → items_scalar i t = Some t' →
  same_shape m t' ∧ four_reach m (i + 1).
Proof.
  intros (Eq & Ec & Ek & Er) H. unfold items_scalar in H.
  apply bind_Some in H as (? & Hq & H). apply bind_Some in H as (? & Hc & H).
  apply bind_Some in H as (? & Hk & H). apply bind_Some in H as (r & Hr & H).
  injection H as <-.
  pose proof (load_Some_lt _ _ (mk_is_Some _ _ Hq)).
  pose proof (load_Some_lt _ _ (mk_is_Some _ _ Hc)).
  pose proof (load_Some_lt _ _ (mk_is_Some _ _ Hk)).
  apply store_Some in Hr as [? Er'].
  unfold same_shape, four_reach. simpl.
  rewrite <- Eq, <- Ec, <- Ek, <- Er. repeat split; (done || lia).
Qed.

Lemma items_chunk256_Some (m t t' : items_memory D) i :
  same_shape m t → items_chunk256 i t = Some t' →
  same_shape m t' ∧ four_reach m (i + 4).
Proof.
  intros (Eq & Ec & Ek & Er) H. unfold items_chunk256 in H.
  apply bind_Some in H as (? & Hq & H). apply bind_Some in H as (? & Hc & H).
  apply bind_Some in H as (? & Hk & H). apply bind_Some in H as (r & Hr & H).
  injection H as <-.
  pose proof (loadu256_Some_lt _ _ (mk_is_Some _ _ Hq)).
  pose proof (loadu256_Some_lt _ _ (mk_is_Some _ _ Hc)).
  pose proof (loadu256_Some_lt _ _ (mk_is_Some _ _ Hk)).
  apply storeu256_Some in Hr as [? Er'].
  unfold same_shape, four_reach. simpl.
  rewrite <- Eq, <- Ec, <- Ek, <- Er. repeat split; (done || lia).
Qed.

Lemma items_chunk512_Some (m t t' : items_memory D) i :
  same_shape m t → items_chunk512 i t = Some t' →
  same_shape m t' ∧ four_reach m (i + 8).
Proof.
  intros (Eq & Ec & Ek & Er) H. unfold items_chunk512 in H.
  apply bind_Some in H as (? & Hq & H). apply bind_Some in H as (? & Hc & H).
  apply bind_Some in H as (? & Hk & H). apply bind_Some in H as (r & Hr & H).
  injection H as <-.
  pose proof (loadu512_Some_lt _ _ (mk_is_Some _ _ Hq)).
  pose proof (loadu512_Some_lt _ _ (mk_is_Some _ _ Hc)).
  pose proof (loadu512_Some_lt _ _ (mk_is_Some _ _ Hk)).
  apply storeu512_Some in Hr as [? Er'].
  unfold same_shape, four_reach. simpl.
  rewrite <- Eq, <- Ec, <- Ek, <- Er. repeat split; (done || lia).
Qed.

Section ItemsReach.
Variable m : items_memory D.
Variable count : N.
Hypothesis Hcount : count + 8 < SIZE_MODULUS.

Lemma items_tail_reach i t x :
  same_shape m t → i < count →
  for_each count items_scalar i t = Some x → four_reach m count.
Proof using Hcount.
  intros Ht Hi Hrun.
  destruct (for_each_Some_body (same_shape m) count items_scalar i t x)
    with (j := count - 1) as (u & Hu & [u' Hsome]); [lia| |done..|lia|lia|].
  { intros j a a' Ha Hbody. by apply (items_scalar_Some m a a' j). }
  apply (items_scalar_Some m) in Hsome as [_ Hreach]; [|done].
  by replace (count - 1 + 1) with count in Hreach by lia.
Qed.

Lemma calculate_items_scalar_reach :
  is_Some (calculate_items_scalar m count) → four_reach m count.
Proof using Hcount.
  intros [r Hr]. unfold calculate_items_scalar in Hr.
  apply bind_Some in Hr as ([i s] & Hrun & _).
  destruct (N.eq_dec count 0) as [->|Hne]; [unfold four_reach; lia|].
  eapply (items_tail_reach 0 m); [done|lia|done].
Qed.

Lemma items_chunks256_reach i t i' t' :
  same_shape m t → i ≤ count →
  for_chunks 4 count items_chunk256 i t = Some (i', t') →
  i' = i + 4 * ((count - i) / 4) ∧ same_shape m t'
  ∧ (i < i' → four_reach m i').
Proof using Hcount.
  intros Ht Hi Hrun.
  destruct (for_chunks_Some_body (same_shape m) 4 count items_chunk256
              i t i' t') as (-> & Ht' & Hbody); [lia|lia|done| |done..|].
  { intros j a a' Ha Hb. by apply (items_chunk256_Some m a a' j). }
  split; [done|]. split; [done|]. intros Hlt.
  destruct (Hbody ((count - i) / 4 - 1)) as (u & Hu & [u' Hsome]); [lia|].
  apply (items_chunk256_Some m) in Hsome as [_ Hreach]; [|done].
  eapply four_reach_mono; [|done]. lia.
Qed.

Lemma items_chunks512_reach i t i' t' :
  same_shape m t → i ≤ count →
  for_chunks 8 count items_chunk512 i t = Some (i', t') →
  i' = i + 8 * ((count - i) / 8) ∧ same_shape m t'
  ∧ (i < i' → four_reach m i').
Proof using Hcount.
  intros Ht Hi Hrun.
  destruct (for_chunks_Some_body (same_shape m) 8 count items_chunk512
              i t i' t') as (-> & Ht' & Hbody); [lia|lia|done| |done..|].
  { intros j a a' Ha Hb. by apply (items_chunk512_Some m a a' j). }
  split; [done|]. split; [done|]. intros Hlt.
  destruct (Hbody ((count - i) / 8 - 1)) as (u & Hu & [u' Hsome]); [lia|].
  apply (items_chunk512_Some m) in Hsome as [_ Hreach]; [|done].
  eapply four_reach_mono; [|done]. lia.
Qed.

Lemma calculate_items_avx2_simd_reach :
  is_Some (calculate_items_avx2_simd m count) → four_reach m count.
Proof using Hcount.
  intros [r Hr]. unfold calculate_items_avx2_simd in Hr.
  apply bind_Some in Hr as ([i t] & Hchunks & Hr).
  apply bind_Some in Hr as ([i' t'] & Htail & _).
  apply items_chunks256_reach in Hchunks as (-> & Ht & Hreach); [|done|lia].
  destruct (N.eq_dec (0 + 4 * ((count - 0) / 4)) count) as [Heq|Hne].
  - destruct (N.eq_dec count 0) as [->|Hpos]; [unfold four_reach; lia|].
    rewrite Heq in Hreach. apply Hreach. lia.
  - eapply items_tail_reach; [done| |done]. lia.
Qed.

Lemma calculate_items_avx512_simd_reach :
  is_Some (calculate_items_avx512_simd m count) → four_reach m count.
Proof using Hcount.
  intros [r Hr]. unfold calculate_items_avx512_simd in Hr.
  apply bind_Some in Hr as ([i1 t1] & Hwide & Hr).
  apply bind_Some in Hr as ([i2 t2] & Hnarrow & Hr).
  apply bind_Some in Hr as ([i3 t3] & Htail & _).
  apply items_chunks512_reach in Hwide as (-> & Ht1 & Hreach1); [|done|lia].
  apply items_chunks256_reach in Hnarrow as (-> & Ht2 & Hreach2);
    [|done|lia].
  set (i1 := 0 + 8 * ((count - 0) / 8)) in *.
  set (i2 := i1 + 4 * ((count - i1) / 4)) in *.
  destruct (N.eq_dec i2 count) as [Heq|Hne].
  - destruct (N.eq_dec i1 i2) as [Heq'|Hne'].
    + destruct (N.eq_dec count 0) as [->|Hpos]; [unfold four_reach; lia|].
      rewrite <- Heq, <- Heq'. apply Hreach1. subst i1 i2. lia.
    + rewrite <- Heq. apply Hreach2. subst i1 i2. lia.
  - eapply items_tail_reach; [done| |done]. subst i1 i2. lia.
Qed.

Lemma calculate_items_avx2_reach b :
  is_Some (calculate_items_avx2 b m count) → four_reach m count.
Proof using Hcount.
  unfold calculate_items_avx2. destruct (HAS_X86_SIMD b).
  - apply calculate_items_avx2_simd_reach.
  - apply calculate_items_scalar_reach.
Qed.

Lemma calculate_items_avx512_reach b :
  is_Some (calculate_items_avx512 b m count) → four_reach m count.
Proof using Hcount.
  unfold calculate_items_avx512.
  destruct (HAS_X86_SIMD b) eqn:Hx86, (AVX512F b);
    (apply calculate_items_avx512_simd_reach
     || apply calculate_items_avx2_reach).
Qed.

End ItemsReach.

(** X5. For a count of doubles that fits in the address space and four
    buffers that do, [calculate_items_avx2] and [calculate_items_avx512]
    are defined exactly when the three inputs and the output buffer have at
    least [count] elements each: the vector loads and stores stay below
    [count] and every index below it is read and written. *)
Theorem calculate_items_defined_iff_in_bounds b (m : items_memory D) count :
  DOUBLE_BYTES * count < SIZE_MODULUS →
  items_fit m →
  (is_Some (calculate_items_avx2 b m count) ↔ items_in_bounds m count)
  ∧ (is_Some (calculate_items_avx512 b m count) ↔ items_in_bounds m count).
Proof.
  intros Hcount (Fq & Fc & Fk & Fr).
  assert (count + 8 < SIZE_MODULUS) as Hroom.
  { unfold DOUBLE_BYTES in Hcount. rewrite SIZE_MODULUS_eq in *. lia. }
  assert (four_reach m count → items_in_bounds m count) as Hin.
  { intros (? & ? & ? & ?). by repeat split. }
  split; split.
  - intros H. by apply Hin, (calculate_items_avx2_reach m count Hroom b).
  - intros H. by rewrite calculate_items_avx2_closed.
  - intros H. by apply Hin, (calculate_items_avx512_reach m count Hroom b).
  - intros H. by rewrite calculate_items_avx512_closed.
Qed.

End ItemBounds.

Section SumBounds.
Context {D : Type} {ops : DoubleOps D}.

Lemma sum_item_Some (data : list D) i s :
  is_Some (sum_item data i s) → i + 1 ≤ N.of_nat (length data).
Proof.
  unfold sum_item. intros [v Hv]. apply bind_Some in Hv as (? & Hx & _).
  pose proof (load_Some_lt _ _ (mk_is_Some _ _ Hx)). lia.
Qed.

Lemma dot_item_Some (a b : list D) i s :
  is_Some (dot_item a b i s) →
  i + 1 ≤ N.of_nat (length a) ∧ i + 1 ≤ N.of_nat (length b).
Proof.
  unfold dot_item. intros [v Hv].
  apply bind_Some in Hv as (? & Hx & Hv). apply bind_Some in Hv as (? & Hy & _).
  pose proof (load_Some_lt _ _ (mk_is_Some _ _ Hx)).
  pose proof (load_Some_lt _ _ (mk_is_Some _ _ Hy)). lia.
Qed.

(** A reduction in two phases, chunks of [w] and a scalar tail, whose
    bodies read up to [i + w] and up to [i + 1] of the arrays that [reach]
    measures: if it returns, the arrays reach [count]. *)
Lemma two_phase_reach {V : Type} (reach : N → Prop) (w count : N)
    (chunk : N → V → option V) (item : N → D → option D)
    (reduce : V → D) (v0 : V) :
  0 < w → count + w < SIZE_MODULUS →
  (∀ n n', n ≤ n' → reach n' → reach n) → reach 0 →
  (∀ i v, is_Some (chunk i v) → reach (i + w)) →
  (∀ i s, is_Some (item i s) → reach (i + 1)) →
  is_Some ('(i, v) ← for_chunks w count chunk 0 v0;
           '(_, sum) ← for_each count item i (reduce v);
           Some sum) →
  reach count.
Proof.
  intros Hw Hcount Hmono H0 Hchunk Hitem [r Hr].
  apply bind_Some in Hr as ([i v] & Hchunks & Hr).
  apply bind_Some in Hr as ([i' s] & Htail & _).
  destruct (for_chunks_Some_body (λ _, True) w count chunk 0 v0 i v)
    as (-> & _ & Hbody); [done|done|lia|done|done|done|].
  rewrite N.add_0_l, N.sub_0_r in *.
  assert (w * (count / w) ≤ count) as Hle by apply N.Div0.mul_div_le.
  revert Hbody Htail Hle. generalize (count / w). intros n Hbody Htail Hle.
  destruct (N.eq_dec (w * n) count) as [Heq|Hne].
  - destruct (N.eq_dec n 0) as [->|Hn].
    { by replace count with 0 by lia. }
    destruct (Hbody (n - 1)) as (t & _ & Hsome); [lia|].
    apply Hchunk in Hsome. eapply Hmono; [|done]. nia.
  - destruct (for_each_Some_body (λ _, True) count item (w * n) (reduce v)
                (i', s)) with (j := count - 1) as (t & _ & Hsome);
      [lia|done|done|done|lia|lia|].
    apply Hitem in Hsome. by replace (count - 1 + 1) with count in Hsome by lia.
Qed.

Lemma one_phase_reach (reach : N → Prop) (count : N)
    (item : N → D → option D) (s0 : D) :
  count < SIZE_MODULUS → reach 0 →
  (∀ i s, is_Some (item i s) → reach (i + 1)) →
  is_Some ('(_, sum) ← for_each count item 0 s0; Some sum) →
  reach count.
Proof.
  intros Hcount H0 Hitem [r Hr].
  apply bind_Some in Hr as ([i' s] & Htail & _).
  destruct (N.eq_dec count 0) as [->|Hne]; [done|].
  destruct (for_each_Some_body (λ _, True) count item 0 s0 (i', s))
    with (j := count - 1) as (t & _ & Hsome); [lia|done|done|done|lia|lia|].
  apply Hitem in Hsome. by replace (count - 1 + 1) with count in Hsome by lia.
Qed.

Section SumsReach.
Variables data a b : list D.
Variable count : N.
Hypothesis Hcount : count + 8 < SIZE_MODULUS.

Lemma fast_sum_avx2_reach bd :
  is_Some (fast_sum_avx2 bd data count) → count ≤ N.of_nat (length data).
Proof using Hcount.
  unfold fast_sum_avx2. destruct (HAS_X86_SIMD bd).
  - apply (two_phase_reach (λ n, n ≤ N.of_nat (length data)) 4);
      [lia|lia|lia|lia| |apply sum_item_Some].
    intros i v Hsome. apply (loadu256_Some_lt data i).
    destruct Hsome as [x Hx]. apply bind_Some in Hx as (y & -> & _). done.
  - apply (one_phase_reach (λ n, n ≤ N.of_nat (length data)));
      [lia|lia|apply sum_item_Some].
Qed.

Lemma fast_sum_avx512_reach bd :
  is_Some (fast_sum_avx512 bd data count) → count ≤ N.of_nat (length data).
Proof using Hcount.
  unfold fast_sum_avx512.
  destruct (HAS_X86_SIMD bd) eqn:Hx86, (AVX512F bd);
    try apply fast_sum_avx2_reach.
  apply (two_phase_reach (λ n, n ≤ N.of_nat (length data)) 8);
    [lia|lia|lia|lia| |apply sum_item_Some].
  intros i v Hsome. apply (loadu512_Some_lt data i).
  destruct Hsome as [x Hx]. apply bind_Some in Hx as (y & -> & _). done.
Qed.

Lemma dot_product_simd_reach bd :
  is_Some (dot_product_simd bd a b count) →
  count ≤ N.of_nat (length a) ∧ count ≤ N.of_nat (length b).
Proof using Hcount.
  unfold dot_product_simd. destruct (HAS_X86_SIMD bd).
  - apply (two_phase_reach
             (λ n, n ≤ N.of_nat (length a) ∧ n ≤ N.of_nat (length b)) 4);
      [lia|lia|lia|lia| |apply dot_item_Some].
    intros i v [x Hx].
    apply bind_Some in Hx as (va & Ha & Hx).
    apply bind_Some in Hx as (vb & Hb & _).
    pose proof (loadu256_Some_lt a i (mk_is_Some _ _ Ha)).
    pose proof (loadu256_Some_lt b i (mk_is_Some _ _ Hb)). done.
  - apply (one_phase_reach
             (λ n, n ≤ N.of_nat (length a) ∧ n ≤ N.of_nat (length b)));
      [lia|lia|apply dot_item_Some].
Qed.

Hypothesis Hdata : c_array data count.
Hypothesis Ha : c_array a count.
Hypothesis Hb : c_array b count.

Lemma sum_tail_defined i s :
  i ≤ count → is_Some (for_each count (sum_item data) i s).
Proof using Hdata Hcount.
  intros Hi. destruct Hdata as [Hlen _].
  rewrite (for_each_pure count _ (λ j t, d_add t (elt data j))); [done|lia|].
  intros j t _ Hj. unfold sum_item. by rewrite load_elt by lia.
Qed.

Lemma dot_tail_defined i s :
  i ≤ count → is_Some (for_each count (dot_item a b) i s).
Proof using Ha Hb Hcount.
  intros Hi. destruct Ha as [Hlena _], Hb as [Hlenb _].
  rewrite (for_each_pure count _
             (λ j t, d_add t (d_mul (elt a j) (elt b j)))); [done|lia|].
  intros j t _ Hj. unfold dot_item. by rewrite !load_elt by lia.
Qed.

Lemma fast_sum_avx2_defined bd : is_Some (fast_sum_avx2 bd data count).
Proof using Hdata Hcount.
  unfold fast_sum_avx2, fast_sum_avx2_simd, fast_sum_scalar.
  destruct (HAS_X86_SIMD bd).
  - rewrite (for_chunks_pure 4 count _
               (λ j v, _mm256_add_pd v (vec256 data j))); [|lia..|].
    2:{ intros j v _ Hj. destruct Hdata. by rewrite loadu256_vec by lia. }
    simpl. destruct (sum_tail_defined (0 + 4 * ((count - 0) / 4))
                       (hsum256_pd
                          (iterate_pure (N.to_nat ((count - 0) / 4)) 4
                             (λ j v, _mm256_add_pd v (vec256 data j)) 0
                             _mm256_setzero_pd))) as [[? ?] ->]; [lia|done].
  - destruct (sum_tail_defined 0 d_zero) as [[? ?] ->]; [lia|done].
Qed.

Lemma fast_sum_avx512_defined bd : is_Some (fast_sum_avx512 bd data count).
Proof using Hdata Hcount.
  unfold fast_sum_avx512, fast_sum_avx512_simd.
  destruct (HAS_X86_SIMD bd) eqn:Hx86, (AVX512F bd);
    try apply fast_sum_avx2_defined.
  rewrite (for_chunks_pure 8 count _
             (λ j v, _mm512_add_pd v (vec512 data j))); [|lia..|].
  2:{ intros j v _ Hj. destruct Hdata. by rewrite loadu512_vec by lia. }
  simpl. destruct (sum_tail_defined (0 + 8 * ((count - 0) / 8))
                     (_mm512_reduce_add_pd
                        (iterate_pure (N.to_nat ((count - 0) / 8)) 8
                           (λ j v, _mm512_add_pd v (vec512 data j)) 0
                           _mm512_setzero_pd))) as [[? ?] ->]; [lia|done].
Qed.

Lemma dot_product_simd_defined bd : is_Some (dot_product_simd bd a b count).
Proof using Ha Hb Hcount.
  unfold dot_product_simd, dot_product_simd_x86, dot_product_scalar.
  destruct (HAS_X86_SIMD bd).
  - rewrite (for_chunks_pure 4 count _
               (λ j v, _mm256_fmadd_pd (vec256 a j) (vec256 b j) v));
      [|lia..|].
    2:{ intros j v _ Hj. destruct Ha, Hb. by rewrite !loadu256_vec by lia. }
    simpl. destruct (dot_tail_defined (0 + 4 * ((count - 0) / 4))
                       (hsum256_pd
                          (iterate_pure (N.to_nat ((count - 0) / 4)) 4
                             (λ j v, _mm256_fmadd_pd (vec256 a j)
                                       (vec256 b j) v) 0
                             _mm256_setzero_pd))) as [[? ?] ->]; [lia|done].
  - destruct (dot_tail_defined 0 d_zero) as [[? ?] ->]; [lia|done].
Qed.

End SumsReach.

(** X6. For a count of doubles that fits in the address space and arrays
    that do, [fast_sum_avx2] and [fast_sum_avx512] are defined exactly when
    [data] has at least [count] elements, and [dot_product_simd] exactly
    when both [a] and [b] have. *)
Theorem reductions_defined_iff_in_bounds bd (data a b : list D) count :
  DOUBLE_BYTES * count < SIZE_MODULUS →
  array_fits data → array_fits a → array_fits b →
  (is_Some (fast_sum_avx2 bd data count) ↔ count ≤ N.of_nat (length data))
  ∧ (is_Some (fast_sum_avx512 bd data count)
     ↔ count ≤ N.of_nat (length data))
  ∧ (is_Some (dot_product_simd bd a b count)
     ↔ count ≤ N.of_nat (length a) ∧ count ≤ N.of_nat (length b)).
Proof.
  intros Hcount Fdata Fa Fb.
  assert (count + 8 < SIZE_MODULUS) as Hroom.
  { unfold DOUBLE_BYTES in Hcount. rewrite SIZE_MODULUS_eq in *. lia. }
  split; [|split]; split.
  - by apply fast_sum_avx2_reach.
  - intros H. by apply fast_sum_avx2_defined.
  - by apply fast_sum_avx512_reach.
  - intros H. by apply fast_sum_avx512_defined.
  - by apply dot_product_simd_reach.
  - intros [Hlena Hlenb]. by apply dot_product_simd_defined.
Qed.

End SumBounds.

(** ** Fallbacks, settings and the elementwise kernel *)

Section Generic.
Context {D : Type} {ops : DoubleOps D}.

(** X2. On a build without the x86 vector code, or on a processor whose
    highest CPUID leaf is below 7, [calculate_estimate_auto] is
    [calculate_estimate_scalar]: same arguments, same result, for every
    input and every interpretation of [double]. *)
Theorem auto_falls_back_to_scalar b c (q d l mo mat m : list D) count
    settings :
  HAS_X86_SIMD b = false ∨ (eax (__cpuid c 0) < 7)%Z →
  calculate_estimate_auto b c q d l mo mat m count settings
  = calculate_estimate_scalar q d l mo mat m count settings.
Proof.
  intros Hold.
  assert (denidom_has_avx512 b c = false ∧ denidom_has_avx2 b c = false)
    as [H512 H2].
  { unfold denidom_has_avx512, denidom_has_avx2, get_cpuid.
    destruct Hold as [->|Hleaf]; [done|].
    destruct (HAS_X86_SIMD b); [|done].
    by destruct (Z.ltb_spec (eax (__cpuid c 0)) 7); [|lia]. }
  unfold calculate_estimate_auto. by rewrite H512, H2.
Qed.

(** X3. Below four items every entry point is the scalar kernel: the
    AVX-512 tier hands the call to the AVX2 tier, which hands it to
    [calculate_estimate_scalar], and the auto-selecting entry runs one of
    the three, so all of them return the scalar result bit for bit, whatever
    the arrays, the build and the processor. *)
Theorem every_entry_is_scalar_below_four e b (q d l mo mat m : list D) count
    settings :
  count < 4 →
  estimate e b q d l mo mat m count settings
  = calculate_estimate_scalar q d l mo mat m count settings.
Proof.
  intros Hcount.
  assert (calculate_estimate_avx2 b q d l mo mat m count settings
          = calculate_estimate_scalar q d l mo mat m count settings)
    as Havx2.
  { unfold calculate_estimate_avx2, calculate_estimate_avx2_simd.
    destruct (HAS_X86_SIMD b); [|done].
    by destruct (N.ltb_spec count 4); [|lia]. }
  assert (calculate_estimate_avx512 b q d l mo mat m count settings
          = calculate_estimate_scalar q d l mo mat m count settings)
    as Havx512.
  { unfold calculate_estimate_avx512, calculate_estimate_avx512_simd.
    destruct (HAS_X86_SIMD b); [|done]. destruct (AVX512F b); [|done].
    by destruct (N.ltb_spec count 8); [|lia]. }
  destruct e as [[| |]|c]; simpl; try done.
  rewrite calculate_estimate_auto_select.
  by destruct (select_tier _ _).
Qed.

(** X11. The settings only act downstream: two calls on the same arrays
    whose settings have the same index return the same five category
    totals, whatever the three rates; if the overhead and profit rates
    agree as well, overhead, profit and subtotal are the same, whatever the
    VAT rate.  This holds bit for bit. *)
Theorem settings_act_downstream e b (q d l mo mat m : list D) count
    (s s' : CalculationSettings D) :
  inputs_in_bounds q d l mo mat m count →
  index s = index s' →
  ∃ r r',
    estimate e b q d l mo mat m count s = Some r
    ∧ estimate e b q d l mo mat m count s' = Some r'
    ∧ direct_costs r = direct_costs r' ∧ labor_costs r = labor_costs r'
    ∧ machine_op_costs r = machine_op_costs r'
    ∧ material_costs r = material_costs r'
    ∧ machine_costs r = machine_costs r'
    ∧ (overhead_rate s = overhead_rate s' → profit_rate s = profit_rate s' →
       overhead r = overhead r' ∧ profit r = profit r'
       ∧ subtotal r = subtotal r').
Proof.
  intros Hin Hindex. eexists _, _.
  split; [by apply estimate_pure|]. split; [by apply estimate_pure|].
  unfold apply_settings. simpl. rewrite Hindex.
  split_and!; try done. intros Hoverhead Hprofit.
  by rewrite Hoverhead, Hprofit.
Qed.

(** X7. On buffers within bounds the AVX2 kernel, the AVX-512 kernel and
    the scalar loop of the portable build leave the same memory, bit for
    bit and whatever the build each was compiled in: the elementwise kernel
    has no reduction whose order could differ. *)
Theorem calculate_items_same_in_every_tier b b' (mem : items_memory D) count :
  items_in_bounds mem count →
  ∃ mem',
    calculate_items_avx2 b mem count = Some mem'
    ∧ calculate_items_avx512 b' mem count = Some mem'
    ∧ calculate_items_scalar mem count = Some mem'.
Proof.
  intros Hin. eexists. split; [by apply calculate_items_avx2_closed|].
  split; [by apply calculate_items_avx512_closed|].
  by apply calculate_items_scalar_closed.
Qed.

Lemma results_upto_again (mem : items_memory D) count :
  count ≤ N.of_nat (length (results mem)) →
  results_upto (set_results mem (results_upto mem count)) count
  = results_upto mem count.
Proof.
  intros Hcount. apply list_eq. intros i.
  destruct (decide (i < N.to_nat count)%nat) as [Hi|Hi].
  - by rewrite !results_upto_lookup_lt by done.
  - rewrite (results_upto_lookup_ge (set_results _ _)) by lia. done.
Qed.

(** X8. Running an elementwise kernel again on the memory a first run
    left changes nothing: the inputs were not touched, so the same products
    are stored again. *)
Theorem calculate_items_idempotent b b' (mem : items_memory D) count :
  items_in_bounds mem count →
  ∃ mem',
    calculate_items_avx2 b mem count = Some mem'
    ∧ calculate_items_avx2 b' mem' count = Some mem'
    ∧ calculate_items_avx512 b' mem' count = Some mem'.
Proof.
  intros Hin. exists (set_results mem (results_upto mem count)).
  split; [by apply calculate_items_avx2_closed|].
  assert (items_in_bounds (set_results mem (results_upto mem count)) count)
    as Hin'.
  { destruct Hin as (Hq & Hc & Hk & [Hr Hfit]).
    repeat split; simpl; try (by destruct Hq, Hc, Hk);
      unfold c_array in *; rewrite ?length_results_upto by done; tauto. }
  rewrite calculate_items_avx2_closed, calculate_items_avx512_closed by done.
  destruct Hin as (_ & _ & _ & [Hr _]).
  rewrite results_upto_again by done. by destruct mem.
Qed.

(** X9. With [count = 0] the elementwise kernels return without reading
    or writing anything: the memory comes back as it was, whatever the four
    buffers are (empty ones included). *)
Theorem calculate_items_zero_count b (mem : items_memory D) :
  calculate_items_avx2 b mem 0 = Some mem
  ∧ calculate_items_avx512 b mem 0 = Some mem.
Proof. by destruct b as [[|] [|]]. Qed.

End Generic.



(** ** Only the first [count] elements are read *)

Lemma iterate_pure_ext {S : Type} (w : N) (f g : N → S → S) :
  ∀ n i s,
    (∀ k t, (k < n)%nat →
       f (i + w * N.of_nat k) t = g (i + w * N.of_nat k) t) →
    iterate_pure n w f i s = iterate_pure n w g i s.
Proof.
  induction n as [|n IH]; intros i s Hfg; [done|]. simpl.
  specialize (Hfg O s) as Hnow.
  replace (i + w * N.of_nat 0) with i in Hnow by lia.
  rewrite Hnow by lia. apply IH. intros k t Hk.
  specialize (Hfg (Datatypes.S k) t).
  replace (i + w * N.of_nat (Datatypes.S k))
    with (i + w + w * N.of_nat k) in Hfg by lia.
  apply Hfg. lia.
Qed.

Section Prefix.
Context {D : Type} {ops : DoubleOps D}.

Lemma elt_take (a : list D) count i :
  i < count → elt (take (N.to_nat count) a) i = elt a i.
Proof. intros Hi. unfold elt. by rewrite lookup_take_lt by lia. Qed.

Lemma vec256_take (a : list D) count i :
  i + 4 ≤ count → vec256 (take (N.to_nat count) a) i = vec256 a i.
Proof. intros Hi. unfold vec256. by rewrite !elt_take by lia. Qed.

Lemma vec512_take (a : list D) count i :
  i + 8 ≤ count → vec512 (take (N.to_nat count) a) i = vec512 a i.
Proof. intros Hi. unfold vec512. by rewrite !elt_take by lia. Qed.

Lemma c_array_take (a : list D) count :
  c_array a count → c_array (take (N.to_nat count) a) count.
Proof.
  unfold c_array, DOUBLE_BYTES. rewrite length_take. lia.
Qed.

Section Sums.
Variables q d l mo mat m : list D.
Variable count : N.

Local Abbreviation cut := (take (N.to_nat count)).

Lemma accumulate_pure_take i r :
  i < count →
  accumulate_pure (cut q) (cut d) (cut l) (cut mo) (cut mat) (cut m) i r
  = accumulate_pure q d l mo mat m i r.
Proof. intros Hi. unfold accumulate_pure. by rewrite !elt_take by done. Qed.

Lemma chunk256_pure_take i s :
  i + 4 ≤ count →
  chunk256_pure (cut q) (cut d) (cut l) (cut mo) (cut mat) (cut m) i s
  = chunk256_pure q d l mo mat m i s.
Proof. intros Hi. unfold chunk256_pure. by rewrite !vec256_take by done. Qed.

Lemma chunk512_pure_take i s :
  i + 8 ≤ count →
  chunk512_pure (cut q) (cut d) (cut l) (cut mo) (cut mat) (cut m) i s
  = chunk512_pure q d l mo mat m i s.
Proof. intros Hi. unfold chunk512_pure. by rewrite !vec512_take by done. Qed.

Lemma accumulate_loop_take n i r :
  i + N.of_nat n ≤ count →
  iterate_pure n 1
    (accumulate_pure (cut q) (cut d) (cut l) (cut mo) (cut mat) (cut m)) i r
  = iterate_pure n 1 (accumulate_pure q d l mo mat m) i r.
Proof.
  intros Hn. apply iterate_pure_ext. intros k t Hk.
  apply accumulate_pure_take. lia.
Qed.

Lemma chunk256_loop_take n base s :
  base + 4 * N.of_nat n ≤ count →
  iterate_pure n 1
    (λ i, chunk256_pure (cut q) (cut d) (cut l) (cut mo) (cut mat) (cut m)
            (base + i * 4)) 0 s
  = iterate_pure n 1 (λ i, chunk256_pure q d l mo mat m (base + i * 4)) 0 s.
Proof.
  intros Hn. apply iterate_pure_ext. intros k t Hk.
  apply chunk256_pure_take. lia.
Qed.

Lemma scalar_sums_take :
  scalar_sums (cut q) (cut d) (cut l) (cut mo) (cut mat) (cut m) count
  = scalar_sums q d l mo mat m count.
Proof. unfold scalar_sums. apply accumulate_loop_take. lia. Qed.

Lemma avx2_sums_take :
  avx2_sums (cut q) (cut d) (cut l) (cut mo) (cut mat) (cut m) count
  = avx2_sums q d l mo mat m count.
Proof.
  unfold avx2_sums. cbv zeta.
  rewrite accumulate_loop_take by lia.
  assert (iterate_pure (N.to_nat (count / 4)) 1
            (λ i, chunk256_pure (cut q) (cut d) (cut l) (cut mo) (cut mat)
                    (cut m) (i * 4)) 0 sums256_zero
          = iterate_pure (N.to_nat (count / 4)) 1
              (λ i, chunk256_pure q d l mo mat m (i * 4)) 0 sums256_zero)
    as ->; [|done].
  apply iterate_pure_ext. intros k t Hk. apply chunk256_pure_take. lia.
Qed.

Lemma avx512_sums_take :
  avx512_sums (cut q) (cut d) (cut l) (cut mo) (cut mat) (cut m) count
  = avx512_sums q d l mo mat m count.
Proof.
  unfold avx512_sums. cbv zeta.
  assert (iterate_pure (N.to_nat (count / 8)) 1
            (λ i, chunk512_pure (cut q) (cut d) (cut l) (cut mo) (cut mat)
                    (cut m) (i * 8)) 0 sums512_zero
          = iterate_pure (N.to_nat (count / 8)) 1
              (λ i, chunk512_pure q d l mo mat m (i * 8)) 0 sums512_zero)
    as ->.
  { apply iterate_pure_ext. intros k t Hk. apply chunk512_pure_take. lia. }
  destruct (N.leb_spec 4 (count - count / 8 * 8)) as [Hrem|Hrem].
  - rewrite accumulate_loop_take by lia.
    by rewrite chunk256_loop_take by lia.
  - by rewrite accumulate_loop_take by lia.
Qed.

Lemma tier_sums_take t b :
  tier_sums t b (cut q) (cut d) (cut l) (cut mo) (cut mat) (cut m) count
  = tier_sums t b q d l mo mat m count.
Proof.
  assert (avx2_tier_sums b (cut q) (cut d) (cut l) (cut mo) (cut mat) (cut m)
            count
          = avx2_tier_sums b q d l mo mat m count) as Havx2.
  { unfold avx2_tier_sums.
    destruct (HAS_X86_SIMD b), (count <? 4);
      auto using scalar_sums_take, avx2_sums_take. }
  destruct t; simpl; [apply scalar_sums_take|done|].
  unfold avx512_tier_sums.
  destruct (HAS_X86_SIMD b), (AVX512F b), (count <? 8);
    auto using scalar_sums_take, avx512_sums_take.
Qed.

End Sums.

(** X18. An estimate depends only on the first [count] elements of each
    array: cutting the six arrays down to [count] elements gives the same
    result, bit for bit. *)
Theorem estimate_reads_only_the_first_count e b (q d l mo mat m : list D)
    count settings :
  inputs_in_bounds q d l mo mat m count →
  estimate e b (take (N.to_nat count) q) (take (N.to_nat count) d)
    (take (N.to_nat count) l) (take (N.to_nat count) mo)
    (take (N.to_nat count) mat) (take (N.to_nat count) m) count settings
  = estimate e b q d l mo mat m count settings.
Proof.
  intros Hin. pose proof Hin as (Hq & Hd & Hl & Hmo & Hmat & Hm).
  rewrite !estimate_pure; [by rewrite tier_sums_take|done|].
  unfold inputs_in_bounds. auto 10 using c_array_take.
Qed.

End Prefix.



Local Open Scope Qc_scope.

(** ** Exact arithmetic, continued *)

(** X10. With [count = 0], in exact arithmetic, [fast_sum_avx2],
    [fast_sum_avx512] and [dot_product_simd] return 0, whatever the arrays
    are (empty ones included). *)
Theorem reductions_zero_count bd (data a b : list Qc) :
  fast_sum_avx2 bd data 0 = Some 0
  ∧ fast_sum_avx512 bd data 0 = Some 0
  ∧ dot_product_simd bd a b 0 = Some 0.
Proof.
  destruct bd as [[|] [|]]; repeat split; vm_compute; f_equal;
    by apply Qc_is_canon.
Qed.

Lemma sequential_dot_wsum a b count :
  (count ≤ N.of_nat (length a))%N → (count ≤ N.of_nat (length b))%N →
  sequential_dot a b count = wsum a b 0 (N.to_nat count).
Proof.
  intros Ha Hb. unfold sequential_dot.
  rewrite foldl_take_wsum by lia. ring.
Qed.

Lemma sequential_sum_psum data count :
  (count ≤ N.of_nat (length data))%N →
  sequential_sum data count = psum data 0 (N.to_nat count).
Proof.
  intros Hdata. unfold sequential_sum.
  rewrite foldl_take_psum by lia. ring.
Qed.

Lemma fast_sum_avx2_exact bd data count :
  c_array data count →
  fast_sum_avx2 bd data count = Some (psum data 0 (N.to_nat count)).
Proof.
  intros Hdata. unfold fast_sum_avx2. destruct (HAS_X86_SIMD bd).
  - by apply fast_sum_avx2_simd_exact.
  - by apply fast_sum_scalar_exact.
Qed.

Lemma dot_product_simd_exact bd a b count :
  c_array a count → c_array b count →
  dot_product_simd bd a b count = Some (wsum a b 0 (N.to_nat count)).
Proof.
  intros Ha Hb. unfold dot_product_simd. destruct (HAS_X86_SIMD bd).
  - by apply dot_product_simd_x86_exact.
  - by apply dot_product_scalar_exact.
Qed.

(** *** The result as a formula *)

(** X12. In exact arithmetic the result of every entry point is given by
    five dot products: each category total is the index times the
    sequential dot product of the quantities with that category's unit
    costs; overhead and profit are their rates times the sum of the labor
    and machine-operator totals; vat is its rate times the subtotal; and
    the total is [(1 + vat_rate) * index * (D + (overhead_rate +
    profit_rate) * (L + MO))]. *)
Theorem estimate_closed_form e b q d l mo mat m count
    (s : CalculationSettings Qc) :
  inputs_in_bounds q d l mo mat m count →
  ∃ r,
    estimate e b q d l mo mat m count s = Some r
    ∧ direct_costs r = index s * sequential_dot q d count
    ∧ labor_costs r = index s * sequential_dot q l count
    ∧ machine_op_costs r = index s * sequential_dot q mo count
    ∧ material_costs r = index s * sequential_dot q mat count
    ∧ machine_costs r = index s * sequential_dot q m count
    ∧ overhead r = overhead_rate s * (labor_costs r + machine_op_costs r)
    ∧ profit r = profit_rate s * (labor_costs r + machine_op_costs r)
    ∧ vat r = vat_rate s * subtotal r
    ∧ total r
      = (1 + vat_rate s) * index s
        * (sequential_dot q d count
           + (overhead_rate s + profit_rate s)
             * (sequential_dot q l count + sequential_dot q mo count)).
Proof.
  intros Hin. eexists. split; [by apply estimate_exact|].
  destruct Hin as ([? _] & [? _] & [? _] & [? _] & [? _] & [? _]).
  rewrite !sequential_dot_wsum by done.
  unfold apply_settings, exact_sums. simpl. split_and!; ring.
Qed.

(** X13. In exact arithmetic the five category totals of an estimate are
    what [dot_product_simd] returns for the quantities and the category's
    unit costs, times the index. *)
Theorem estimate_categories_are_dot_products e b bd q d l mo mat m count
    (s : CalculationSettings Qc) :
  inputs_in_bounds q d l mo mat m count →
  ∃ r dd dl dmo dmat dm,
    estimate e b q d l mo mat m count s = Some r
    ∧ dot_product_simd bd q d count = Some dd
    ∧ dot_product_simd bd q l count = Some dl
    ∧ dot_product_simd bd q mo count = Some dmo
    ∧ dot_product_simd bd q mat count = Some dmat
    ∧ dot_product_simd bd q m count = Some dm
    ∧ direct_costs r = dd * index s ∧ labor_costs r = dl * index s
    ∧ machine_op_costs r = dmo * index s
    ∧ material_costs r = dmat * index s
    ∧ machine_costs r = dm * index s.
Proof.
  intros Hin. pose proof Hin as (Hq & Hd & Hl & Hmo & Hmat & Hm).
  eexists _, _, _, _, _, _.
  split; [by apply estimate_exact|].
  do 5 (split; [by apply dot_product_simd_exact|]).
  by split_and!.
Qed.

(** X14. The material and machine unit costs are summed into their own
    two totals and nowhere else: replacing these two arrays changes none of
    the other eight fields (in exact arithmetic). *)
Theorem material_and_machine_stay_out_of_totals e b q d l mo mat m mat' m'
    count (s : CalculationSettings Qc) :
  inputs_in_bounds q d l mo mat m count →
  inputs_in_bounds q d l mo mat' m' count →
  ∃ r r',
    estimate e b q d l mo mat m count s = Some r
    ∧ estimate e b q d l mo mat' m' count s = Some r'
    ∧ direct_costs r = direct_costs r' ∧ labor_costs r = labor_costs r'
    ∧ machine_op_costs r = machine_op_costs r'
    ∧ overhead r = overhead r' ∧ profit r = profit r'
    ∧ subtotal r = subtotal r' ∧ vat r = vat r' ∧ total r = total r'.
Proof.
  intros Hin Hin'. eexists _, _.
  split; [by apply estimate_exact|]. split; [by apply estimate_exact|].
  by split_and!.
Qed.

(** X15. In exact arithmetic, with non-negative arrays and four
    non-negative settings, overhead, profit and vat are non-negative and
    [direct_costs <= subtotal <= total]. *)
Theorem derived_fields_nonneg e b q d l mo mat m count
    (s : CalculationSettings Qc) :
  inputs_in_bounds q d l mo mat m count →
  inputs_nonneg q d l mo mat m →
  settings_nonneg s →
  ∃ r,
    estimate e b q d l mo mat m count s = Some r
    ∧ 0 ≤ overhead r ∧ 0 ≤ profit r ∧ 0 ≤ vat r
    ∧ direct_costs r ≤ subtotal r ∧ subtotal r ≤ total r.
Proof.
  intros Hin (Pq & Pd & Pl & Pmo & Pmat & Pm) (Ho & Hp & Hv & Hi).
  eexists. split; [by apply estimate_exact|].
  unfold apply_settings, exact_sums. simpl.
  set (n := N.to_nat count).
  assert (0 ≤ wsum q d 0 n * index s) as Hd
    by (apply Qcmult_nonneg_nonneg; auto using wsum_nonneg).
  assert (0 ≤ wsum q l 0 n * index s + wsum q mo 0 n * index s) as Hlt.
  { apply Qcplus_nonneg_nonneg; apply Qcmult_nonneg_nonneg;
      auto using wsum_nonneg. }
  assert (0 ≤ (wsum q l 0 n * index s + wsum q mo 0 n * index s)
              * overhead_rate s) as Hover
    by (by apply Qcmult_nonneg_nonneg).
  assert (0 ≤ (wsum q l 0 n * index s + wsum q mo 0 n * index s)
              * profit_rate s) as Hprof
    by (by apply Qcmult_nonneg_nonneg).
  set (direct := wsum q d 0 n * index s) in *.
  set (over := (wsum q l 0 n * index s + wsum q mo 0 n * index s)
               * overhead_rate s) in *.
  set (prof := (wsum q l 0 n * index s + wsum q mo 0 n * index s)
               * profit_rate s) in *.
  assert (0 ≤ direct + over + prof) as Hsub
    by (repeat apply Qcplus_nonneg_nonneg; done).
  assert (0 ≤ (direct + over + prof) * vat_rate s) as Hvat
    by (by apply Qcmult_nonneg_nonneg).
  split_and!; try done.
  - apply Qcle_minus_iff.
    replace (direct + over + prof + - direct) with (over + prof) by ring.
    by apply Qcplus_nonneg_nonneg.
  - apply Qcle_minus_iff.
    replace (direct + over + prof + (direct + over + prof) * vat_rate s
             + - (direct + over + prof))
      with ((direct + over + prof) * vat_rate s) by ring.
    done.
Qed.

(** *** Linearity in the quantities and in the index *)

Lemma wsum_scale_l k a b lo n : wsum (scale k a) b lo n = k * wsum a b lo n.
Proof.
  induction n as [|n IH]; simpl; [ring|].
  rewrite IH, elt_scale. ring.
Qed.

(** X16. In exact arithmetic the result is linear in the quantities and in
    the index: scaling either by [k] scales all ten fields by [k]. *)
Theorem quantity_and_index_scaling e b k q d l mo mat m count
    (s : CalculationSettings Qc) :
  inputs_in_bounds q d l mo mat m count →
  ∃ r,
    estimate e b q d l mo mat m count s = Some r
    ∧ estimate e b (scale k q) d l mo mat m count s
      = Some (scale_result k r)
    ∧ estimate e b q d l mo mat m count (scale_index k s)
      = Some (scale_result k r).
Proof.
  intros Hin. pose proof Hin as (Hq & Hd & Hl & Hmo & Hmat & Hm).
  eexists. split; [by apply estimate_exact|].
  assert (inputs_in_bounds (scale k q) d l mo mat m count) as Hin'
    by (unfold inputs_in_bounds; auto 10 using c_array_scale).
  rewrite !estimate_exact by done.
  unfold apply_settings, exact_sums, scale_result, scale_index. simpl.
  rewrite !wsum_scale_l. split; f_equal; f_equal; ring.
Qed.

(** *** Batches *)

Lemma elt_app_l (a1 a2 : list Qc) i :
  (i < N.of_nat (length a1))%N → elt (a1 ++ a2) i = elt a1 i.
Proof. intros Hi. unfold elt. by rewrite lookup_app_l by lia. Qed.

Lemma elt_app_r (a1 a2 : list Qc) i :
  elt (a1 ++ a2) (N.of_nat (length a1) + i) = elt a2 i.
Proof.
  unfold elt. rewrite lookup_app_r by lia. do 2 f_equal. lia.
Qed.

Lemma wsum_app_l a1 a2 b1 b2 n :
  (n ≤ length a1)%nat → (n ≤ length b1)%nat →
  wsum (a1 ++ a2) (b1 ++ b2) 0 n = wsum a1 b1 0 n.
Proof.
  intros Ha Hb. induction n as [|n IH]; [done|]. simpl.
  rewrite IH, !elt_app_l by lia. done.
Qed.

Lemma wsum_app_r a1 a2 b1 b2 n :
  length a1 = length b1 →
  wsum (a1 ++ a2) (b1 ++ b2) (N.of_nat (length a1)) n = wsum a2 b2 0 n.
Proof.
  intros Hlen. induction n as [|n IH]; [done|]. simpl.
  rewrite IH. rewrite Hlen at 2. by rewrite !elt_app_r.
Qed.

Lemma wsum_app a1 a2 b1 b2 n :
  length a1 = length b1 →
  wsum (a1 ++ a2) (b1 ++ b2) 0 (length a1 + n)
  = wsum a1 b1 0 (length a1) + wsum a2 b2 0 n.
Proof.
  intros Hlen. rewrite wsum_split, wsum_app_l by lia.
  by rewrite N.add_0_l, wsum_app_r.
Qed.

Lemma c_array_app_r (a1 a2 : list Qc) c1 c2 :
  length a1 = N.to_nat c1 → c_array (a1 ++ a2) (c1 + c2) → c_array a2 c2.
Proof.
  unfold c_array, DOUBLE_BYTES. rewrite length_app. intros Hlen [? ?].
  split; lia.
Qed.

Lemma c_array_app_l (a1 a2 : list Qc) c1 c2 :
  length a1 = N.to_nat c1 → c_array (a1 ++ a2) (c1 + c2) → c_array a1 c1.
Proof.
  unfold c_array, DOUBLE_BYTES. rewrite length_app. intros Hlen [? ?].
  split; lia.
Qed.

(** X17. In exact arithmetic an estimate adds over batches: the result for
    a batch of [c1] items followed by a batch of [c2] items is the fieldwise
    sum of the results of the two batches under the same settings. *)
Theorem estimate_adds_over_batches e b q1 d1 l1 mo1 mat1 m1 q2 d2 l2 mo2
    mat2 m2 c1 c2 (s : CalculationSettings Qc) :
  length q1 = N.to_nat c1 → length d1 = N.to_nat c1 →
  length l1 = N.to_nat c1 → length mo1 = N.to_nat c1 →
  length mat1 = N.to_nat c1 → length m1 = N.to_nat c1 →
  inputs_in_bounds (q1 ++ q2) (d1 ++ d2) (l1 ++ l2) (mo1 ++ mo2)
    (mat1 ++ mat2) (m1 ++ m2) (c1 + c2) →
  ∃ r1 r2,
    estimate e b q1 d1 l1 mo1 mat1 m1 c1 s = Some r1
    ∧ estimate e b q2 d2 l2 mo2 mat2 m2 c2 s = Some r2
    ∧ estimate e b (q1 ++ q2) (d1 ++ d2) (l1 ++ l2) (mo1 ++ mo2)
        (mat1 ++ mat2) (m1 ++ m2) (c1 + c2) s
      = Some (result_add r1 r2).
Proof.
  intros Lq Ld Ll Lmo Lmat Lm Hin.
  pose proof Hin as (Hq & Hd & Hl & Hmo & Hmat & Hm).
  eexists _, _. split.
  { apply estimate_exact. unfold inputs_in_bounds.
    split_and!; (eapply c_array_app_l; [eassumption|eassumption]). }
  split.
  { apply estimate_exact. unfold inputs_in_bounds.
    split_and!; (eapply c_array_app_r; [|eassumption]; eassumption). }
  rewrite estimate_exact by done. f_equal.
  unfold apply_settings, exact_sums, result_add. simpl.
  replace (N.to_nat (c1 + c2)) with (length q1 + N.to_nat c2)%nat by lia.
  rewrite !wsum_app by congruence.
  rewrite Lq. f_equal; ring.
Qed.

(** ** The order of the line items *)

Lemma wsum_peel_left a b lo n :
  wsum a b lo (Datatypes.S n)
  = elt a lo * elt b lo + wsum a b (lo + 1) n.
Proof.
  induction n as [|n IH].
  - simpl. replace (lo + N.of_nat 0)%N with lo by lia. ring.
  - change (wsum a b lo (Datatypes.S (Datatypes.S n)))
      with (wsum a b lo (Datatypes.S n)
            + elt a (lo + N.of_nat (Datatypes.S n))
              * elt b (lo + N.of_nat (Datatypes.S n))).
    rewrite IH. simpl.
    replace (lo + 1 + N.of_nat n)%N with (lo + N.of_nat (Datatypes.S n))%N
      by lia.
    ring.
Qed.

Lemma elt_cons (x : Qc) a i : elt (x :: a) (i + 1) = elt a i.
Proof.
  unfold elt. by replace (N.to_nat (i + 1)) with (Datatypes.S (N.to_nat i))
    by lia.
Qed.

Lemma wsum_shift x y a b lo n :
  wsum (x :: a) (y :: b) (lo + 1) n = wsum a b lo n.
Proof.
  induction n as [|n IH]; [done|]. simpl. rewrite IH.
  replace (lo + 1 + N.of_nat n)%N with (lo + N.of_nat n + 1)%N by lia.
  by rewrite !elt_cons.
Qed.

Lemma wsum_columns f g rows :
  wsum (f <$> rows) (g <$> rows) 0 (length rows) = line_sum f g rows.
Proof.
  induction rows as [|r rows IH]; [done|].
  simpl length. rewrite wsum_peel_left.
  change (f <$> r :: rows) with (f r :: (f <$> rows)).
  change (g <$> r :: rows) with (g r :: (g <$> rows)).
  rewrite wsum_shift, IH. done.
Qed.

Lemma line_sum_permutation f g rows rows' :
  rows ≡ₚ rows' → line_sum f g rows = line_sum f g rows'.
Proof.
  induction 1 as [|r rows rows' _ IH|r1 r2 rows|rows1 rows2 rows3 _ IH1 _ IH2];
    simpl.
  - done.
  - by rewrite IH.
  - ring.
  - by rewrite IH1.
Qed.

(** X19. In exact arithmetic the order of the line items does not matter:
    permuting the lines (the six arrays together) leaves the result of
    every entry point unchanged. *)
Theorem estimate_ignores_item_order e b (rows rows' : list line_item)
    (s : CalculationSettings Qc) :
  rows ≡ₚ rows' →
  (DOUBLE_BYTES * N.of_nat (length rows) < SIZE_MODULUS)%N →
  ∃ r,
    estimate e b (item_quantity <$> rows) (item_direct <$> rows)
      (item_labor <$> rows) (item_machine_op <$> rows)
      (item_material <$> rows) (item_machine <$> rows)
      (N.of_nat (length rows)) s = Some r
    ∧ estimate e b (item_quantity <$> rows') (item_direct <$> rows')
        (item_labor <$> rows') (item_machine_op <$> rows')
        (item_material <$> rows') (item_machine <$> rows')
        (N.of_nat (length rows')) s = Some r.
Proof.
  intros Hperm Hfit.
  assert (∀ rs : list line_item,
            (DOUBLE_BYTES * N.of_nat (length rs) < SIZE_MODULUS)%N →
            estimate e b (item_quantity <$> rs) (item_direct <$> rs)
              (item_labor <$> rs) (item_machine_op <$> rs)
              (item_material <$> rs) (item_machine <$> rs)
              (N.of_nat (length rs)) s
            = Some (apply_settings s
                      (set_categories result_zero
                         (line_sum item_quantity item_direct rs)
                         (line_sum item_quantity item_labor rs)
                         (line_sum item_quantity item_machine_op rs)
                         (line_sum item_quantity item_material rs)
                         (line_sum item_quantity item_machine rs)))) as Hrun.
  { intros rs Hrs. rewrite estimate_exact.
    - unfold exact_sums. rewrite Nat2N.id. by rewrite !wsum_columns.
    - unfold inputs_in_bounds, c_array. rewrite !length_fmap.
      split_and!; (done || lia). }
  eexists. split; [by apply Hrun|].
  rewrite Hrun by (by rewrite <- (Permutation_length Hperm)).
  by rewrite !(line_sum_permutation _ _ rows' rows).
Qed.

(** ** The dot product *)

Lemma wsum_comm a b lo n : wsum a b lo n = wsum b a lo n.
Proof. induction n as [|n IH]; [done|]. simpl. rewrite IH. ring. Qed.

Lemma Qc_square_nonneg (x : Qc) : 0 ≤ x * x.
Proof.
  destruct (Qclt_le_dec x 0) as [Hneg|Hpos].
  - assert (0 ≤ - x) as Hopp.
    { apply Qclt_le_weak in Hneg. apply Qcle_minus_iff in Hneg.
      by replace (0 + - x) with (- x) in Hneg by ring. }
    replace (x * x) with (- x * - x) by ring.
    by apply Qcmult_nonneg_nonneg.
  - by apply Qcmult_nonneg_nonneg.
Qed.

Lemma wsum_self_nonneg a lo n : 0 ≤ wsum a a lo n.
Proof.
  induction n as [|n IH]; [done|]. simpl.
  apply Qcplus_nonneg_nonneg; [done|apply Qc_square_nonneg].
Qed.

(** X20. In exact arithmetic [dot_product_simd] is symmetric in its two
    arrays, and the dot product of an array with itself is non-negative. *)
Theorem dot_product_symmetric bd a b count :
  c_array a count → c_array b count →
  ∃ ab aa,
    dot_product_simd bd a b count = Some ab
    ∧ dot_product_simd bd b a count = Some ab
    ∧ dot_product_simd bd a a count = Some aa
    ∧ 0 ≤ aa.
Proof.
  intros Ha Hb. eexists _, _.
  rewrite !dot_product_simd_exact by done.
  split; [done|]. split; [by rewrite wsum_comm|].
  split; [done|apply wsum_self_nonneg].
Qed.

(** ** Summing the item totals *)

Lemma psum_ext a b lo n :
  (∀ k, (k < n)%nat → elt a (lo + N.of_nat k) = elt b (lo + N.of_nat k)) →
  psum a lo n = psum b lo n.
Proof.
  induction n as [|n IH]; intros Hab; [done|]. simpl.
  rewrite IH, Hab by (intros; (apply Hab || idtac); lia). done.
Qed.

Lemma elt_triple_products q c k i :
  (i < N.of_nat (length q))%N → (i < N.of_nat (length c))%N →
  (i < N.of_nat (length k))%N →
  elt (triple_products q c k) i = elt q i * elt c i * elt k i.
Proof.
  intros Hq Hc Hk. unfold elt, triple_products.
  rewrite !lookup_zip_with.
  destruct (lookup_lt_is_Some_2 q (N.to_nat i)) as [x ->]; [lia|].
  destruct (lookup_lt_is_Some_2 c (N.to_nat i)) as [y ->]; [lia|].
  destruct (lookup_lt_is_Some_2 k (N.to_nat i)) as [z ->]; [lia|].
  done.
Qed.

(** X21. In exact arithmetic, summing with [fast_sum_avx2] or
    [fast_sum_avx512] the buffer [calculate_items_avx2] has filled gives the
    sequential sum of the products
    [quantities[i] * unit_costs[i] * coefficients[i]] over [i < count]. *)
Theorem sum_of_item_totals b bd (mem : items_memory Qc) count :
  items_in_bounds mem count →
  ∃ mem',
    calculate_items_avx2 b mem count = Some mem'
    ∧ fast_sum_avx2 bd (results mem') count
      = Some (sequential_sum
                (triple_products (quantities mem) (unit_costs mem)
                   (coefficients mem)) count)
    ∧ fast_sum_avx512 bd (results mem') count
      = fast_sum_avx2 bd (results mem') count.
Proof.
  intros Hin. pose proof Hin as ([Hq ?] & [Hc ?] & [Hk ?] & [Hr Hfit]).
  exists (set_results mem (results_upto mem count)).
  split; [by apply calculate_items_avx2_closed|]. simpl.
  assert (c_array (results_upto mem count) count) as Hres.
  { unfold c_array. by rewrite length_results_upto. }
  assert (fast_sum_avx512 bd (results_upto mem count) count
          = Some (psum (results_upto mem count) 0 (N.to_nat count)))
    as H512.
  { unfold fast_sum_avx512.
    destruct (HAS_X86_SIMD bd), (AVX512F bd);
      auto using fast_sum_avx512_simd_exact, fast_sum_avx2_exact. }
  rewrite H512, fast_sum_avx2_exact by done. split; [|done]. f_equal.
  rewrite sequential_sum_psum.
  - apply psum_ext. intros j Hj. rewrite N.add_0_l.
    rewrite elt_triple_products by lia.
    unfold elt at 1. rewrite results_upto_lookup_lt by lia. simpl.
    unfold item_value. by rewrite N2Nat.id.
  - unfold triple_products. rewrite !length_zip_with. lia.
Qed.

(** ** The default settings *)

(** The four doubles: [0x1.eb851eb851eb8p-4], [0x1.47ae147ae147bp-4],
    [0x1.999999999999ap-3] and [1.0]. *)
Example default_settings_bits :
  denidom_default_settings
  = {| overhead_rate := S754_finite false 8646911284551352 (-56);
       profit_rate := S754_finite false 5764607523034235 (-56);
       vat_rate := S754_finite false 7205759403792794 (-55);
       index := S754_finite false 4503599627370496 (-52) |}.
Proof. reflexivity. Qed.

(** The constants of [denidom_default_settings] are the binary64 values
    nearest to the decimals, not the decimals: [0.12] lies below 12/100,
    [0.08] and [0.20] above 8/100 and 20/100, and [1.0] is 1. *)
Lemma default_settings_values :
  overhead_rate denidom_default_settings
  = Q2Qc (12 # 100) - Q2Qc (1 # 225179981368524800)
  ∧ profit_rate denidom_default_settings
    = Q2Qc (8 # 100) + Q2Qc (3 # 1801439850948198400)
  ∧ vat_rate denidom_default_settings
    = Q2Qc (20 # 100) + Q2Qc (1 # 90071992547409920)
  ∧ index denidom_default_settings = 1.
Proof. split_and!; by apply Qc_is_canon. Qed.

(** X22. With [denidom_default_settings], in exact arithmetic on the values
    its four doubles denote, the five category totals are the plain dot
    products (the index is exactly 1); overhead and profit together are
    [1/5 - 1/(5 * 2^56)] of the labor and machine-operator totals, and the
    total is [6/5 + 1/(5 * 2^54)] of the subtotal: close to a fifth and to
    six fifths but not equal to them, because [0.12], [0.08] and [0.20]
    are the nearest doubles and not the decimals. *)
Theorem default_settings_totals e b q d l mo mat m count :
  inputs_in_bounds q d l mo mat m count →
  ∃ r,
    estimate e b q d l mo mat m count denidom_default_settings = Some r
    ∧ direct_costs r = sequential_dot q d count
    ∧ labor_costs r = sequential_dot q l count
    ∧ machine_op_costs r = sequential_dot q mo count
    ∧ material_costs r = sequential_dot q mat count
    ∧ machine_costs r = sequential_dot q m count
    ∧ overhead r + profit r
      = (Q2Qc (1 # 5) - Q2Qc (1 # 360287970189639680))
        * (labor_costs r + machine_op_costs r)
    ∧ total r
      = (Q2Qc (6 # 5) + Q2Qc (1 # 90071992547409920)) * subtotal r.
Proof.
  intros Hin.
  assert (index (D:=Qc) denidom_default_settings = 1) as Hindex
    by by apply Qc_is_canon.
  assert (overhead_rate denidom_default_settings
          + profit_rate denidom_default_settings
          = (Q2Qc (1 # 5) - Q2Qc (1 # 360287970189639680))) as Hrates
    by by apply Qc_is_canon.
  assert (1 + vat_rate denidom_default_settings
          = (Q2Qc (6 # 5) + Q2Qc (1 # 90071992547409920))) as Hvat
    by by apply Qc_is_canon.
  revert Hindex Hrates Hvat.
  generalize (denidom_default_settings (D:=Qc)).
  intros s Hindex Hrates Hvat.
  eexists. split; [by apply estimate_exact|].
  destruct Hin as ([? _] & [? _] & [? _] & [? _] & [? _] & [? _]).
  rewrite !sequential_dot_wsum by done.
  unfold apply_settings, exact_sums. simpl.
  rewrite <- Hrates, <- Hvat, Hindex. split_and!; ring.
Qed.

(** *** Instances of the further properties *)

Lemma auto_falls_back_to_scalar_witness :
  (HAS_X86_SIMD build_avx512f = false ∨ (eax (__cpuid cpu_legacy 0) < 7)%Z)
  ∧ calculate_estimate_auto build_avx512f cpu_legacy sample_quantities
      sample_direct sample_labor sample_machine_op sample_material
      sample_machine 13 denidom_default_settings
    = calculate_estimate_scalar sample_quantities sample_direct sample_labor
        sample_machine_op sample_material sample_machine 13
        denidom_default_settings.
Proof.
  split; [right; reflexivity|].
  apply auto_falls_back_to_scalar. right. reflexivity.
Defined.

Lemma every_entry_is_scalar_below_four_witness :
  (3 < 4)%N
  ∧ estimate (AutoSelect cpu_avx512) build_avx512f sample_quantities
      sample_direct sample_labor sample_machine_op sample_material
      sample_machine 3 denidom_default_settings
    = calculate_estimate_scalar sample_quantities sample_direct sample_labor
        sample_machine_op sample_material sample_machine 3
        denidom_default_settings.
Proof.
  split; [reflexivity|].
  apply every_entry_is_scalar_below_four. reflexivity.
Defined.

Lemma estimate_defined_iff_in_bounds_witness :
  (13 < SIZE_MODULUS)%N
  ∧ inputs_fit sample_quantities sample_direct sample_labor
      sample_machine_op sample_material sample_machine
  ∧ (is_Some
       (estimate (AutoSelect cpu_avx512) build_avx512f sample_quantities
          sample_direct sample_labor sample_machine_op sample_material
          sample_machine 13 denidom_default_settings)
     ↔ inputs_in_bounds sample_quantities sample_direct sample_labor
         sample_machine_op sample_material sample_machine 13).
Proof.
  split; [reflexivity|]. split; [in_bounds_compute|].
  apply estimate_defined_iff_in_bounds; [reflexivity|in_bounds_compute].
Defined.

Lemma calculate_items_defined_iff_in_bounds_witness :
  (DOUBLE_BYTES * 4 < SIZE_MODULUS)%N
  ∧ items_fit sample_items
  ∧ (is_Some (calculate_items_avx2 build_avx512f sample_items 4)
     ↔ items_in_bounds sample_items 4)
  ∧ (is_Some (calculate_items_avx512 build_avx512f sample_items 4)
     ↔ items_in_bounds sample_items 4).
Proof.
  split; [reflexivity|]. split; [in_bounds_compute|].
  apply calculate_items_defined_iff_in_bounds;
    [reflexivity|in_bounds_compute].
Defined.

Lemma reductions_defined_iff_in_bounds_witness :
  (DOUBLE_BYTES * 13 < SIZE_MODULUS)%N
  ∧ array_fits sample_direct ∧ array_fits sample_quantities
  ∧ array_fits sample_machine
  ∧ (is_Some (fast_sum_avx2 build_avx512f sample_direct 13)
     ↔ (13 ≤ N.of_nat (length sample_direct))%N)
  ∧ (is_Some (fast_sum_avx512 build_avx512f sample_direct 13)
     ↔ (13 ≤ N.of_nat (length sample_direct))%N)
  ∧ (is_Some (dot_product_simd build_avx512f sample_quantities
                sample_machine 13)
     ↔ (13 ≤ N.of_nat (length sample_quantities))%N
       ∧ (13 ≤ N.of_nat (length sample_machine))%N).
Proof.
  split; [reflexivity|]. split; [reflexivity|]. split; [reflexivity|].
  split; [reflexivity|].
  apply reductions_defined_iff_in_bounds; reflexivity.
Defined.

Lemma calculate_items_same_in_every_tier_witness :
  items_in_bounds sample_items 4
  ∧ ∃ mem',
      calculate_items_avx2 build_x86 sample_items 4 = Some mem'
      ∧ calculate_items_avx512 build_avx512f sample_items 4 = Some mem'
      ∧ calculate_items_scalar sample_items 4 = Some mem'.
Proof.
  split; [in_bounds_compute|].
  apply calculate_items_same_in_every_tier. in_bounds_compute.
Defined.

Lemma calculate_items_idempotent_witness :
  items_in_bounds sample_items 4
  ∧ ∃ mem',
      calculate_items_avx2 build_x86 sample_items 4 = Some mem'
      ∧ calculate_items_avx2 build_avx512f mem' 4 = Some mem'
      ∧ calculate_items_avx512 build_avx512f mem' 4 = Some mem'.
Proof.
  split; [in_bounds_compute|].
  apply calculate_items_idempotent. in_bounds_compute.
Defined.

Lemma settings_act_downstream_witness :
  inputs_in_bounds sample_quantities sample_direct sample_labor
    sample_machine_op sample_material sample_machine 13
  ∧ index denidom_default_settings
    = index {| overhead_rate := overhead_rate denidom_default_settings;
               profit_rate := profit_rate denidom_default_settings;
               vat_rate := qc 3;
               index := index denidom_default_settings |}
  ∧ ∃ r r',
      estimate (Explicit Vector512) build_avx512f sample_quantities
        sample_direct sample_labor sample_machine_op sample_material
        sample_machine 13 denidom_default_settings = Some r
      ∧ estimate (Explicit Vector512) build_avx512f sample_quantities
          sample_direct sample_labor sample_machine_op sample_material
          sample_machine 13
          {| overhead_rate := overhead_rate denidom_default_settings;
             profit_rate := profit_rate denidom_default_settings;
             vat_rate := qc 3;
             index := index denidom_default_settings |} = Some r'
      ∧ direct_costs r = direct_costs r' ∧ labor_costs r = labor_costs r'
      ∧ machine_op_costs r = machine_op_costs r'
      ∧ material_costs r = material_costs r'
      ∧ machine_costs r = machine_costs r'
      ∧ (overhead_rate (D:=Qc) denidom_default_settings
         = overhead_rate denidom_default_settings →
         profit_rate (D:=Qc) denidom_default_settings
         = profit_rate denidom_default_settings →
         overhead r = overhead r' ∧ profit r = profit r'
         ∧ subtotal r = subtotal r').
Proof.
  split; [in_bounds_compute|]. split; [reflexivity|].
  apply (settings_act_downstream (Explicit Vector512) build_avx512f
           sample_quantities sample_direct sample_labor sample_machine_op
           sample_material sample_machine 13 denidom_default_settings
           {| overhead_rate := overhead_rate denidom_default_settings;
              profit_rate := profit_rate denidom_default_settings;
              vat_rate := qc 3;
              index := index denidom_default_settings |});
    [in_bounds_compute|reflexivity].
Defined.

Lemma estimate_reads_only_the_first_count_witness :
  inputs_in_bounds sample_quantities sample_direct sample_labor
    sample_machine_op sample_material sample_machine 13
  ∧ estimate (Explicit Vector512) build_avx512f
      (take (N.to_nat 13) sample_quantities)
      (take (N.to_nat 13) sample_direct) (take (N.to_nat 13) sample_labor)
      (take (N.to_nat 13) sample_machine_op)
      (take (N.to_nat 13) sample_material)
      (take (N.to_nat 13) sample_machine) 13 denidom_default_settings
    = estimate (Explicit Vector512) build_avx512f sample_quantities
        sample_direct sample_labor sample_machine_op sample_material
        sample_machine 13 denidom_default_settings.
Proof.
  split; [in_bounds_compute|].
  apply estimate_reads_only_the_first_count. in_bounds_compute.
Defined.

Lemma estimate_closed_form_witness :
  inputs_in_bounds sample_quantities sample_direct sample_labor
    sample_machine_op sample_material sample_machine 13
  ∧ ∃ r,
      estimate (Explicit Vector256) build_avx512f sample_quantities
        sample_direct sample_labor sample_machine_op sample_material
        sample_machine 13 denidom_default_settings = Some r
      ∧ direct_costs r
        = index denidom_default_settings
          * sequential_dot sample_quantities sample_direct 13
      ∧ labor_costs r
        = index denidom_default_settings
          * sequential_dot sample_quantities sample_labor 13
      ∧ machine_op_costs r
        = index denidom_default_settings
          * sequential_dot sample_quantities sample_machine_op 13
      ∧ material_costs r
        = index denidom_default_settings
          * sequential_dot sample_quantities sample_material 13
      ∧ machine_costs r
        = index denidom_default_settings
          * sequential_dot sample_quantities sample_machine 13
      ∧ overhead r
        = overhead_rate denidom_default_settings
          * (labor_costs r + machine_op_costs r)
      ∧ profit r
        = profit_rate denidom_default_settings
          * (labor_costs r + machine_op_costs r)
      ∧ vat r = vat_rate denidom_default_settings * subtotal r
      ∧ total r
        = (1 + vat_rate denidom_default_settings)
          * index denidom_default_settings
          * (sequential_dot sample_quantities sample_direct 13
             + (overhead_rate denidom_default_settings
                + profit_rate denidom_default_settings)
               * (sequential_dot sample_quantities sample_labor 13
                  + sequential_dot sample_quantities sample_machine_op 13)).
Proof.
  split; [in_bounds_compute|].
  apply estimate_closed_form. in_bounds_compute.
Defined.

Lemma estimate_categories_are_dot_products_witness :
  inputs_in_bounds sample_quantities sample_direct sample_labor
    sample_machine_op sample_material sample_machine 13
  ∧ ∃ r dd dl dmo dmat dm,
      estimate (Explicit Vector512) build_avx512f sample_quantities
        sample_direct sample_labor sample_machine_op sample_material
        sample_machine 13 denidom_default_settings = Some r
      ∧ dot_product_simd build_x86 sample_quantities sample_direct 13
        = Some dd
      ∧ dot_product_simd build_x86 sample_quantities sample_labor 13
        = Some dl
      ∧ dot_product_simd build_x86 sample_quantities sample_machine_op 13
        = Some dmo
      ∧ dot_product_simd build_x86 sample_quantities sample_material 13
        = Some dmat
      ∧ dot_product_simd build_x86 sample_quantities sample_machine 13
        = Some dm
      ∧ direct_costs r = dd * index denidom_default_settings
      ∧ labor_costs r = dl * index denidom_default_settings
      ∧ machine_op_costs r = dmo * index denidom_default_settings
      ∧ material_costs r = dmat * index denidom_default_settings
      ∧ machine_costs r = dm * index denidom_default_settings.
Proof.
  split; [in_bounds_compute|].
  apply estimate_categories_are_dot_products. in_bounds_compute.
Defined.

Lemma material_and_machine_stay_out_of_totals_witness :
  inputs_in_bounds sample_quantities sample_direct sample_labor
    sample_machine_op sample_material sample_machine 13
  ∧ inputs_in_bounds sample_quantities sample_direct sample_labor
      sample_machine_op sample_machine sample_direct 13
  ∧ ∃ r r',
      estimate (Explicit Vector512) build_avx512f sample_quantities
        sample_direct sample_labor sample_machine_op sample_material
        sample_machine 13 denidom_default_settings = Some r
      ∧ estimate (Explicit Vector512) build_avx512f sample_quantities
          sample_direct sample_labor sample_machine_op sample_machine
          sample_direct 13 denidom_default_settings = Some r'
      ∧ direct_costs r = direct_costs r' ∧ labor_costs r = labor_costs r'
      ∧ machine_op_costs r = machine_op_costs r'
      ∧ overhead r = overhead r' ∧ profit r = profit r'
      ∧ subtotal r = subtotal r' ∧ vat r = vat r' ∧ total r = total r'.
Proof.
  split; [in_bounds_compute|]. split; [in_bounds_compute|].
  apply material_and_machine_stay_out_of_totals; in_bounds_compute.
Defined.

Lemma derived_fields_nonneg_witness :
  inputs_in_bounds sample_quantities sample_direct sample_labor
    sample_machine_op sample_material sample_machine 13
  ∧ inputs_nonneg sample_quantities sample_direct sample_labor
      sample_machine_op sample_material sample_machine
  ∧ settings_nonneg denidom_default_settings
  ∧ ∃ r,
      estimate (Explicit Vector512) build_avx512f sample_quantities
        sample_direct sample_labor sample_machine_op sample_material
        sample_machine 13 denidom_default_settings = Some r
      ∧ 0 ≤ overhead r ∧ 0 ≤ profit r ∧ 0 ≤ vat r
      ∧ direct_costs r ≤ subtotal r ∧ subtotal r ≤ total r.
Proof.
  split; [in_bounds_compute|]. split; [repeat split; nonneg_compute|].
  split; [repeat split; vm_compute; discriminate|].
  apply derived_fields_nonneg;
    [in_bounds_compute|repeat split; nonneg_compute
    |repeat split; vm_compute; discriminate].
Defined.

Lemma quantity_and_index_scaling_witness :
  inputs_in_bounds sample_quantities sample_direct sample_labor
    sample_machine_op sample_material sample_machine 13
  ∧ ∃ r,
      estimate (Explicit Vector512) build_avx512f sample_quantities
        sample_direct sample_labor sample_machine_op sample_material
        sample_machine 13 denidom_default_settings = Some r
      ∧ estimate (Explicit Vector512) build_avx512f
          (scale (qc 3) sample_quantities) sample_direct sample_labor
          sample_machine_op sample_material sample_machine 13
          denidom_default_settings
        = Some (scale_result (qc 3) r)
      ∧ estimate (Explicit Vector512) build_avx512f sample_quantities
          sample_direct sample_labor sample_machine_op sample_material
          sample_machine 13 (scale_index (qc 3) denidom_default_settings)
        = Some (scale_result (qc 3) r).
Proof.
  split; [in_bounds_compute|].
  apply quantity_and_index_scaling. in_bounds_compute.
Defined.

Lemma estimate_adds_over_batches_witness :
  length (take 5 sample_quantities) = N.to_nat 5
  ∧ length (take 5 sample_direct) = N.to_nat 5
  ∧ length (take 5 sample_labor) = N.to_nat 5
  ∧ length (take 5 sample_machine_op) = N.to_nat 5
  ∧ length (take 5 sample_material) = N.to_nat 5
  ∧ length (take 5 sample_machine) = N.to_nat 5
  ∧ inputs_in_bounds
      (take 5 sample_quantities ++ drop 5 sample_quantities)
      (take 5 sample_direct ++ drop 5 sample_direct)
      (take 5 sample_labor ++ drop 5 sample_labor)
      (take 5 sample_machine_op ++ drop 5 sample_machine_op)
      (take 5 sample_material ++ drop 5 sample_material)
      (take 5 sample_machine ++ drop 5 sample_machine) (5 + 12)
  ∧ ∃ r1 r2,
      estimate (Explicit Vector512) build_avx512f
        (take 5 sample_quantities) (take 5 sample_direct)
        (take 5 sample_labor) (take 5 sample_machine_op)
        (take 5 sample_material) (take 5 sample_machine) 5
        denidom_default_settings = Some r1
      ∧ estimate (Explicit Vector512) build_avx512f
          (drop 5 sample_quantities) (drop 5 sample_direct)
          (drop 5 sample_labor) (drop 5 sample_machine_op)
          (drop 5 sample_material) (drop 5 sample_machine) 12
          denidom_default_settings = Some r2
      ∧ estimate (Explicit Vector512) build_avx512f
          (take 5 sample_quantities ++ drop 5 sample_quantities)
          (take 5 sample_direct ++ drop 5 sample_direct)
          (take 5 sample_labor ++ drop 5 sample_labor)
          (take 5 sample_machine_op ++ drop 5 sample_machine_op)
          (take 5 sample_material ++ drop 5 sample_material)
          (take 5 sample_machine ++ drop 5 sample_machine) (5 + 12)
          denidom_default_settings
        = Some (result_add r1 r2).
Proof.
  do 6 (split; [reflexivity|]). split; [in_bounds_compute|].
  apply estimate_adds_over_batches; try reflexivity. in_bounds_compute.
Defined.

Lemma estimate_ignores_item_order_witness :
  sample_rows ≡ₚ sample_rows_swapped
  ∧ (DOUBLE_BYTES * N.of_nat (length sample_rows) < SIZE_MODULUS)%N
  ∧ ∃ r,
      estimate (Explicit Scalar) build_avx512f
        (item_quantity <$> sample_rows) (item_direct <$> sample_rows)
        (item_labor <$> sample_rows) (item_machine_op <$> sample_rows)
        (item_material <$> sample_rows) (item_machine <$> sample_rows)
        (N.of_nat (length sample_rows)) denidom_default_settings = Some r
      ∧ estimate (Explicit Scalar) build_avx512f
          (item_quantity <$> sample_rows_swapped)
          (item_direct <$> sample_rows_swapped)
          (item_labor <$> sample_rows_swapped)
          (item_machine_op <$> sample_rows_swapped)
          (item_material <$> sample_rows_swapped)
          (item_machine <$> sample_rows_swapped)
          (N.of_nat (length sample_rows_swapped)) denidom_default_settings
        = Some r.
Proof.
  split; [apply perm_swap|]. split; [reflexivity|].
  apply estimate_ignores_item_order; [apply perm_swap|reflexivity].
Defined.

Lemma dot_product_symmetric_witness :
  c_array sample_quantities 13 ∧ c_array sample_machine 13
  ∧ ∃ ab aa,
      dot_product_simd build_avx512f sample_quantities sample_machine 13
      = Some ab
      ∧ dot_product_simd build_avx512f sample_machine sample_quantities 13
        = Some ab
      ∧ dot_product_simd build_avx512f sample_quantities sample_quantities
          13 = Some aa
      ∧ 0 ≤ aa.
Proof.
  split; [in_bounds_compute|]. split; [in_bounds_compute|].
  apply dot_product_symmetric; in_bounds_compute.
Defined.

Lemma sum_of_item_totals_witness :
  items_in_bounds sample_items 4
  ∧ ∃ mem',
      calculate_items_avx2 build_avx512f sample_items 4 = Some mem'
      ∧ fast_sum_avx2 build_avx512f (results mem') 4
        = Some (sequential_sum
                  (triple_products (quantities sample_items)
                     (unit_costs sample_items) (coefficients sample_items))
                  4)
      ∧ fast_sum_avx512 build_avx512f (results mem') 4
        = fast_sum_avx2 build_avx512f (results mem') 4.
Proof.
  split; [in_bounds_compute|].
  apply sum_of_item_totals. in_bounds_compute.
Defined.

Lemma default_settings_totals_witness :
  inputs_in_bounds sample_quantities sample_direct sample_labor
    sample_machine_op sample_material sample_machine 13
  ∧ ∃ r,
      estimate (AutoSelect cpu_avx2) build_avx512f sample_quantities
        sample_direct sample_labor sample_machine_op sample_material
        sample_machine 13 denidom_default_settings = Some r
      ∧ direct_costs r = sequential_dot sample_quantities sample_direct 13
      ∧ labor_costs r = sequential_dot sample_quantities sample_labor 13
      ∧ machine_op_costs r
        = sequential_dot sample_quantities sample_machine_op 13
      ∧ material_costs r
        = sequential_dot sample_quantities sample_material 13
      ∧ machine_costs r = sequential_dot sample_quantities sample_machine 13
      ∧ overhead r + profit r
        = (Q2Qc (1 # 5) - Q2Qc (1 # 360287970189639680))
          * (labor_costs r + machine_op_costs r)
      ∧ total r
        = (Q2Qc (6 # 5) + Q2Qc (1 # 90071992547409920)) * subtotal r.
Proof.
  split; [in_bounds_compute|].
  apply default_settings_totals. in_bounds_compute.
Defined.
